(** * traduccion-backend: the join / filter / export pipeline of [main.py]

    A shallow embedding of the two request handlers [obtener_datos]
    (GET /data) and [exportar_datos] (POST /export) and of the pandas and
    openpyxl operations they are written with, and of the synchronisation
    of the source files with SharePoint ([sincronizar_archivos], the
    start-up, GET / and POST /sync), which has a part of its own below.

    - A DataFrame is an ordered list of column labels and a list of rows;
      a row maps a label to a cell, and a label with no entry reads as NaN.
    - A Python exception is a value of [exn]; code that may raise lives in
      the [result] monad, and the [try ... except] of each handler is the
      final [match] on it.
    - What pandas computes on numbers, regular expressions and dates is
      the interface [Lib]; every general theorem holds for any
      implementation of it.  [Instancia] is a small implementation used to
      run the handlers on concrete tables.

    The semantics is that of pandas 1.x / 2.x on object columns:
    [astype(str)] renders a missing value as the text nan, and
    [duplicated] and [merge] take two missing keys for equal keys.  The
    empty cells of a sheet are all NaN here; the NaT of a column of dates
    is not told apart from it.  From pandas 3.0 on, which the repository
    does not exclude, [astype(str)] keeps a missing value missing; what
    this makes of the column FECHA FACTURA of GET /data is in the part
    on pandas 3 below. *)

From Stdlib Require Import QArith Ascii.
From stdpp Require Import base decidable option numbers list strings gmap pretty.

(** ** Exceptions and the [result] monad *)

Inductive exn : Type :=
  | FileNotFoundError
  | KeyError (label : string)
  | IndexError
  | ValueError
  | ReError
  | MergeError
  | HTTPException (status_code : nat).

Inductive result (A : Type) : Type :=
  | Ok (a : A)
  | Raise (e : exn).
Arguments Ok {A} a.
Arguments Raise {A} e.

Global Instance exn_eq_dec : EqDecision exn.
Proof. solve_decision. Defined.

Global Instance result_eq_dec {A} `{EqDecision A} : EqDecision (result A).
Proof. solve_decision. Defined.

Global Instance result_ret : MRet result := λ A a, Ok a.
Global Instance result_bind : MBind result := λ A B f m,
  match m with
  | Ok a => f a
  | Raise e => Raise e
  end.

(** ** The library interface

    [num] is the type of the numbers of a numeric column (float64 in
    pandas), with the equality the hash tables of [duplicated] and [merge]
    use.  [num_parse] is what [pd.to_numeric] makes of a text ([None] when
    the text is not numeric).  [re_compile] is [re.compile(pat,
    re.IGNORECASE)] ([None] when it raises [re.error]) and [re_search] is
    [pat.search(text) is not None].  [timestamp] is a [pd.Timestamp];
    [timestamp_parse] and [timestamp_of_num] are [pd.to_datetime] on a
    text and on a number (it may raise, and it may answer NaT, written
    [None]); [strftime_dmy] is [strftime('%d/%m/%Y')]. *)

Class Lib : Type := {
  num : Type;
  num_eq_dec :: EqDecision num;
  num_zero : num;
  num_mul : num → num → num;
  num_add : num → num → num;
  num_isnan : num → bool;
  num_isinf : num → bool;
  num_str : num → string;
  num_parse : string → option num;
  regex : Type;
  re_compile : string → option regex;
  re_search : regex → string → bool;
  timestamp : Type;
  timestamp_eq_dec :: EqDecision timestamp;
  timestamp_str : timestamp → string;
  timestamp_parse : string → result (option timestamp);
  timestamp_of_num : num → result (option timestamp);
  strftime_dmy : timestamp → string;
}.

Section Pipeline.
Context `{L : Lib}.

(** ** Cells

    [CNaN] is the missing value [read_excel] produces ([np.nan]); [CNone]
    is Python's [None], which only [DataFrame.replace] introduces. *)

Inductive cell : Type :=
  | CNaN
  | CNone
  | CStr (s : string)
  | CNum (x : num)
  | CTime (t : timestamp).

Global Instance cell_eq_dec : EqDecision cell.
Proof. solve_decision. Defined.

Global Instance cell_inhabited : Inhabited cell := populate CNaN.

(** [pd.isna] / [pd.notna] on a scalar. *)
Definition isna (c : cell) : bool :=
  match c with
  | CNaN | CNone => true
  | CNum x => num_isnan x
  | CStr _ | CTime _ => false
  end.

Definition notna (c : cell) : bool := negb (isna c).

(** [str(x)], which is also what [astype(str)] applies to every element. *)
Definition py_str (c : cell) : string :=
  match c with
  | CNaN => "nan"
  | CNone => "None"
  | CStr s => s
  | CNum x => num_str x
  | CTime t => timestamp_str t
  end.

Definition astype_str (c : cell) : cell := CStr (py_str c).

(** [Series.str.contains(pat, case=False, na=na)] on one element: an
    element that is not a text yields [na]. *)
Definition str_contains (p : regex) (na : bool) (c : cell) : bool :=
  match c with
  | CStr s => re_search p s
  | _ => na
  end.

(** ** DataFrames *)

Abbreviation row := (gmap string cell).

Record DataFrame : Type := mkDF {
  columns : list string;
  records : list row;
}.

Global Instance DataFrame_eq_dec : EqDecision DataFrame.
Proof. solve_decision. Defined.

(** [df[label]]: the column as a list, [KeyError] when there is no such
    label. *)
Definition loc (r : row) (label : string) : cell := r !!! label.

Definition df_col (df : DataFrame) (label : string) : result (list cell) :=
  if decide (label ∈ columns df)
  then Ok ((λ r, loc r label) <$> records df)
  else Raise (KeyError label).

(** [df[label] = series], the series having one value per row. *)
Definition set_label (cols : list string) (label : string) : list string :=
  if decide (label ∈ cols) then cols else cols ++ [label].

Definition df_set_col (df : DataFrame) (label : string) (vs : list cell)
  : DataFrame :=
  {| columns := set_label (columns df) label;
     records := zip_with (λ r v, <[label := v]> r) (records df) vs |}.

(** [df[mask]]: boolean indexing. *)
Fixpoint boolean_index {A} (mask : list bool) (l : list A) : list A :=
  match mask, l with
  | b :: mask', x :: l' =>
      if b then x :: boolean_index mask' l' else boolean_index mask' l'
  | _, _ => []
  end.

Definition df_mask (df : DataFrame) (mask : list bool) : DataFrame :=
  {| columns := columns df; records := boolean_index mask (records df) |}.

(** [Series.duplicated()] (keep='first'): an element is marked when an
    equal one stands before it. *)
Fixpoint duplicated_from {K} `{EqDecision K} (seen : list K) (ks : list K)
  : list bool :=
  match ks with
  | [] => []
  | k :: ks' => bool_decide (k ∈ seen) :: duplicated_from (k :: seen) ks'
  end.

Definition duplicated {K} `{EqDecision K} (ks : list K) : list bool :=
  duplicated_from [] ks.

(** [l[~key(l).duplicated()]]: the rows whose key is not marked. *)
Definition keep_first {A K} `{EqDecision K} (key : A → K) (l : list A)
  : list A :=
  boolean_index (negb <$> duplicated (key <$> l)) l.

(** The rows kept once the keys of [seen] have been met. *)
Definition kept_from {A K} `{EqDecision K} (key : A → K) (seen : list K)
    (l : list A) : list A :=
  boolean_index (negb <$> duplicated_from seen (key <$> l)) l.


(** [df.iloc[:, 1:]]: the first column is dropped. *)
Definition iloc_drop_first (df : DataFrame) : DataFrame :=
  match columns df with
  | [] => df
  | c :: cols => {| columns := cols; records := delete c <$> records df |}
  end.

(** A row with the given labels, label [c] holding [f c]. *)
Definition row_of (labels : list string) (f : string → cell) : row :=
  list_to_map ((λ c, (c, f c)) <$> labels).

(** [df[[l1, l2, ...]]]: [KeyError] when a label is missing. *)
Definition df_select (df : DataFrame) (labels : list string)
  : result DataFrame :=
  match filter (λ c, c ∉ columns df) labels with
  | [] => Ok {| columns := labels;
                records := (λ r, row_of labels (loc r)) <$> records df |}
  | c :: _ => Raise (KeyError c)
  end.

(** [df.rename(columns=mapping)]: a label outside the mapping is kept. *)
Definition rename_label (mapping : list (string * string)) (c : string)
  : string :=
  default c ((list_to_map mapping : gmap string string) !! c).

Definition df_rename (mapping : list (string * string)) (df : DataFrame)
  : DataFrame :=
  {| columns := rename_label mapping <$> columns df;
     records := (λ r, list_to_map
                   ((λ c, (rename_label mapping c, loc r c)) <$> columns df))
                <$> records df |}.

(** An elementwise map over the whole frame. *)
Definition df_map (f : cell → cell) (df : DataFrame) : DataFrame :=
  {| columns := columns df;
     records := (λ r, row_of (columns df) (λ c, f (loc r c))) <$> records df |}.

(** [df.empty]: some axis has length 0. *)
Definition df_empty (df : DataFrame) : bool :=
  bool_decide (records df = [] ∨ columns df = []).

(** [df.iloc[0]]. *)
Definition iloc0 (df : DataFrame) : result row :=
  match records df with
  | [] => Raise IndexError
  | r :: _ => Ok r
  end.

(** [df.to_dict(orient='records')]. *)
Definition to_dict_records (df : DataFrame) : list (list (string * cell)) :=
  (λ r, (λ c, (c, loc r c)) <$> columns df) <$> records df.

(** [dataframe_to_rows(df, index=False, header=False)]. *)
Definition dataframe_to_rows (df : DataFrame) : list (list cell) :=
  (λ r, loc r <$> columns df) <$> records df.

(** ** The reference table: lines 196-199 (and 294-297) *)

Definition composite_id (modelo codigo : cell) : cell :=
  CStr (py_str modelo +:+ "-" +:+ py_str codigo).

(** What the three assignments of the block leave in one row. *)
Definition id_of (r : row) : cell :=
  composite_id (loc r "Modelo") (loc r "Codigo").

Definition modelo_of (r : row) : cell := loc r "Modelo".

Definition tag (r : row) : row :=
  <["Codigo_Comercial" := loc r "Modelo"]> (<["ID" := id_of r]> r).

Definition deduplicar (a : DataFrame) : result DataFrame :=
  modelo ← df_col a "Modelo";
  codigo ← df_col a "Codigo";
  let a := df_set_col a "ID" (zip_with composite_id modelo codigo) in
  ids ← df_col a "ID";
  let b := df_mask a (negb <$> duplicated ids) in
  modelo_b ← df_col b "Modelo";
  let b := df_mask b (negb <$> duplicated modelo_b) in
  modelo_b ← df_col b "Modelo";
  mret (df_set_col b "Codigo_Comercial" modelo_b).

(** ** [pd.merge(left, right, how='left', on=on)]

    A label the two frames share, the key apart, gets the suffix [_x] on
    the left and [_y] on the right; labels that clash after that raise
    [MergeError] (pandas 2).  Each left row yields one output row per right
    row with an equal key, in the right frame's order, and one row with
    NaN in the right frame's fields when there is none.  The errors pandas
    raises for key columns of different dtypes are outside this model. *)

Definition merge_names (on : string) (own other : list string)
    (suffix : string) : list (string * string) :=
  (λ c, (c, if decide (c ≠ on ∧ c ∈ other) then c +:+ suffix else c)) <$> own.

Definition take_cells (names : list (string * string)) (f : string → cell)
  : list (string * cell) :=
  (λ n, (n.2, f n.1)) <$> names.

Definition join_row (lnames rnames : list (string * string))
    (l : row) (mr : option row) : row :=
  list_to_map
    (take_cells lnames (loc l) ++
     take_cells rnames (λ c, match mr with
                             | Some r => loc r c
                             | None => CNaN
                             end)).

Definition matches (right : DataFrame) (on : string) (l : row) : list row :=
  filter (λ r, loc r on = loc l on) (records right).

Definition merge_left (left right : DataFrame) (on : string)
  : result DataFrame :=
  if decide (on ∈ columns left ∧ on ∈ columns right) then
    let lnames := merge_names on (columns left) (columns right) "_x" in
    let rnames :=
      merge_names on (filter (λ c, c ≠ on) (columns right)) (columns left)
        "_y" in
    let cols := lnames.*2 ++ rnames.*2 in
    if decide (NoDup cols) then
      Ok {| columns := cols;
            records :=
              l ← records left;
              match matches right on l with
              | [] => [join_row lnames rnames l None]
              | ms => (λ r, join_row lnames rnames l (Some r)) <$> ms
              end |}
    else Raise MergeError
  else Raise (KeyError on).

(** ** Numeric coercion and the derived fields: lines 202-208 *)

(** [pd.to_numeric(..., errors='coerce')] on one element. *)
Definition to_numeric (c : cell) : cell :=
  match c with
  | CNum x => CNum x
  | CStr s => match num_parse s with
              | Some x => CNum x
              | None => CNaN
              end
  | CNaN | CNone | CTime _ => CNaN
  end.

(** [Series.fillna(v)]. *)
Definition fillna (v : cell) (c : cell) : cell := if isna c then v else c.

(** The number a coerced value stands for: a number stays, but NaN
    becomes 0; a numeric text is its number; anything else is 0. *)
Definition nan_to_zero (x : num) : num :=
  if num_isnan x then num_zero else x.

Definition valor (c : cell) : num :=
  match c with
  | CNum x => nan_to_zero x
  | CStr s => match num_parse s with
              | Some x => nan_to_zero x
              | None => num_zero
              end
  | CNaN | CNone | CTime _ => num_zero
  end.

(** [*] and [+] on the elements of two numeric columns (after the
    coercion above both operands are numbers; a missing operand gives
    NaN). *)
Definition cell_mul (a b : cell) : cell :=
  match a, b with
  | CNum x, CNum y => CNum (num_mul x y)
  | _, _ => CNaN
  end.

Definition cell_add (a b : cell) : cell :=
  match a, b with
  | CNum x, CNum y => CNum (num_add x y)
  | _, _ => CNaN
  end.

(** One row after lines 202-208. *)
Definition totales_row (r : row) : row :=
  let pcu1 := valor (loc r "PCU1") in
  let cantidad := valor (loc r "Cantidad") in
  let flete := valor (loc r "Flete_US$") in
  <["Precio Total" := CNum (num_add (num_mul pcu1 cantidad) flete)]>
    (<["Sub Total" := CNum (num_mul pcu1 cantidad)]>
       (<["Flete_US$" := CNum flete]>
          (<["Cantidad" := CNum cantidad]> (<["PCU1" := CNum pcu1]> r)))).

Definition coerce_col (df : DataFrame) (label : string) : result DataFrame :=
  col ← df_col df label;
  mret (df_set_col df label (fillna (CNum num_zero) ∘ to_numeric <$> col)).

Definition calcular_totales (df : DataFrame) : result DataFrame :=
  df ← coerce_col df "PCU1";
  df ← coerce_col df "Cantidad";
  df ← coerce_col df "Flete_US$";
  pcu1 ← df_col df "PCU1";
  cantidad ← df_col df "Cantidad";
  let df := df_set_col df "Sub Total" (zip_with cell_mul pcu1 cantidad) in
  sub_total ← df_col df "Sub Total";
  flete ← df_col df "Flete_US$";
  mret (df_set_col df "Precio Total" (zip_with cell_add sub_total flete)).

(** ** Column sets and display names: lines 209-231 and 302-317 *)

Definition columnas_lectura : list string :=
  [ "Item"; "Cantidad"; "Num_OC"; "Num_invoice"; "Codigo"; "Modelo";
    "Descripcion"; "Material"; "Uso"; "PaisOrigen"; "Moneda"; "PCU1";
    "Sub Total"; "Flete_US$"; "Precio Total"; "OperadorLogistico";
    "Fecha_Invoice"; "GrupoImportacion"; "Num_DocTransporte";
    "RazonSocial_Proveedor"; "Incoterm"; "Forma_Pago"; "Status_OCI";
    "Marca" ].

Definition new_columns : list (string * string) :=
  [ ("Cantidad", "Cant");
    ("Num_OC", "Nº O.COMPRA");
    ("Num_invoice", "FACTURA");
    ("PaisOrigen", "País De Origen");
    ("PCU1", "Precio Unitario");
    ("Flete_US$", "Flete");
    ("OperadorLogistico", "TRANSPORTISTA");
    ("Fecha_Invoice", "FECHA FACTURA");
    ("GrupoImportacion", "Nº EMBARQUE");
    ("Num_DocTransporte", "Air Waybill");
    ("RazonSocial_Proveedor", "PROVEEDOR");
    ("Incoterm", "INCOTERM");
    ("Forma_Pago", "FORMA DE PAGO");
    ("Status_OCI", "ESTADO") ].

Definition columnas_export : list string :=
  [ "Item"; "Cant"; "Nº O.COMPRA"; "FACTURA"; "Codigo"; "Modelo";
    "Descripcion"; "Material"; "Uso"; "País De Origen"; "Moneda";
    "Precio Unitario"; "Sub Total"; "Flete"; "Precio Total" ].

(** ** The filter step: lines 233-238 and 319-324 *)

Inductive tipo : Type := embarque | waybill.

Definition tipo_str (type : tipo) : string :=
  match type with
  | embarque => "embarque"
  | waybill => "waybill"
  end.

Definition columna_filtro (type : tipo) : string :=
  match type with
  | embarque => "Nº EMBARQUE"
  | waybill => "Air Waybill"
  end.

Definition compile (value : string) : result regex :=
  match re_compile value with
  | Some p => Ok p
  | None => Raise ReError
  end.

Definition filtrar (type : tipo) (value : string) (df : DataFrame)
  : result DataFrame :=
  col ← df_col df (columna_filtro type);
  p ← compile value;
  mret (df_mask df (str_contains p false ∘ astype_str <$> col)).

(** ** The summary record: lines 248-259 and 326-337 *)

Record SummaryInfo : Type := mkInfo {
  info_TRANSPORTISTA : cell;
  info_FECHA_FACTURA : cell;
  info_N_EMBARQUE : cell;
  info_Air_Waybill : cell;
  info_MARCA : cell;
  info_PROVEEDOR : cell;
  info_INCOTERM : cell;
  info_FORMA_DE_PAGO : cell;
  info_ESTADO : cell;
}.

Global Instance SummaryInfo_eq_dec : EqDecision SummaryInfo.
Proof. solve_decision. Defined.

(** [primera_fila[label]]. *)
Definition fila_get (cols : list string) (fila : row) (label : string)
  : result cell :=
  if decide (label ∈ cols) then Ok (loc fila label) else Raise (KeyError label).

(** [fila[label] if pd.notna(fila[label]) else ""]. *)
Definition campo (cols : list string) (fila : row) (label : string)
  : result cell :=
  c ← fila_get cols fila label;
  mret (if notna c then c else CStr "").

(** [str(fila[label]) if pd.notna(fila[label]) else ""]. *)
Definition campo_str (cols : list string) (fila : row) (label : string)
  : result cell :=
  c ← fila_get cols fila label;
  mret (if notna c then CStr (py_str c) else CStr "").

Definition extraer_info (cols : list string) (primera_fila : row)
  : result SummaryInfo :=
  transportista ← campo cols primera_fila "TRANSPORTISTA";
  fecha ← campo_str cols primera_fila "FECHA FACTURA";
  n_embarque ← campo cols primera_fila "Nº EMBARQUE";
  air_waybill ← campo cols primera_fila "Air Waybill";
  marca ← campo cols primera_fila "Marca";
  proveedor ← campo cols primera_fila "PROVEEDOR";
  incoterm ← campo cols primera_fila "INCOTERM";
  forma_pago ← campo cols primera_fila "FORMA DE PAGO";
  estado ← campo cols primera_fila "ESTADO";
  mret (mkInfo transportista fecha n_embarque air_waybill marca proveedor
          incoterm forma_pago estado).

(** ** The server and the shared start of both handlers *)

(** [df.replace({np.nan: None, np.inf: None, -np.inf: None})] on one
    element. *)
Definition replace_nonfinite (c : cell) : cell :=
  match c with
  | CNaN => CNone
  | CNum x => if num_isnan x || num_isinf x then CNone else CNum x
  | _ => c
  end.

Definition astype_str_col (df : DataFrame) (label : string) : DataFrame :=
  if decide (label ∈ columns df)
  then df_set_col df label ((λ r, astype_str (loc r label)) <$> records df)
  else df.

(** ** The worksheet (openpyxl)

    A cell of the sheet is addressed by (row, column), both from 1.  The
    text of a formula such as [=M10*C10] is kept as the operation and the
    two cells it names; [formula_text] gives the text back.  The [ref] of a
    table is kept as its four boundaries, which is what
    [range_boundaries(table.ref)] reads and what the f-string of line 365
    writes. *)

Inductive formula : Type :=
  | FMul (a b : nat * nat)
  | FAdd (a b : nat * nat).

Inductive wsvalue : Type :=
  | WCell (c : cell)
  | WFormula (f : formula).

Record cellrange : Type := mkRange {
  min_col : nat;
  min_row : nat;
  max_col : nat;
  max_row : nat;
}.

Record workbook : Type := mkWB {
  ws : gmap (nat * nat) wsvalue;
  tables : gmap string cellrange;
}.

Global Instance formula_eq_dec : EqDecision formula.
Proof. solve_decision. Defined.

Global Instance wsvalue_eq_dec : EqDecision wsvalue.
Proof. solve_decision. Defined.

Global Instance cellrange_eq_dec : EqDecision cellrange.
Proof. solve_decision. Defined.

Global Instance workbook_eq_dec : EqDecision workbook.
Proof. solve_decision. Defined.

(** The formulas of a sheet, with their cells. *)
Definition formulas_en (sheet : gmap (nat * nat) wsvalue)
  : list (nat * nat * formula) :=
  omap (λ kv, match kv.2 with
              | WFormula f => Some (kv.1, f)
              | WCell _ => None
              end) (map_to_list sheet).

(** [column_index_from_string]: A is 1, Z is 26, AA is 27. *)
Definition letter_value (a : Ascii.ascii) : nat := Ascii.nat_of_ascii a - 64.

Fixpoint column_index_aux (acc : nat) (s : string) : nat :=
  match s with
  | EmptyString => acc
  | String a s' => column_index_aux (26 * acc + letter_value a) s'
  end.

Definition column_index_from_string (s : string) : nat :=
  column_index_aux 0 s.

(** The cell named by a column letter and a row number, as in [ws[f'N{row}']]. *)
Definition coordinate (col : string) (fila : nat) : nat * nat :=
  (fila, column_index_from_string col).

(** [get_column_letter], for the columns a formula can name here. *)
Definition get_column_letter (col : nat) : string :=
  let low := (col - 1) `mod` 26 in
  let high := (col - 1) `div` 26 in
  (if decide (high = 0) then "" else String (Ascii.ascii_of_nat (64 + high)) "")
  +:+ String (Ascii.ascii_of_nat (65 + low)) "".

Definition cell_name (c : nat * nat) : string :=
  get_column_letter c.2 +:+ pretty c.1.

Definition formula_text (f : formula) : string :=
  match f with
  | FMul a b => "=" +:+ cell_name a +:+ "*" +:+ cell_name b
  | FAdd a b => "=" +:+ cell_name a +:+ "+" +:+ cell_name b
  end.

(** [ws.cell(row=r, column=c, value=v)]: openpyxl leaves the cell as it
    is when the value is [None]. *)
Definition ws_cell (sheet : gmap (nat * nat) wsvalue) (r c : nat) (v : cell)
  : gmap (nat * nat) wsvalue :=
  match v with
  | CNone => sheet
  | _ => <[(r, c) := WCell v]> sheet
  end.

(** The inner loop of lines 361-362, [enumerate(row, start=min_col)]. *)
Fixpoint write_cells (sheet : gmap (nat * nat) wsvalue) (row_idx col : nat)
    (vals : list cell) : gmap (nat * nat) wsvalue :=
  match vals with
  | [] => sheet
  | v :: vals' => write_cells (ws_cell sheet row_idx col v) row_idx (S col) vals'
  end.

(** The outer loop of lines 357-363; the second component is [last_row]. *)
Fixpoint write_rows (sheet : gmap (nat * nat) wsvalue)
    (row_idx last_row col : nat) (rows : list (list cell))
  : gmap (nat * nat) wsvalue * nat :=
  match rows with
  | [] => (sheet, last_row)
  | vals :: rows' =>
      write_rows (write_cells sheet row_idx col vals) (S row_idx) row_idx col
        rows'
  end.

(** Lines 367-369, over [range(start_row, last_row + 1)]. *)
Fixpoint write_formulas (sheet : gmap (nat * nat) wsvalue) (filas : list nat)
  : gmap (nat * nat) wsvalue :=
  match filas with
  | [] => sheet
  | fila :: filas' =>
      let sheet :=
        <[coordinate "N" fila :=
            WFormula (FMul (coordinate "M" fila) (coordinate "C" fila))]> sheet in
      let sheet :=
        <[coordinate "P" fila :=
            WFormula (FAdd (coordinate "O" fila) (coordinate "N" fila))]> sheet in
      write_formulas sheet filas'
  end.

(** Lines 353-369: append the rows below the table, extend its range and
    write the two formulas of every new row. *)
Definition escribir_tabla (sheet : gmap (nat * nat) wsvalue) (ref : cellrange)
    (rows : list (list cell)) : gmap (nat * nat) wsvalue * cellrange :=
  let start_row := max_row ref + 1 in
  let written := write_rows sheet start_row (start_row - 1) (min_col ref) rows in
  let last_row := written.2 in
  (write_formulas written.1 (seq start_row (last_row + 1 - start_row)),
   mkRange (min_col ref) (min_row ref) (max_col ref) last_row).

(** [pd.to_datetime(x)] ([None] is NaT) and [.strftime('%d/%m/%Y')], which
    NaT does not support. *)
Definition to_datetime (c : cell) : result (option timestamp) :=
  match c with
  | CNaN | CNone => Ok None
  | CTime t => Ok (Some t)
  | CStr s => timestamp_parse s
  | CNum x => if num_isnan x then Ok None else timestamp_of_num x
  end.

Definition strftime (t : option timestamp) : result string :=
  match t with
  | Some t => Ok (strftime_dmy t)
  | None => Raise ValueError
  end.

(** ** The server and its two handlers

    A file of [./descargas] is [None] when it is absent; a source file
    that is present is given as the table [read_excel] reads from it
    (after [skiprows]). *)

Record server : Type := mkServer {
  archivos_inicializados : bool;
  traduccion_equipos : option DataFrame;
  compras_oci : option DataFrame;
  plantilla : option workbook;
}.

Definition read_excel (file : option DataFrame) : result DataFrame :=
  match file with
  | Some df => Ok df
  | None => Raise FileNotFoundError
  end.

Definition load_workbook (file : option workbook) : result workbook :=
  match file with
  | Some wb => Ok wb
  | None => Raise FileNotFoundError
  end.

(** Lines 194-201 and 292-299. *)
Definition unir_tablas (srv : server) : result DataFrame :=
  a ← read_excel (traduccion_equipos srv);
  let a := iloc_drop_first a in
  b ← deduplicar a;
  c ← read_excel (compras_oci srv);
  merge_left c b "Codigo_Comercial".

Record DataBody : Type := mkBody {
  data : list (list (string * cell));
  info : option SummaryInfo;
  mensaje : option string;
}.

Inductive response : Type :=
  | JSONResponse (body : DataBody)
  | FileResponse (wb : workbook)
  | HTTPError (status_code : nat).

Global Instance DataBody_eq_dec : EqDecision DataBody.
Proof. solve_decision. Defined.

Global Instance response_eq_dec : EqDecision response.
Proof. solve_decision. Defined.

Definition status (r : response) : nat :=
  match r with
  | JSONResponse _ | FileResponse _ => 200
  | HTTPError n => n
  end.

(** Lines 194-232: the joined, normalised and renamed table of GET /data. *)
Definition preparar_lectura (srv : server) : result DataFrame :=
  df ← unir_tablas srv;
  df ← calcular_totales df;
  df ← df_select df columnas_lectura;
  mret (df_rename new_columns df).

(** Lines 245-263. *)
Definition responder_datos (df : DataFrame) : result DataBody :=
  let df := df_map replace_nonfinite df in
  let df := astype_str_col df "FECHA FACTURA" in
  primera_fila ← iloc0 df;
  info ← extraer_info (columns df) primera_fila;
  mret (mkBody (to_dict_records df) (Some info) None).

(** The [try] block of [obtener_datos]. *)
Definition obtener_datos_try (srv : server) (type : tipo) (value : string)
  : result DataBody :=
  df ← preparar_lectura srv;
  df ← filtrar type value df;
  if df_empty df then
    mret (mkBody [] None
            (Some ("No se encontraron resultados para " +:+ tipo_str type
                   +:+ ": " +:+ value)))
  else responder_datos df.

Definition obtener_datos (srv : server) (type : tipo) (value : string)
  : response :=
  if negb (archivos_inicializados srv) then HTTPError 503
  else
    match obtener_datos_try srv type value with
    | Ok body => JSONResponse body
    | Raise FileNotFoundError => HTTPError 404
    | Raise (KeyError _) => HTTPError 400
    | Raise _ => HTTPError 500
    end.

(** Lines 292-318: the joined and renamed table of POST /export. *)
Definition preparar_export (srv : server) : result DataFrame :=
  df ← unir_tablas srv;
  let zeros := replicate (length (records df)) (CNum num_zero) in
  let df := df_set_col df "Sub Total" zeros in
  let df := df_set_col df "Precio Total" zeros in
  mret (df_rename new_columns df).

(** Lines 349-385: fill the template. *)
Definition llenar_plantilla (srv : server) (cols : list string)
    (primera_fila : row) (info : SummaryInfo) (df_filtered : DataFrame)
  : result workbook :=
  wb ← load_workbook (plantilla srv);
  table ← match tables wb !! "Tabla24" with
          | Some t => Ok t
          | None => Raise (KeyError "Tabla24")
          end;
  let written := escribir_tabla (ws wb) table (dataframe_to_rows df_filtered) in
  let sheet := written.1 in
  let sheet := <[coordinate "D" 2 := WCell (info_TRANSPORTISTA info)]> sheet in
  fecha ← fila_get cols primera_fila "FECHA FACTURA";
  fecha_obj ← to_datetime fecha;
  _ ← strftime fecha_obj;
  let sheet := <[coordinate "D" 4 := WCell (info_N_EMBARQUE info)]> sheet in
  let sheet := <[coordinate "D" 5 := WCell (info_Air_Waybill info)]> sheet in
  let sheet := <[coordinate "K" 2 := WCell (info_PROVEEDOR info)]> sheet in
  let sheet := <[coordinate "K" 3 := WCell (info_INCOTERM info)]> sheet in
  let sheet := <[coordinate "K" 4 := WCell (info_FORMA_DE_PAGO info)]> sheet in
  let sheet := <[coordinate "K" 5 := WCell (info_ESTADO info)]> sheet in
  let sheet := <[coordinate "K" 6 := WCell (info_MARCA info)]> sheet in
  mret (mkWB sheet (<["Tabla24" := written.2]> (tables wb))).

(** The [try] block of [exportar_datos]. *)
Definition exportar_datos_try (srv : server) (type : tipo) (value : string)
  : result workbook :=
  df ← preparar_export srv;
  df_filtered ← filtrar type value df;
  primera_fila ← iloc0 df_filtered;
  info ← extraer_info (columns df_filtered) primera_fila;
  let cols := columns df_filtered in
  df_filtered ← df_select df_filtered columnas_export;
  if df_empty df_filtered then Raise (HTTPException 404)
  else llenar_plantilla srv cols primera_fila info df_filtered.

(** [except FileNotFoundError] answers 404; [except Exception] answers 500
    and also catches the [HTTPException] raised inside the [try]. *)
Definition exportar_datos (srv : server) (type : tipo) (value : string)
  : response :=
  if negb (archivos_inicializados srv) then HTTPError 503
  else
    match exportar_datos_try srv type value with
    | Ok wb => FileResponse wb
    | Raise FileNotFoundError => HTTPError 404
    | Raise _ => HTTPError 500
    end.

(** ** Predicates the statements below use *)

(** A value that is neither NaN nor an infinity. *)
Definition sin_nan_inf (c : cell) : Prop :=
  match c with
  | CNaN => False
  | CNum x => num_isnan x = false ∧ num_isinf x = false
  | CNone | CStr _ | CTime _ => True
  end.

(** The sheet column that holds an export column, the table starting at
    column [min_col ref]. *)
Definition columna_hoja (ref : cellrange) (label : string) : option nat :=
  (λ p, min_col ref + p.1) <$> list_find (λ c, c = label) columnas_export.

Definition producto_de (f : formula) (a b : nat * nat) : Prop :=
  f = FMul a b ∨ f = FMul b a.

Definition suma_de (f : formula) (a b : nat * nat) : Prop :=
  f = FAdd a b ∨ f = FAdd b a.

(** Row [fila] of the sheet has a cell with the product of that row's
    quantity and unit-price cells, and a cell with the sum of that product
    and that row's freight cell. *)
Definition formulas_de_fila (sheet : gmap (nat * nat) wsvalue)
    (ref : cellrange) (fila : nat) : Prop :=
  ∃ cant precio flete cp ct fp ft,
    columna_hoja ref "Cant" = Some cant ∧
    columna_hoja ref "Precio Unitario" = Some precio ∧
    columna_hoja ref "Flete" = Some flete ∧
    sheet !! (fila, cp) = Some (WFormula fp) ∧
    producto_de fp (fila, precio) (fila, cant) ∧
    sheet !! (fila, ct) = Some (WFormula ft) ∧
    suma_de ft (fila, flete) (fila, cp).

End Pipeline.

Abbreviation row := (gmap string cell).

(** ** An implementation of the interface

    Numbers are exact fractions in lowest terms with the two infinities and
    NaN, and they follow the IEEE rules where these show (infinity times 0
    is NaN).  A text is numeric when it is [inf], [-inf], [nan] or a
    decimal numeral with an optional sign.  The regular expressions are the
    literal ones, with [.] for any character but a newline; the engine
    turns down a pattern with any other operator, which Python's [re] may
    accept.  A timestamp is its ISO text at whole seconds; a text is a date
    when it has the shape YYYY-MM-DD, the empty text is NaT, and a number
    is turned down (pandas reads it as nanoseconds since 1970).  Letters
    are compared without case in the ASCII range. *)

Module Instancia.

Inductive fnum : Type :=
  | Fin (q : Q)
  | PInf
  | NInf
  | NaN.

Global Instance Q_eq_dec : EqDecision Q.
Proof. solve_decision. Defined.

Global Instance fnum_eq_dec : EqDecision fnum.
Proof. solve_decision. Defined.

Definition sign (q : Q) : comparison := (Qnum q ?= 0)%Z.

Definition fmul (a b : fnum) : fnum :=
  match a, b with
  | NaN, _ | _, NaN => NaN
  | Fin x, Fin y => Fin (Qred (x * y))
  | Fin x, PInf | PInf, Fin x =>
      match sign x with Gt => PInf | Lt => NInf | Eq => NaN end
  | Fin x, NInf | NInf, Fin x =>
      match sign x with Gt => NInf | Lt => PInf | Eq => NaN end
  | PInf, PInf | NInf, NInf => PInf
  | PInf, NInf | NInf, PInf => NInf
  end.

Definition fadd (a b : fnum) : fnum :=
  match a, b with
  | NaN, _ | _, NaN => NaN
  | Fin x, Fin y => Fin (Qred (x + y))
  | PInf, NInf | NInf, PInf => NaN
  | PInf, _ | _, PInf => PInf
  | NInf, _ | _, NInf => NInf
  end.

Definition fisnan (a : fnum) : bool :=
  match a with NaN => true | _ => false end.

Definition fisinf (a : fnum) : bool :=
  match a with PInf | NInf => true | _ => false end.

(** [str] of a number: 12.0 for a whole number, as Python writes a float;
    a fraction is written numerator/denominator. *)
Definition fstr (a : fnum) : string :=
  match a with
  | Fin q =>
      if decide (Qden q = 1%positive) then pretty (Qnum q) +:+ ".0"
      else pretty (Qnum q) +:+ "/" +:+ pretty (Zpos (Qden q))
  | PInf => "inf"
  | NInf => "-inf"
  | NaN => "nan"
  end.

Definition is_digit (a : Ascii.ascii) : bool :=
  let n := Ascii.nat_of_ascii a in (48 <=? n) && (n <=? 57).

Fixpoint digits_value (acc : Z) (s : string) : option Z :=
  match s with
  | EmptyString => Some acc
  | String a s' =>
      if is_digit a
      then digits_value (10 * acc + Z.of_nat (Ascii.nat_of_ascii a - 48)) s'
      else None
  end.

Fixpoint split_at_dot (s : string) : string * option string :=
  match s with
  | EmptyString => (EmptyString, None)
  | String a s' =>
      if Ascii.eqb a "."%char
      then (EmptyString, Some s')
      else let rest := split_at_dot s' in (String a rest.1, rest.2)
  end.

Definition parse_unsigned (s : string) : option Q :=
  let parts := split_at_dot s in
  let int_part := parts.1 in
  let frac_part := default EmptyString parts.2 in
  if decide (String.length int_part + String.length frac_part = 0) then None
  else
    iv ← digits_value 0 int_part;
    fv ← digits_value 0 frac_part;
    let scale := (10 ^ Z.of_nat (String.length frac_part))%Z in
    Some (Qred (Qmake (iv * scale + fv) (Z.to_pos scale))).

Definition fparse (s : string) : option fnum :=
  if decide (s = "inf") then Some PInf
  else if decide (s = "-inf") then Some NInf
  else if decide (s = "nan") then Some NaN
  else match s with
       | String a s' =>
           if Ascii.eqb a "-"%char
           then (λ q, Fin (Qred (- q))) <$> parse_unsigned s'
           else Fin <$> parse_unsigned s
       | EmptyString => None
       end.

Inductive item : Type :=
  | Lit (a : Ascii.ascii)
  | AnyChar.

Definition lower (a : Ascii.ascii) : Ascii.ascii :=
  let n := Ascii.nat_of_ascii a in
  if (65 <=? n) && (n <=? 90) then Ascii.ascii_of_nat (n + 32) else a.

Definition operators : list nat :=
  [92; 94; 36; 42; 43; 63; 123; 125; 91; 93; 124; 40; 41].

Fixpoint compile_items (s : string) : option (list item) :=
  match s with
  | EmptyString => Some []
  | String a s' =>
      if decide (Ascii.nat_of_ascii a ∈ operators) then None
      else
        rest ← compile_items s';
        Some ((if Ascii.eqb a "."%char then AnyChar else Lit (lower a)) :: rest)
  end.

Fixpoint match_here (p : list item) (s : string) : bool :=
  match p, s with
  | [], _ => true
  | _ :: _, EmptyString => false
  | Lit a :: p', String b s' => Ascii.eqb a (lower b) && match_here p' s'
  | AnyChar :: p', String b s' =>
      negb (Ascii.nat_of_ascii b =? 10) && match_here p' s'
  end.

Fixpoint search (p : list item) (s : string) : bool :=
  match_here p s ||
  match s with
  | EmptyString => false
  | String _ s' => search p s'
  end.

Definition date_shape (s : string) : bool :=
  match s with
  | String y1 (String y2 (String y3 (String y4 (String d1
      (String m1 (String m2 (String d2 (String a1 (String a2 EmptyString)))))))))
    => is_digit y1 && is_digit y2 && is_digit y3 && is_digit y4
       && Ascii.eqb d1 "-"%char && is_digit m1 && is_digit m2
       && Ascii.eqb d2 "-"%char && is_digit a1 && is_digit a2
  | _ => false
  end.

Definition parse_date (s : string) : result (option string) :=
  if decide (s = EmptyString) then Ok None
  else if date_shape s then Ok (Some (s +:+ " 00:00:00"))
  else Raise ValueError.

Definition dmy (t : string) : string :=
  String.substring 8 2 t +:+ "/" +:+ String.substring 5 2 t +:+ "/"
  +:+ String.substring 0 4 t.

Definition lib : Lib :=
  {| num := fnum;
     num_zero := Fin 0;
     num_mul := fmul;
     num_add := fadd;
     num_isnan := fisnan;
     num_isinf := fisinf;
     num_str := fstr;
     num_parse := fparse;
     regex := list item;
     re_compile := compile_items;
     re_search := search;
     timestamp := string;
     timestamp_str := id;
     timestamp_parse := parse_date;
     timestamp_of_num := λ _, Raise ValueError;
     strftime_dmy := dmy |}.

End Instancia.

(** ** Sample files

    A reference sheet with a leading column to drop and two rows of the
    same [Modelo]; a purchase sheet whose second row matches no reference
    row and has no shipment number and no invoice date; a template whose
    table [Tabla24] spans B8:P9. *)

Module Ejemplo.
Import Instancia.
#[local] Existing Instance lib.

Definition txt (s : string) : cell := CStr s.
Definition n (z : Z) : cell := CNum (Fin (inject_Z z)).

Definition traduccion : DataFrame :=
  mkDF [ "Unnamed: 0"; "Modelo"; "Codigo"; "Descripcion"; "Material"; "Uso";
         "Marca" ]
    [ list_to_map [ ("Modelo", txt "M1"); ("Codigo", txt "C1");
                    ("Descripcion", txt "Valvula"); ("Material", txt "Acero");
                    ("Uso", txt "Industrial"); ("Marca", txt "ACME") ];
      list_to_map [ ("Modelo", txt "M1"); ("Codigo", txt "C2");
                    ("Descripcion", txt "Valvula B"); ("Material", txt "Bronce");
                    ("Uso", txt "Naval"); ("Marca", txt "OTRA") ];
      list_to_map [ ("Modelo", txt "M2"); ("Codigo", txt "C9");
                    ("Descripcion", txt "Sensor"); ("Material", txt "PVC");
                    ("Uso", txt "Laboratorio"); ("Marca", txt "ACME") ] ].

Definition columnas_compras : list string :=
  [ "Item"; "Cantidad"; "Num_OC"; "Num_invoice"; "Codigo_Comercial";
    "PaisOrigen"; "Moneda"; "PCU1"; "Flete_US$"; "OperadorLogistico";
    "Fecha_Invoice"; "GrupoImportacion"; "Num_DocTransporte";
    "RazonSocial_Proveedor"; "Incoterm"; "Forma_Pago"; "Status_OCI" ].

Definition compra1 : row :=
  list_to_map
    [ ("Item", n 1); ("Cantidad", txt "2"); ("Num_OC", txt "OC-10");
      ("Num_invoice", txt "F-100"); ("Codigo_Comercial", txt "M1");
      ("PaisOrigen", txt "DE"); ("Moneda", txt "USD"); ("PCU1", txt "12.5");
      ("Flete_US$", n 3); ("OperadorLogistico", txt "DHL");
      ("Fecha_Invoice", CTime "2024-05-01 00:00:00");
      ("GrupoImportacion", txt "EMB-001"); ("Num_DocTransporte", txt "AWB-77");
      ("RazonSocial_Proveedor", txt "Proveedor SA"); ("Incoterm", txt "FOB");
      ("Forma_Pago", txt "30 dias"); ("Status_OCI", txt "Abierta") ].

Definition compra2 : row :=
  list_to_map
    [ ("Item", n 2); ("Cantidad", txt ""); ("Num_OC", txt "OC-11");
      ("Num_invoice", txt "F-101"); ("Codigo_Comercial", txt "M9");
      ("PaisOrigen", txt "US"); ("Moneda", txt "USD"); ("PCU1", txt "abc");
      ("OperadorLogistico", txt "UPS");
      ("Num_DocTransporte", txt "AWB-78");
      ("RazonSocial_Proveedor", txt "Proveedor SA"); ("Incoterm", txt "CIF");
      ("Forma_Pago", txt "Contado"); ("Status_OCI", txt "Cerrada") ].

Definition compras : DataFrame := mkDF columnas_compras [compra1; compra2].

Definition tabla24 : cellrange := mkRange 2 8 16 9.

Definition plantilla_xlsx : workbook :=
  mkWB ∅ {[ "Tabla24" := tabla24 ]}.

Definition srv : server :=
  mkServer true (Some traduccion) (Some compras) (Some plantilla_xlsx).

(** The same server with a template whose table spans A8:O9. *)
Definition tabla_en_A : cellrange := mkRange 1 8 15 9.

Definition srv_A : server :=
  mkServer true (Some traduccion) (Some compras)
    (Some (mkWB ∅ {[ "Tabla24" := tabla_en_A ]})).

(** The tables the pipeline goes through on these files. *)
Definition hoja_datos : DataFrame := iloc_drop_first traduccion.

Definition referencia : DataFrame :=
  match deduplicar hoja_datos with
  | Ok b => b
  | Raise _ => mkDF [] []
  end.

Definition union : DataFrame :=
  match merge_left compras referencia "Codigo_Comercial" with
  | Ok df => df
  | Raise _ => mkDF [] []
  end.

Definition con_totales : DataFrame :=
  match calcular_totales union with
  | Ok df => df
  | Raise _ => mkDF [] []
  end.

Definition lectura : DataFrame :=
  match preparar_lectura srv with
  | Ok df => df
  | Raise _ => mkDF [] []
  end.

Definition filtrado (tabla : result DataFrame) (type : tipo) (value : string)
  : DataFrame :=
  match tabla ≫= filtrar type value with
  | Ok df => df
  | Raise _ => mkDF [] []
  end.

Definition cuerpo (r : response) : DataBody :=
  match r with
  | JSONResponse body => body
  | _ => mkBody [] None None
  end.

Definition libro (r : response) : workbook :=
  match r with
  | FileResponse wb => wb
  | _ => mkWB ∅ ∅
  end.

Definition para_exportar : DataFrame :=
  match df_select (filtrado (preparar_export srv) embarque "emb")
          columnas_export with
  | Ok df => df
  | Raise _ => mkDF [] []
  end.

End Ejemplo.

(** * Synchronisation with SharePoint: lines 24-179

    [sincronizar_archivos] asks MSAL for a token, finds the document
    drive of the site through Microsoft Graph, and downloads the files of
    [archivos_config] into [download_dir].

    - Every exception raised in this part is caught by an
      [except Exception] that only reads [str(e)]: an exception is its
      message, and code that may raise lives in [intento].
    - The network is the environment: what MSAL answers, what
      [requests.get] answers to a URL and an Authorization header (the
      same answer for the whole of one synchronisation), and the order in
      which the downloads complete.  A JSON body is an object; of its
      fields the model keeps those the code reads, each with the type
      Graph documents, and a field that is absent is [None].
    - The disk is a map from paths to the bytes of the files.  Opening a
      file of [download_dir] for writing succeeds: line 36 creates the
      directory. *)

Inductive intento (A : Type) : Type :=
  | Hecho (a : A)
  | Falla (texto : string).
Arguments Hecho {A} a.
Arguments Falla {A} texto.

Global Instance intento_eq_dec {A} `{EqDecision A} : EqDecision (intento A).
Proof. solve_decision. Defined.

Global Instance intento_ret : MRet intento := λ A a, Hecho a.
Global Instance intento_bind : MBind intento := λ A B f m,
  match m with
  | Hecho a => f a
  | Falla s => Falla s
  end.

(** [d[k]] on a dict whose entry for [k] is [v]: a missing key raises
    [KeyError(k)], whose [str] is [repr(k)]. *)
Definition subscript {A} (k : string) (v : option A) : intento A :=
  match v with
  | Some a => Hecho a
  | None => Falla ("'" +:+ k +:+ "'")
  end.

(** [sub in s] on two [str]. *)
Definition contiene (sub s : string) : bool :=
  bool_decide (is_Some (String.index 0 sub s)).

(** [os.path.join(a, b)] of posixpath. *)
Fixpoint endswith_sep (s : string) : bool :=
  match s with
  | EmptyString => false
  | String c EmptyString => bool_decide (c = "/"%char)
  | String _ rest => endswith_sep rest
  end.

Definition os_path_join (a b : string) : string :=
  if String.prefix "/" b then b
  else if bool_decide (a = EmptyString) || endswith_sep a then a +:+ b
  else a +:+ "/" +:+ b.

Record config : Type := mkConfig {
  unique_id : string;
  nombre : string;
}.

Global Instance config_eq_dec : EqDecision config.
Proof. solve_decision. Defined.

Definition archivos_config : list config :=
  [ mkConfig "C36C72E3-D62D-4165-9042-5F0F16635B56" "002_Compras_OCI.xlsx";
    mkConfig "BE104FCC-839F-49C1-A73B-CD0285A6858C" "Traduccion-Equipos.xlsx" ].

Definition download_dir : string := "./descargas".

(** An entry of the list of drives, and the fields of a JSON body. *)
Record drive : Type := mkDrive {
  d_name : option string;
  d_id : option string;
}.

Global Instance drive_eq_dec : EqDecision drive.
Proof. solve_decision. Defined.

Record cuerpo_json : Type := mkCuerpo {
  c_id : option string;
  c_value : option (list drive);
  c_downloadUrl : option string;
}.

(** A [requests.Response]: [json] raises when the body is not JSON;
    [content] has one character per byte. *)
Record http_response : Type := mkResponse {
  status_code : nat;
  json : intento cuerpo_json;
  content : string;
}.

Record entorno : Type := mkEntorno {
  (** [ConfidentialClientApplication(...).acquire_token_for_client(...)]:
      it raises, or returns a dict with or without [access_token] *)
  msal : intento (option string);
  (** [requests.get(url, headers)], the headers being the Authorization
      header or none; it raises, or returns a response *)
  requests_get : string → option string → intento http_response;
  (** the order in which [as_completed] yields the downloads *)
  orden : list config;
}.

Abbreviation disco := (gmap string string).

(** Lines 41-50. *)
Definition obtener_token (e : entorno) : intento string :=
  result ← msal e;
  subscript "access_token" result.

(** Lines 66-70: the first drive whose name contains Documentos. *)
Fixpoint buscar_documentos (drives : list drive) : intento (option drive) :=
  match drives with
  | [] => Hecho None
  | d :: rest =>
      name ← subscript "name" (d_name d);
      if contiene "Documentos" name then Hecho (Some d)
      else buscar_documentos rest
  end.

Definition site_url : string :=
  "https://graph.microsoft.com/v1.0/sites/corsusaadmin.sharepoint.com:/sites/logistica".

(** Lines 53-75.  A drive that was found is a dict with a name, hence
    true; [drives[0]] of an empty list raises IndexError. *)
Definition obtener_drive_id (e : entorno) (token : string) : intento string :=
  let headers := Some ("Bearer " +:+ token) in
  site_response ← requests_get e site_url headers;
  if bool_decide (status_code site_response ≠ 200) then
    Falla ("Error al obtener sitio: " +:+ pretty (status_code site_response))
  else
    site ← json site_response;
    site_id ← subscript "id" (c_id site);
    let drives_url :=
      "https://graph.microsoft.com/v1.0/sites/" +:+ site_id +:+ "/drives" in
    drives_response ← requests_get e drives_url headers;
    body ← json drives_response;
    drives ← subscript "value" (c_value body);
    document_drive ← buscar_documentos drives;
    document_drive ← match document_drive with
                     | Some d => Hecho d
                     | None =>
                         match drives with
                         | d :: _ => Hecho d
                         | [] => Falla "list index out of range"
                         end
                     end;
    subscript "id" (d_id document_drive).

(** The [try] block of [descargar_archivo], lines 80-103: the pair it
    returns and the disk it leaves. *)
Definition descargar_archivo_try (e : entorno) (config : config)
    (drive_id : string) (headers : option string) (download_dir : string)
    (d : disco) : intento (option string * option string * disco) :=
  let unique_id := unique_id config in
  let nombre := nombre config in
  let file_url :=
    "https://graph.microsoft.com/v1.0/drives/" +:+ drive_id +:+ "/items/"
      +:+ unique_id in
  file_response ← requests_get e file_url headers;
  if bool_decide (status_code file_response ≠ 200) then
    Hecho (None,
           Some ("Error al obtener info del archivo " +:+ nombre +:+ ": "
                   +:+ pretty (status_code file_response)), d)
  else
    file_data ← json file_response;
    let download_url := c_downloadUrl file_data in
    match download_url with
    | Some (String _ _ as url) =>
        file_content ← requests_get e url None;
        if bool_decide (status_code file_content ≠ 200) then
          Hecho (None,
                 Some ("Error al descargar " +:+ nombre +:+ ": "
                         +:+ pretty (status_code file_content)), d)
        else
          let ruta_archivo := os_path_join download_dir nombre in
          Hecho (Some ruta_archivo, None,
                 <[ruta_archivo := content file_content]> d)
    | Some EmptyString | None =>
        Hecho (None,
               Some ("No se pudo obtener URL de descarga para " +:+ nombre), d)
    end.

(** Lines 78-106. *)
Definition descargar_archivo (e : entorno) (config : config)
    (drive_id : string) (headers : option string) (download_dir : string)
    (d : disco) : option string * option string * disco :=
  match descargar_archivo_try e config drive_id headers download_dir d with
  | Hecho r => r
  | Falla s =>
      (None, Some ("Error descargando " +:+ nombre config +:+ ": " +:+ s), d)
  end.

Record reporte : Type := mkReporte {
  exitoso : bool;
  archivos_descargados : nat;
  total_archivos : nat;
  errores : list string;
}.

Global Instance reporte_eq_dec : EqDecision reporte.
Proof. solve_decision. Defined.

(** One turn of the loop of lines 124-134.  [descargar_archivo] raises
    nothing, so the [except] of line 132 has nothing to catch. *)
Definition recoger (e : entorno) (drive_id : string) (headers : option string)
    (acc : list (option string) * list string * disco) (config : config)
  : list (option string) * list string * disco :=
  let '(archivos_descargados, errores, d) := acc in
  let '(ruta, error, d) :=
    descargar_archivo e config drive_id headers download_dir d in
  match error with
  | Some (String _ _ as error) => (archivos_descargados, errores ++ [error], d)
  | Some EmptyString | None => (archivos_descargados ++ [ruta], errores, d)
  end.

(** Lines 109-149.  The downloads are taken one after the other, in the
    order in which they complete. *)
Definition sincronizar_archivos (e : entorno) (d : disco) : reporte * disco :=
  match
    token ← obtener_token e;
    drive_id ← obtener_drive_id e token;
    mret (token, drive_id)
  with
  | Hecho (token, drive_id) =>
      let headers := Some ("Bearer " +:+ token) in
      let '(archivos_descargados, errores, d) :=
        foldl (recoger e drive_id headers) ([], [], d) (orden e) in
      (mkReporte (bool_decide (length errores = 0))
                 (length archivos_descargados)
                 (length archivos_config) errores, d)
  | Falla s => (mkReporte false 0 (length archivos_config) [s], d)
  end.

(** The process: the files of the disk and the flag
    [archivos_inicializados]. *)
Record estado : Type := mkEstado {
  descargas : disco;
  inicializados : bool;
}.

(** Lines 152-162, without what it prints. *)
Definition startup_event (e : entorno) (st : estado) : estado :=
  let '(resultado, d) := sincronizar_archivos e (descargas st) in
  if exitoso resultado then mkEstado d true
  else mkEstado d (inicializados st).

(** Lines 165-170. *)
Definition read_root (st : estado) : string * bool :=
  ("API de Traducción activa", inicializados st).

(** Lines 173-179. *)
Definition sincronizar (e : entorno) (st : estado) : reporte * estado :=
  let '(resultado, d) := sincronizar_archivos e (descargas st) in
  if exitoso resultado then (resultado, mkEstado d true)
  else (resultado, mkEstado d (inicializados st)).

(** ** The server the handlers see

    The handlers read [Traduccion-Equipos.xlsx], [002_Compras_OCI.xlsx]
    and [Plantilla.xlsx] of [download_dir]; [leer_datos] and
    [leer_compras] are what [read_excel] makes of the bytes of a source
    file and [abrir] what [load_workbook] makes of those of the
    template. *)

Section Montaje.
Context `{L : Lib}.
Context (leer_datos leer_compras : string → DataFrame).
Context (abrir : string → workbook).

Definition servidor (st : estado) : server :=
  mkServer (inicializados st)
    (leer_datos <$>
       descargas st !! os_path_join download_dir "Traduccion-Equipos.xlsx")
    (leer_compras <$>
       descargas st !! os_path_join download_dir "002_Compras_OCI.xlsx")
    (abrir <$> descargas st !! os_path_join download_dir "Plantilla.xlsx").

End Montaje.

(** The paths the synchronisation writes. *)
Definition rutas_config : list string :=
  (λ c, os_path_join download_dir (nombre c)) <$> archivos_config.

(** ** A sample network

    A site with two drives, the second of which is the document drive;
    the purchase file downloads, the reference file is answered with
    404. *)

Module EjemploRed.

Definition sin_cuerpo : cuerpo_json := mkCuerpo None None None.

Definition drives : list drive :=
  [ mkDrive (Some "Paginas") (Some "drive-1");
    mkDrive (Some "Documentos compartidos") (Some "drive-2") ].

Definition get (traduccion : nat) (url : string) (headers : option string)
  : intento http_response :=
  if bool_decide (url = site_url) then
    match headers with
    | Some "Bearer tok" =>
        Hecho (mkResponse 200 (Hecho (mkCuerpo (Some "sitio") None None)) "")
    | _ => Hecho (mkResponse 401 (Hecho sin_cuerpo) "")
    end
  else if bool_decide
            (url = "https://graph.microsoft.com/v1.0/sites/sitio/drives") then
    Hecho (mkResponse 200 (Hecho (mkCuerpo None (Some drives) None)) "")
  else if bool_decide
            (url = "https://graph.microsoft.com/v1.0/drives/drive-2/items/C36C72E3-D62D-4165-9042-5F0F16635B56") then
    Hecho (mkResponse 200
             (Hecho (mkCuerpo None None (Some "https://cdn/compras"))) "")
  else if bool_decide
            (url = "https://graph.microsoft.com/v1.0/drives/drive-2/items/BE104FCC-839F-49C1-A73B-CD0285A6858C") then
    Hecho (mkResponse traduccion
             (Hecho (mkCuerpo None None (Some "https://cdn/traduccion"))) "")
  else if bool_decide (url = "https://cdn/compras") then
    Hecho (mkResponse 200 (Falla "no es JSON") "bytes de compras")
  else if bool_decide (url = "https://cdn/traduccion") then
    Hecho (mkResponse 200 (Falla "no es JSON") "bytes de traduccion")
  else Falla "sin conexion".

(** The reference file is answered with [traduccion]. *)
Definition red (traduccion : nat) (token : option string)
    (orden : list config) : entorno :=
  mkEntorno (Hecho token) (get traduccion) orden.

Definition disco_inicial : disco :=
  {[ "./descargas/Plantilla.xlsx" := "bytes de plantilla" ]}.

End EjemploRed.

(** ** Variants of the sample files

    The sample server without its reference file, with a reference sheet
    that has no [Modelo] column, with a purchase sheet that has no
    [Num_OC] column, and without its template; and the values the export
    handler goes through on a table. *)

Module Variantes.
Import Instancia Ejemplo.
#[local] Existing Instance lib.

Definition srv_sin_traduccion : server :=
  mkServer true None (Some compras) (Some plantilla_xlsx).

Definition srv_sin_modelo : server :=
  mkServer true (Some (mkDF [ "Unnamed: 0"; "Codigo" ] [])) None None.

Definition srv_sin_num_oc : server :=
  mkServer true (Some traduccion)
    (Some (mkDF (filter (λ c, c ≠ "Num_OC") columnas_compras)
                [delete "Num_OC" compra1]))
    (Some plantilla_xlsx).

Definition srv_sin_plantilla : server :=
  mkServer true (Some traduccion) (Some compras) None.

Definition tabla (r : result DataFrame) : DataFrame :=
  match r with
  | Ok df => df
  | Raise _ => mkDF [] []
  end.

Definition primera (df : DataFrame) : row := default ∅ (head (records df)).

Definition resumen (df : DataFrame) : SummaryInfo :=
  match extraer_info (columns df) (primera df) with
  | Ok i => i
  | Raise _ => mkInfo CNone CNone CNone CNone CNone CNone CNone CNone CNone
  end.

End Variantes.

(** ** Lines 245-247 on pandas 3

    From pandas 3.0 on, [astype(str)] gives a column of the [str] dtype,
    in which a missing value ([None], NaN, NaT) stays missing and reads
    as NaN; a value that is not missing becomes its [str], as before. *)

Section Pandas3.
Context `{L : Lib}.

Definition astype_str_pandas3 (c : cell) : cell :=
  if isna c then CNaN else CStr (py_str c).

(** The values of the column FECHA FACTURA that [to_dict] reads, one per
    row of the filtered table [df]: line 245 and then line 247.  Whether
    line 245 leaves [None] or NaN for a missing date makes no difference
    to them. *)
Definition fecha_factura_pandas3 (df : DataFrame) : list cell :=
  (λ r, astype_str_pandas3 (replace_nonfinite (loc r "FECHA FACTURA")))
    <$> records df.

End Pandas3.

(** ** Further predicates *)

Section Predicados.
Context `{L : Lib}.

(** No field of a summary is null. *)
Definition campos_no_nulos (i : SummaryInfo) : Prop :=
  notna (info_TRANSPORTISTA i) = true ∧ notna (info_FECHA_FACTURA i) = true ∧
  notna (info_N_EMBARQUE i) = true ∧ notna (info_Air_Waybill i) = true ∧
  notna (info_MARCA i) = true ∧ notna (info_PROVEEDOR i) = true ∧
  notna (info_INCOTERM i) = true ∧ notna (info_FORMA_DE_PAGO i) = true ∧
  notna (info_ESTADO i) = true.

(** The cells lines 371-382 assign. *)
Definition celdas_resumen : list (nat * nat) :=
  [ coordinate "D" 2; coordinate "D" 4; coordinate "D" 5; coordinate "K" 2;
    coordinate "K" 3; coordinate "K" 4; coordinate "K" 5; coordinate "K" 6 ].

End Predicados.

(** * Properties *)

Lemma bind_Ok {A B} (f : A → result B) (m : result A) (b : B) :
  m ≫= f = Ok b → ∃ a, m = Ok a ∧ f a = Ok b.
Proof. destruct m as [a|e]; simpl; [eauto | discriminate]. Qed.

Ltac inv_bind H :=
  let a := fresh "a" in
  let Ha := fresh "Ha" in
  apply bind_Ok in H as (a & Ha & H).

(** ** Boolean indexing and [duplicated] *)

Section Lists.
Context {A K : Type} `{EqDecision K}.
Implicit Types (l : list A) (mask : list bool) (key : A → K).

Lemma boolean_index_fmap {B} (f : A → B) mask l :
  boolean_index mask (f <$> l) = f <$> boolean_index mask l.
Proof.
  revert l. induction mask as [|b mask IH]; intros [|x l]; simpl; try done.
  destruct b; simpl; by rewrite IH.
Qed.

Lemma boolean_index_sublist mask l : boolean_index mask l `sublist_of` l.
Proof.
  revert l. induction mask as [|b mask IH]; intros [|x l]; simpl;
    try apply sublist_nil_l.
  destruct b; [apply sublist_skip | apply sublist_cons]; apply IH.
Qed.

Lemma boolean_index_fmap_pred (P : A → bool) l :
  boolean_index (P <$> l) l = filter (λ x, P x = true) l.
Proof.
  induction l as [|x l IH]; [done|].
  rewrite fmap_cons, filter_cons. cbn [boolean_index]. case_decide as HP.
  - rewrite HP. by f_equal.
  - by destruct (P x).
Qed.

Lemma kept_from_cons key seen x l :
  kept_from key seen (x :: l) =
  if decide (key x ∈ seen) then kept_from key (key x :: seen) l
  else x :: kept_from key (key x :: seen) l.
Proof.
  unfold kept_from; simpl. case_bool_decide; simpl.
  - by rewrite decide_True.
  - by rewrite decide_False.
Qed.


Lemma kept_from_elem key seen l y :
  y ∈ kept_from key seen l → (key y ∉ seen) ∧ y ∈ l.
Proof.
  revert seen. induction l as [|x l IH]; intros seen.
  - unfold kept_from; simpl. by intros ?%elem_of_nil.
  - rewrite kept_from_cons. case_decide as Hx.
    + intros [Hs Hl]%IH. split; [|by right].
      intros ?. apply Hs. by right.
    + intros [->|[Hs Hl]%IH]%elem_of_cons; [split; [done|by left]|].
      split; [|by right]. intros ?. apply Hs. by right.
Qed.

Lemma kept_from_NoDup key seen l : NoDup (key <$> kept_from key seen l).
Proof.
  revert seen. induction l as [|x l IH]; intros seen.
  - unfold kept_from; simpl. constructor.
  - rewrite kept_from_cons. case_decide as Hx; [apply IH|].
    rewrite fmap_cons. constructor; [|apply IH].
    intros (y & Hy & Hin)%list_elem_of_fmap.
    apply kept_from_elem in Hin as [Hs _]. apply Hs. rewrite Hy. by left.
Qed.

Lemma keep_first_NoDup key l : NoDup (key <$> keep_first key l).
Proof. apply kept_from_NoDup. Qed.

Lemma keep_first_sublist key l : keep_first key l `sublist_of` l.
Proof. apply boolean_index_sublist. Qed.





Lemma zip_with_fmap_same {B C} (g : A → B → C) (f : A → B) l :
  zip_with g l (f <$> l) = (λ x, g x (f x)) <$> l.
Proof. induction l as [|x l IH]; [done|]. cbn. f_equal. exact IH. Qed.

Lemma zip_with_fmap_fmap {B C D} (g : B → C → D) (f1 : A → B) (f2 : A → C) l :
  zip_with g (f1 <$> l) (f2 <$> l) = (λ x, g (f1 x) (f2 x)) <$> l.
Proof. induction l as [|x l IH]; [done|]. cbn. f_equal. exact IH. Qed.


End Lists.

(** ** Columns and rows of a frame *)

Section Frames.
Context `{L : Lib}.
Implicit Types (df : DataFrame) (r : row) (label : string).

Lemma df_col_in df label :
  label ∈ columns df → df_col df label = Ok ((λ r, loc r label) <$> records df).
Proof. intros Hin. unfold df_col. by rewrite decide_True. Qed.

Lemma df_col_Ok df label vs :
  df_col df label = Ok vs →
  label ∈ columns df ∧ vs = (λ r, loc r label) <$> records df.
Proof. unfold df_col. case_decide; naive_solver. Qed.

Lemma set_label_self cols label : label ∈ set_label cols label.
Proof.
  unfold set_label. case_decide; [done|].
  apply elem_of_app. right. by left.
Qed.

Lemma set_label_mono cols label c : c ∈ cols → c ∈ set_label cols label.
Proof.
  unfold set_label. case_decide; [done|]. intros ?. apply elem_of_app. by left.
Qed.

Lemma loc_insert_eq r label v : loc (<[label := v]> r) label = v.
Proof. apply lookup_total_insert_eq. Qed.

Lemma loc_insert_ne r label label' v :
  label ≠ label' → loc (<[label := v]> r) label' = loc r label'.
Proof. apply lookup_total_insert_ne. Qed.

Lemma df_set_col_records df label (f : row → cell) :
  records (df_set_col df label (f <$> records df)) =
  (λ r, <[label := f r]> r) <$> records df.
Proof. simpl. apply zip_with_fmap_same. Qed.

Lemma df_set_col_eq df label (f : row → cell) :
  df_set_col df label (f <$> records df) =
  mkDF (set_label (columns df) label) ((λ r, <[label := f r]> r) <$> records df).
Proof. unfold df_set_col. f_equal. apply zip_with_fmap_same. Qed.

Lemma df_col_fmap {A} cols (g : A → row) (l : list A) label :
  label ∈ cols →
  df_col (mkDF cols (g <$> l)) label = Ok ((λ x, loc (g x) label) <$> l).
Proof.
  intros Hin. rewrite df_col_in by done. simpl.
  by rewrite <- list_fmap_compose.
Qed.

Lemma df_mask_fmap {A} cols (g : A → row) (l : list A) mask :
  df_mask (mkDF cols (g <$> l)) mask = mkDF cols (g <$> boolean_index mask l).
Proof. unfold df_mask; simpl. by rewrite boolean_index_fmap. Qed.

(** The three assignments and the two masks of the block, in one
    equation. *)
Lemma deduplicar_eq (a : DataFrame) :
  "Modelo" ∈ columns a → "Codigo" ∈ columns a →
  deduplicar a =
  Ok {| columns := set_label (set_label (columns a) "ID") "Codigo_Comercial";
        records := tag <$> keep_first modelo_of (keep_first id_of (records a)) |}.
Proof.
  intros Hm Hc. unfold deduplicar.
  rewrite (df_col_in a "Modelo"), (df_col_in a "Codigo") by done. simpl.
  rewrite zip_with_fmap_fmap.
  change (λ x : row, composite_id (loc x "Modelo") (loc x "Codigo")) with id_of.
  rewrite df_set_col_eq.
  rewrite df_col_fmap by apply set_label_self. simpl.
  rewrite (list_fmap_ext _ id_of (records a))
    by (intros i r _; apply loc_insert_eq).
  rewrite df_mask_fmap. fold (keep_first id_of (records a)).
  rewrite df_col_fmap by (by apply set_label_mono). simpl.
  rewrite (list_fmap_ext _ modelo_of (keep_first id_of (records a)))
    by (intros i r _; by apply loc_insert_ne).
  rewrite df_mask_fmap.
  fold (keep_first modelo_of (keep_first id_of (records a))).
  rewrite df_col_fmap by (by apply set_label_mono). simpl.
  unfold df_set_col; simpl. f_equal. f_equal.
  rewrite zip_with_fmap_fmap. apply list_fmap_ext. intros i r _.
  unfold tag. by rewrite loc_insert_ne.
Qed.

End Frames.

(** ** The reference table after deduplication *)

Section Deduplicacion.
Context `{L : Lib}.

Lemma modelo_of_tag (r : row) : modelo_of (tag r) = modelo_of r.
Proof. unfold modelo_of, tag. by rewrite !loc_insert_ne. Qed.


Lemma deduplicar_columns (a b : DataFrame) :
  deduplicar a = Ok b → "Modelo" ∈ columns a ∧ "Codigo" ∈ columns a.
Proof.
  unfold deduplicar. intros H.
  inv_bind H. apply df_col_Ok in Ha as [? _].
  inv_bind H. apply df_col_Ok in Ha as [? _]. done.
Qed.



Lemma deduplicar_NoDup (a b : DataFrame) :
  deduplicar a = Ok b →
  NoDup ((λ r, loc r "Modelo") <$> records b) ∧
  NoDup ((λ r, loc r "Codigo_Comercial") <$> records b) ∧
  NoDup ((λ r, loc r "ID") <$> records b).
Proof.
  intros H. destruct (deduplicar_columns _ _ H) as [Hm Hc].
  rewrite deduplicar_eq in H by done. injection H as <-. simpl.
  rewrite <- !list_fmap_compose.
  set (kept := keep_first id_of (records a)).
  assert (NoDup (modelo_of <$> keep_first modelo_of kept)) as Hmod
    by apply keep_first_NoDup.
  split_and!.
  - erewrite list_fmap_ext; [exact Hmod|].
    intros i r _. apply modelo_of_tag.
  - erewrite list_fmap_ext; [exact Hmod|].
    intros i r _. simpl. unfold tag. by rewrite loc_insert_eq.
  - erewrite (list_fmap_ext _ id_of).
    2:{ intros i r _. simpl. unfold tag.
        rewrite loc_insert_ne by done. apply loc_insert_eq. }
    eapply sublist_NoDup; [apply (keep_first_NoDup id_of (records a))|].
    apply fmap_sublist, keep_first_sublist.
Qed.

(** C4.  After deduplication every [Modelo] value, every join key
    [Codigo_Comercial] (the copy of [Modelo]) and every composite key
    [Modelo-Codigo] stands in at most one row of the lookup table. *)
Theorem dedup_unique_keys (a b : DataFrame) :
  deduplicar a = Ok b →
  NoDup ((λ r, loc r "Modelo") <$> records b) ∧
  NoDup ((λ r, loc r "Codigo_Comercial") <$> records b) ∧
  NoDup ((λ r, loc r "ID") <$> records b).
Proof. apply deduplicar_NoDup. Qed.

End Deduplicacion.

(** ** The left join *)

Section Merge.
Context `{L : Lib}.

Lemma filter_key_unique {A K} `{EqDecision K} (key : A → K) (l : list A) k :
  NoDup (key <$> l) →
  filter (λ x, key x = k) l = option_list (head (filter (λ x, key x = k) l)).
Proof.
  induction l as [|x l IH]; [done|].
  rewrite fmap_cons, NoDup_cons. intros [Hx Hl].
  rewrite filter_cons. case_decide as Hk; [|by apply IH].
  simpl. f_equal.
  destruct (filter (λ x, key x = k) l) as [|y ys] eqn:Hf; [done|].
  assert (y ∈ filter (λ x, key x = k) l) as Hy by (rewrite Hf; by left).
  apply list_elem_of_filter in Hy as [Hky Hy].
  destruct Hx. rewrite Hk, <- Hky. by apply list_elem_of_fmap_2.
Qed.

Lemma bind_singleton {A B} (f : A → list B) (g : A → B) (l : list A) :
  (∀ x, f x = [g x]) → l ≫= f = g <$> l.
Proof.
  intros Hf. induction l as [|x l IH]; [done|].
  rewrite bind_cons, Hf, IH. done.
Qed.

Lemma take_cells_keys names (f : string → cell) :
  (take_cells names f).*1 = names.*2.
Proof. unfold take_cells. rewrite <- list_fmap_compose. done. Qed.

Lemma join_row_left lnames rnames (l : row) mr n :
  NoDup (lnames.*2 ++ rnames.*2) → n ∈ lnames →
  loc (join_row lnames rnames l mr) n.2 = loc l n.1.
Proof.
  intros Hnd Hn. unfold loc at 1, join_row.
  apply lookup_total_correct, elem_of_list_to_map.
  - by rewrite fmap_app, !take_cells_keys.
  - apply elem_of_app. left. unfold take_cells.
    by apply (list_elem_of_fmap_2 (λ n, (n.2, loc l n.1))).
Qed.

Lemma join_row_right lnames rnames (l : row) mr n :
  NoDup (lnames.*2 ++ rnames.*2) → n ∈ rnames →
  loc (join_row lnames rnames l mr) n.2 =
  match mr with Some r => loc r n.1 | None => CNaN end.
Proof.
  intros Hnd Hn. unfold loc at 1, join_row.
  apply lookup_total_correct, elem_of_list_to_map.
  - by rewrite fmap_app, !take_cells_keys.
  - apply elem_of_app. right. unfold take_cells.
    by apply (list_elem_of_fmap_2
      (λ n, (n.2, match mr with Some r => loc r n.1 | None => CNaN end))).
Qed.

(** A label of one frame only, and the key, keep their name in the join. *)
Lemma merge_names_plain on own other suffix c :
  c ∈ own → c = on ∨ c ∉ other → (c, c) ∈ merge_names on own other suffix.
Proof.
  intros Hc Hplain. unfold merge_names.
  apply list_elem_of_fmap. exists c. split; [|done].
  rewrite decide_False; [done|]. naive_solver.
Qed.

Lemma merge_left_Ok (c b df : DataFrame) (on : string) :
  merge_left c b on = Ok df →
  let lnames := merge_names on (columns c) (columns b) "_x" in
  let rnames :=
    merge_names on (filter (λ x, x ≠ on) (columns b)) (columns c) "_y" in
  (on ∈ columns c ∧ on ∈ columns b) ∧
  NoDup (lnames.*2 ++ rnames.*2) ∧
  columns df = lnames.*2 ++ rnames.*2 ∧
  records df =
    l ← records c;
    match matches b on l with
    | [] => [join_row lnames rnames l None]
    | ms => (λ r, join_row lnames rnames l (Some r)) <$> ms
    end.
Proof.
  unfold merge_left. case_decide as Hon; [|done].
  case_decide as Hnd; [|done]. intros [= <-]. done.
Qed.

Lemma merge_left_unique (c b df : DataFrame) (on : string) :
  merge_left c b on = Ok df →
  NoDup ((λ r, loc r on) <$> records b) →
  records df =
  (λ l, join_row (merge_names on (columns c) (columns b) "_x")
          (merge_names on (filter (λ x, x ≠ on) (columns b)) (columns c) "_y")
          l (head (matches b on l))) <$> records c.
Proof.
  intros H Hnd. apply merge_left_Ok in H as (_ & _ & _ & ->).
  apply bind_singleton. intros l. unfold matches.
  rewrite (filter_key_unique (λ r, loc r on) (records b) (loc l on)) by done.
  by destruct (head _).
Qed.

(** C5.  The left join on [Codigo_Comercial] of a purchase table with a
    deduplicated reference table has exactly one row per purchase row, in
    the order of the purchase table: the row at index [i] carries the
    fields of purchase row [i]; when no reference row has its key, every
    field that comes from the reference table is NaN, and otherwise these
    fields are those of the one reference row with that key. *)
Theorem merge_left_one_row_per_purchase (a b c df : DataFrame) :
  deduplicar a = Ok b →
  merge_left c b "Codigo_Comercial" = Ok df →
  let on := "Codigo_Comercial" in
  let lnames := merge_names on (columns c) (columns b) "_x" in
  let rnames :=
    merge_names on (filter (λ x, x ≠ on) (columns b)) (columns c) "_y" in
  length (records df) = length (records c) ∧
  ∀ i l, records c !! i = Some l →
    ∃ o, records df !! i = Some o ∧
      (∀ n, n ∈ lnames → loc o n.2 = loc l n.1) ∧
      (matches b on l = [] → ∀ n, n ∈ rnames → loc o n.2 = CNaN) ∧
      (∀ r, r ∈ matches b on l →
         matches b on l = [r] ∧ ∀ n, n ∈ rnames → loc o n.2 = loc r n.1).
Proof.
  intros Hb Hdf on lnames rnames.
  apply deduplicar_NoDup in Hb as (_ & Hkeys & _).
  pose proof (merge_left_unique _ _ _ _ Hdf Hkeys) as Hrec.
  apply merge_left_Ok in Hdf as (_ & Hnd & _ & _).
  rewrite Hrec. split; [by rewrite length_fmap|].
  intros i l Hl. eexists. split; [by rewrite list_lookup_fmap, Hl|].
  fold on lnames rnames. split_and!.
  - intros n Hn. by apply join_row_left.
  - intros Hm n Hn. rewrite join_row_right, Hm by done. done.
  - intros r Hr. unfold matches in *.
    rewrite (filter_key_unique (λ r, loc r on) (records b) (loc l on)) in Hr |- *
      by done.
    destruct (head _) as [r'|] eqn:Hhead; simpl in Hr.
    + apply list_elem_of_singleton in Hr as ->. split; [done|].
      intros n Hn. by rewrite join_row_right.
    + by apply elem_of_nil in Hr.
Qed.

End Merge.

(** ** Numeric coercion and the derived fields *)

Section Totales.
Context `{L : Lib}.

Lemma coerce_valor (c : cell) :
  fillna (CNum num_zero) (to_numeric c) = CNum (valor c).
Proof.
  unfold fillna, valor, nan_to_zero.
  destruct c as [| |s|x|t]; simpl; try done.
  - destruct (num_parse s) as [x|]; simpl; [|done]. by destruct (num_isnan x).
  - by destruct (num_isnan x).
Qed.

Lemma coerce_col_fmap {A} cols (g : A → row) (l : list A) label :
  label ∈ cols →
  coerce_col (mkDF cols (g <$> l)) label =
  Ok (mkDF (set_label cols label)
        ((λ x, <[label := CNum (valor (loc (g x) label))]> (g x)) <$> l)).
Proof.
  intros Hin. unfold coerce_col. rewrite df_col_fmap by done. simpl.
  unfold df_set_col; simpl. f_equal. f_equal.
  rewrite <- list_fmap_compose, zip_with_fmap_fmap.
  apply list_fmap_ext. intros i x _. simpl. by rewrite coerce_valor.
Qed.

Lemma coerce_col_Ok df df' label :
  coerce_col df label = Ok df' → label ∈ columns df.
Proof.
  unfold coerce_col. intros H. inv_bind H. by apply df_col_Ok in Ha as [? _].
Qed.

Lemma df_set_col_fmap {A} cols (g : A → row) (l : list A) label
    (f : A → cell) :
  df_set_col (mkDF cols (g <$> l)) label (f <$> l) =
  mkDF (set_label cols label) ((λ x, <[label := f x]> (g x)) <$> l).
Proof. unfold df_set_col; simpl. by rewrite zip_with_fmap_fmap. Qed.

Ltac step_bind := change (Ok ?d ≫= ?f) with (f d); cbv beta.

Ltac in_cols :=
  repeat (first [done | apply set_label_self | apply set_label_mono]).

Lemma calcular_totales_fmap {A} cols (g : A → row) (l : list A) :
  "PCU1" ∈ cols → "Cantidad" ∈ cols → "Flete_US$" ∈ cols →
  ∃ cols', calcular_totales (mkDF cols (g <$> l)) =
           Ok (mkDF cols' ((λ x, totales_row (g x)) <$> l)).
Proof.
  intros Hp Hc Hf. unfold calcular_totales.
  rewrite coerce_col_fmap by in_cols. step_bind.
  rewrite coerce_col_fmap by in_cols. step_bind.
  rewrite coerce_col_fmap by in_cols. step_bind.
  rewrite df_col_fmap by in_cols. step_bind.
  rewrite df_col_fmap by in_cols. step_bind.
  rewrite zip_with_fmap_fmap, df_set_col_fmap.
  rewrite df_col_fmap by in_cols. step_bind.
  rewrite df_col_fmap by in_cols. step_bind.
  rewrite zip_with_fmap_fmap, df_set_col_fmap.
  eexists. unfold mret, result_ret. f_equal. f_equal.
  apply list_fmap_ext. intros i x _. unfold totales_row.
  repeat (first [rewrite loc_insert_eq | rewrite loc_insert_ne by done]).
  done.
Qed.

Lemma calcular_totales_eq (df : DataFrame) :
  "PCU1" ∈ columns df → "Cantidad" ∈ columns df → "Flete_US$" ∈ columns df →
  ∃ cols, calcular_totales df = Ok (mkDF cols (totales_row <$> records df)).
Proof.
  intros Hp Hc Hf. destruct df as [cols l]; simpl in *.
  destruct (calcular_totales_fmap cols id l Hp Hc Hf) as [cols' H].
  rewrite list_fmap_id in H. by exists cols'.
Qed.

Lemma calcular_totales_columns (df df' : DataFrame) :
  calcular_totales df = Ok df' →
  "PCU1" ∈ columns df ∧ "Cantidad" ∈ columns df ∧ "Flete_US$" ∈ columns df.
Proof.
  unfold calcular_totales. intros H.
  inv_bind H. pose proof (coerce_col_Ok _ _ _ Ha) as H1.
  unfold coerce_col in Ha. inv_bind Ha. injection Ha as <-.
  inv_bind H. pose proof (coerce_col_Ok _ _ _ Ha) as H2.
  unfold coerce_col in Ha. inv_bind Ha. injection Ha as <-.
  inv_bind H. pose proof (coerce_col_Ok _ _ _ Ha) as H3.
  unfold coerce_col in Ha. inv_bind Ha. injection Ha as <-.
  assert (∀ cols label c, c ≠ label → c ∈ set_label cols label → c ∈ cols)
    as Hback.
  { intros cols label c Hne. unfold set_label. case_decide; [done|].
    rewrite elem_of_app, list_elem_of_singleton. naive_solver. }
  simpl in *. split_and!; [done| |].
  - by apply Hback in H2.
  - apply Hback in H3; [|done]. by apply Hback in H3.
Qed.

(** C6.  On the read path the values of PCU1, Cantidad and Flete_US$ are
    coerced first: a value that is missing or a text that is not numeric
    (the empty text included) becomes 0, a numeric text becomes its number;
    then, for every joined row, Sub Total is the product of the coerced
    PCU1 and Cantidad, and Precio Total is Sub Total plus the coerced
    Flete_US$. *)
Theorem totales_from_coerced_values (df df' : DataFrame) :
  calcular_totales df = Ok df' →
  ((∀ c, fillna (CNum num_zero) (to_numeric c) = CNum (valor c)) ∧
   valor CNaN = num_zero ∧ valor CNone = num_zero ∧
   (∀ s, num_parse s = None → valor (CStr s) = num_zero) ∧
   (∀ s x, num_parse s = Some x → num_isnan x = false → valor (CStr s) = x)) ∧
  length (records df') = length (records df) ∧
  ∀ i r, records df !! i = Some r →
    ∃ r', records df' !! i = Some r' ∧
      let pcu1 := valor (loc r "PCU1") in
      let cantidad := valor (loc r "Cantidad") in
      let flete := valor (loc r "Flete_US$") in
      loc r' "PCU1" = CNum pcu1 ∧
      loc r' "Cantidad" = CNum cantidad ∧
      loc r' "Flete_US$" = CNum flete ∧
      loc r' "Sub Total" = CNum (num_mul pcu1 cantidad) ∧
      loc r' "Precio Total" = CNum (num_add (num_mul pcu1 cantidad) flete).
Proof.
  intros H. split.
  { split_and!; [apply coerce_valor|done|done| |].
    - intros s Hs. simpl. by rewrite Hs.
    - intros s x Hs Hx. simpl. rewrite Hs. unfold nan_to_zero. by rewrite Hx. }
  destruct (calcular_totales_columns _ _ H) as (Hp & Hc & Hf).
  destruct (calcular_totales_eq df Hp Hc Hf) as [cols Heq].
  rewrite Heq in H. injection H as <-. simpl.
  split; [by rewrite length_fmap|].
  intros i r Hr. exists (totales_row r).
  split; [by rewrite list_lookup_fmap, Hr|].
  unfold totales_row.
  repeat split;
    repeat (first [rewrite loc_insert_eq | rewrite loc_insert_ne by done]);
    done.
Qed.

End Totales.

(** ** The read path *)

Section Lectura.
Context `{L : Lib}.

Lemma row_of_loc labels (f : string → cell) c :
  c ∈ labels → loc (row_of labels f) c = f c.
Proof.
  unfold row_of, loc. induction labels as [|x labels IH]; intros Hc.
  - by apply elem_of_nil in Hc.
  - rewrite fmap_cons. simpl. destruct (decide (x = c)) as [->|Hne].
    + apply lookup_total_insert_eq.
    + rewrite lookup_total_insert_ne by done. apply IH.
      apply elem_of_cons in Hc as [?|?]; [congruence|done].
Qed.

Lemma df_select_Ok df labels df' :
  df_select df labels = Ok df' →
  columns df' = labels ∧
  records df' = (λ r, row_of labels (loc r)) <$> records df.
Proof.
  unfold df_select. destruct (filter _ labels); [|done].
  by intros [= <-].
Qed.

Lemma filtrar_Ok type value df df' :
  filtrar type value df = Ok df' →
  columns df' = columns df ∧
  ∃ p, re_compile value = Some p ∧
    records df' =
    filter (λ r, re_search p (py_str (loc r (columna_filtro type))) = true)
      (records df).
Proof.
  unfold filtrar. intros H. inv_bind H. apply df_col_Ok in Ha as [Hin ->].
  inv_bind H. unfold compile in Ha.
  destruct (re_compile value) as [p|] eqn:Hp; [|done].
  injection Ha as <-. injection H as <-. split; [done|].
  exists p. split; [done|]. simpl.
  rewrite <- list_fmap_compose.
  exact (boolean_index_fmap_pred
    (λ r, re_search p (py_str (loc r (columna_filtro type)))) (records df)).
Qed.

Lemma preparar_lectura_columns srv df :
  preparar_lectura srv = Ok df →
  columns df = rename_label new_columns <$> columnas_lectura.
Proof.
  unfold preparar_lectura. intros H. do 3 inv_bind H.
  apply df_select_Ok in Ha1 as [Hcols _]. injection H as <-. simpl.
  by rewrite Hcols.
Qed.

(** C9.  A read request whose filter step retains no row is answered
    with HTTP 200: an empty [data] list, a null [info] and a [mensaje]. *)
Theorem obtener_datos_sin_resultados srv type value df df' :
  archivos_inicializados srv = true →
  preparar_lectura srv = Ok df →
  filtrar type value df = Ok df' →
  records df' = [] →
  obtener_datos srv type value =
    JSONResponse
      (mkBody [] None
         (Some ("No se encontraron resultados para " +:+ tipo_str type
                +:+ ": " +:+ value))) ∧
  status (obtener_datos srv type value) = 200.
Proof.
  intros Hinit Hdf Hdf' Hempty.
  assert (obtener_datos_try srv type value =
          Ok (mkBody [] None
                (Some ("No se encontraron resultados para " +:+ tipo_str type
                       +:+ ": " +:+ value)))) as Htry.
  { unfold obtener_datos_try. rewrite Hdf. simpl. rewrite Hdf'. simpl.
    unfold df_empty. rewrite bool_decide_true by (by left). done. }
  unfold obtener_datos. rewrite Hinit, Htry. done.
Qed.

Lemma replace_nonfinite_ok (c : cell) : sin_nan_inf (replace_nonfinite c).
Proof.
  destruct c as [| |s|x|t]; simpl; try done.
  destruct (num_isnan x) eqn:Hn, (num_isinf x) eqn:Hi; simpl; done.
Qed.

Lemma responder_datos_Ok df body :
  responder_datos df = Ok body →
  data body =
  to_dict_records
    (astype_str_col (df_map replace_nonfinite df) "FECHA FACTURA").
Proof.
  unfold responder_datos. intros H. do 2 inv_bind H. by injection H as <-.
Qed.

(** The frame that is serialised: no NaN, no infinity, and texts only
    under FECHA FACTURA. *)
Lemma datos_limpios df (r : row) c :
  let D := astype_str_col (df_map replace_nonfinite df) "FECHA FACTURA" in
  r ∈ records D → c ∈ columns D →
  columns D = columns df ∧
  sin_nan_inf (loc r c) ∧
  (c = "FECHA FACTURA" → ∃ s, loc r c = CStr s).
Proof.
  intros D. unfold D, astype_str_col. simpl.
  destruct (decide ("FECHA FACTURA" ∈ columns df)) as [Hff|Hff].
  - rewrite df_set_col_eq. simpl.
    assert (set_label (columns df) "FECHA FACTURA" = columns df) as ->.
    { unfold set_label. by rewrite decide_True. }
    rewrite <- list_fmap_compose.
    intros (r0 & -> & Hr0)%list_elem_of_fmap Hc. split; [done|]. simpl.
    destruct (decide (c = "FECHA FACTURA")) as [->|Hne].
    + rewrite loc_insert_eq. split; [done|]. intros _. by eexists.
    + rewrite loc_insert_ne by done. rewrite row_of_loc by done.
      split; [apply replace_nonfinite_ok|done].
  - simpl. intros (r0 & -> & Hr0)%list_elem_of_fmap Hc. split; [done|].
    rewrite row_of_loc by done. split; [apply replace_nonfinite_ok|].
    intros ->. done.
Qed.

(** On pandas 1.x / 2.x: in a non-empty answer of GET /data no value of
    a returned record is NaN or an infinity, and every record has a FECHA
    FACTURA entry, which is a text. *)
Theorem datos_sin_nan_ni_infinito srv type value body :
  obtener_datos srv type value = JSONResponse body →
  data body ≠ [] →
  ∀ rec, rec ∈ data body →
    (∀ k v, (k, v) ∈ rec → sin_nan_inf v) ∧
    (∃ s, ("FECHA FACTURA", CStr s) ∈ rec) ∧
    (∀ v, ("FECHA FACTURA", v) ∈ rec → ∃ s, v = CStr s).
Proof.
  unfold obtener_datos. destruct (negb _); [done|].
  destruct (obtener_datos_try srv type value) as [body'|e] eqn:Htry;
    [|by destruct e].
  intros [= ->] Hdata rec Hrec.
  unfold obtener_datos_try in Htry. do 2 inv_bind Htry.
  destruct (df_empty a0).
  { injection Htry as <-. done. }
  apply preparar_lectura_columns in Ha.
  apply filtrar_Ok in Ha0 as [Hcols _]. rewrite Ha in Hcols.
  apply responder_datos_Ok in Htry. rewrite Htry in Hrec.
  unfold to_dict_records in Hrec.
  apply list_elem_of_fmap in Hrec as (r & -> & Hr).
  set (D := astype_str_col (df_map replace_nonfinite a0) "FECHA FACTURA") in *.
  assert (∀ c, c ∈ columns D →
            columns D = columns a0 ∧ sin_nan_inf (loc r c) ∧
            (c = "FECHA FACTURA" → ∃ s, loc r c = CStr s)) as Hclean.
  { intros c Hc. by apply datos_limpios. }
  assert ("FECHA FACTURA" ∈ columns D) as Hff.
  { assert ("FECHA FACTURA" ∈ columns a0) as Hin.
    { rewrite Hcols. apply (bool_decide_unpack _). by vm_compute. }
    unfold D, astype_str_col. rewrite decide_True by done. simpl.
    apply set_label_self. }
  split_and!.
  - intros k v (c & [= -> ->] & Hc)%list_elem_of_fmap.
    by apply Hclean.
  - destruct (Hclean _ Hff) as (_ & _ & [s Hs]); [done|].
    exists s. apply list_elem_of_fmap. exists "FECHA FACTURA". by rewrite Hs.
  - intros v (c & [= <- ->] & Hc)%list_elem_of_fmap.
    by apply Hclean.
Qed.

(** On pandas 1.x / 2.x, value by value: the records of a non-empty
    answer are the rows the filter retains, with [None] for NaN and the
    infinities and every other value as it is, FECHA FACTURA apart, which
    is the [str] of that value (the text None for a missing date). *)
Lemma datos_reemplazados srv type value body :
  obtener_datos srv type value = JSONResponse body →
  data body ≠ [] →
  ∃ df, preparar_lectura srv ≫= filtrar type value = Ok df ∧
    data body =
    (λ r, (λ k, (k, if decide (k = "FECHA FACTURA")
                    then CStr (py_str (replace_nonfinite (loc r k)))
                    else replace_nonfinite (loc r k)))
            <$> columns df) <$> records df.
Proof.
  unfold obtener_datos. destruct (negb _); [done|].
  destruct (obtener_datos_try srv type value) as [body'|e] eqn:Htry;
    [|by destruct e].
  intros [= ->] Hdata.
  unfold obtener_datos_try in Htry. do 2 inv_bind Htry.
  destruct (df_empty a0).
  { injection Htry as <-. done. }
  exists a0. split; [by rewrite Ha|].
  apply preparar_lectura_columns in Ha.
  apply filtrar_Ok in Ha0 as [Hcols _]. rewrite Ha in Hcols.
  assert ("FECHA FACTURA" ∈ columns a0) as Hin.
  { rewrite Hcols. apply (bool_decide_unpack _). by vm_compute. }
  apply responder_datos_Ok in Htry. rewrite Htry.
  unfold to_dict_records, astype_str_col. simpl.
  rewrite decide_True by done. rewrite df_set_col_eq. simpl.
  assert (set_label (columns a0) "FECHA FACTURA" = columns a0) as ->.
  { unfold set_label. by rewrite decide_True. }
  rewrite <- !list_fmap_compose. apply list_fmap_ext. intros _ r _. simpl.
  apply list_fmap_ext. intros i k Hk. apply list_elem_of_lookup_2 in Hk.
  f_equal. destruct (decide (k = "FECHA FACTURA")) as [->|Hne].
  - rewrite loc_insert_eq. by rewrite row_of_loc.
  - rewrite loc_insert_ne by done. by rewrite row_of_loc.
Qed.

(** On pandas 3 a row without invoice date has NaN in the column FECHA
    FACTURA that is serialised. *)
Lemma fecha_nula_queda_nan_en_pandas3 df (r : row) :
  r ∈ records df → isna (loc r "FECHA FACTURA") = true →
  CNaN ∈ fecha_factura_pandas3 df ∧ ¬ sin_nan_inf CNaN.
Proof.
  intros Hr Hna. split; [|by intros []].
  unfold fecha_factura_pandas3. apply list_elem_of_fmap. exists r.
  split; [|done]. unfold astype_str_pandas3.
  destruct (loc r "FECHA FACTURA") as [| |s|x|t]; simpl in *; try done.
  by rewrite Hna.
Qed.

End Lectura.

(** ** The export path *)

Section Exportacion.
Context `{L : Lib}.
Implicit Types (sheet : gmap (nat * nat) wsvalue) (vals : list cell)
  (rows : list (list cell)).

(** An export whose filter retains nothing stops at [iloc[0]], before the
    guard of line 345, and the [IndexError] is answered with 500. *)
Lemma exportar_sin_filas_500 srv type value df df' :
  archivos_inicializados srv = true →
  preparar_export srv = Ok df →
  filtrar type value df = Ok df' →
  records df' = [] →
  exportar_datos srv type value = HTTPError 500.
Proof.
  intros Hinit Hdf Hdf' Hempty. unfold exportar_datos. rewrite Hinit. simpl.
  unfold exportar_datos_try. rewrite Hdf. simpl. rewrite Hdf'. simpl.
  unfold iloc0. rewrite Hempty. done.
Qed.

(** The only 404 of the export handler is a missing file: the
    [HTTPException(404)] of line 346 is caught by [except Exception]. *)
Lemma exportar_404_solo_archivo srv type value :
  exportar_datos srv type value = HTTPError 404 →
  exportar_datos_try srv type value = Raise FileNotFoundError.
Proof.
  unfold exportar_datos. destruct (negb _); [done|].
  destruct (exportar_datos_try srv type value) as [wb|e]; [done|].
  by destruct e.
Qed.

Lemma ws_cell_other sheet r c v k :
  k ≠ (r, c) → ws_cell sheet r c v !! k = sheet !! k.
Proof.
  intros Hk. destruct v; simpl; try done; by rewrite lookup_insert_ne.
Qed.

Lemma ws_cell_eq sheet r c v :
  v ≠ CNone → ws_cell sheet r c v !! (r, c) = Some (WCell v).
Proof. intros Hv. destruct v; simpl; try done; by rewrite lookup_insert_eq. Qed.

Lemma write_cells_other sheet r c vals r' c' :
  r' ≠ r ∨ c' < c → write_cells sheet r c vals !! (r', c') = sheet !! (r', c').
Proof.
  revert sheet c. induction vals as [|v vals IH]; intros sheet c Hk; [done|].
  simpl. rewrite IH by lia. apply ws_cell_other. intros [= -> ->]. lia.
Qed.

Lemma write_cells_at sheet r c vals j v :
  vals !! j = Some v → v ≠ CNone →
  write_cells sheet r c vals !! (r, c + j) = Some (WCell v).
Proof.
  revert sheet c j. induction vals as [|v' vals IH]; intros sheet c j Hj Hv.
  - done.
  - destruct j as [|j]; simpl in *.
    + injection Hj as ->. rewrite write_cells_other by lia.
      rewrite Nat.add_0_r. by apply ws_cell_eq.
    + replace (c + S j) with (S c + j) by lia. by apply IH.
Qed.

Lemma write_rows_other sheet ri last c rows r' c' :
  r' < ri → (write_rows sheet ri last c rows).1 !! (r', c') = sheet !! (r', c').
Proof.
  revert sheet ri last. induction rows as [|vals rows IH];
    intros sheet ri last Hr; [done|].
  simpl. rewrite IH by lia. apply write_cells_other. lia.
Qed.

Lemma write_rows_at sheet ri last c rows i vals j v :
  rows !! i = Some vals → vals !! j = Some v → v ≠ CNone →
  (write_rows sheet ri last c rows).1 !! (ri + i, c + j) = Some (WCell v).
Proof.
  revert sheet ri last i. induction rows as [|vals' rows IH];
    intros sheet ri last i Hi Hj Hv; [done|].
  destruct i as [|i]; simpl in *.
  - injection Hi as ->. rewrite write_rows_other by lia.
    rewrite Nat.add_0_r. by apply write_cells_at.
  - replace (ri + S i) with (S ri + i) by lia. by apply IH.
Qed.

Lemma write_rows_last sheet ri last c rows :
  (write_rows sheet ri last c rows).2 =
  match rows with [] => last | _ => ri + length rows - 1 end.
Proof.
  revert sheet ri last. induction rows as [|vals rows IH];
    intros sheet ri last; [done|].
  simpl. rewrite IH. destruct rows; simpl; lia.
Qed.

Lemma letters_NMCOP :
  column_index_from_string "N" = 14 ∧ column_index_from_string "M" = 13 ∧
  column_index_from_string "C" = 3 ∧ column_index_from_string "O" = 15 ∧
  column_index_from_string "P" = 16.
Proof. done. Qed.

Ltac norm_coord :=
  unfold coordinate;
  change (column_index_from_string "N") with 14;
  change (column_index_from_string "M") with 13;
  change (column_index_from_string "C") with 3;
  change (column_index_from_string "O") with 15;
  change (column_index_from_string "P") with 16.

Lemma write_formulas_cons sheet fila filas :
  write_formulas sheet (fila :: filas) =
  write_formulas
    (<[(fila, 16) := WFormula (FAdd (fila, 15) (fila, 14))]>
       (<[(fila, 14) := WFormula (FMul (fila, 13) (fila, 3))]> sheet)) filas.
Proof. done. Qed.

Lemma write_formulas_other_col sheet filas r c :
  c ≠ 14 → c ≠ 16 → write_formulas sheet filas !! (r, c) = sheet !! (r, c).
Proof.
  intros H14 H16. revert sheet.
  induction filas as [|f filas IH]; intros sheet; [done|].
  rewrite write_formulas_cons, IH.
  rewrite !lookup_insert_ne; [done|intros [= ]; done..].
Qed.

Lemma write_formulas_other_row sheet filas r c :
  r ∉ filas → write_formulas sheet filas !! (r, c) = sheet !! (r, c).
Proof.
  revert sheet. induction filas as [|f filas IH]; intros sheet Hr; [done|].
  apply not_elem_of_cons in Hr as [Hne Hr].
  rewrite write_formulas_cons, IH by done.
  rewrite !lookup_insert_ne; [done|intros [= ]; done..].
Qed.

Lemma write_formulas_at sheet filas fila :
  fila ∈ filas →
  write_formulas sheet filas !! coordinate "N" fila =
    Some (WFormula (FMul (coordinate "M" fila) (coordinate "C" fila))) ∧
  write_formulas sheet filas !! coordinate "P" fila =
    Some (WFormula (FAdd (coordinate "O" fila) (coordinate "N" fila))).
Proof.
  norm_coord. revert sheet.
  induction filas as [|f filas IH]; intros sheet Hin.
  - by apply elem_of_nil in Hin.
  - rewrite write_formulas_cons.
    destruct (decide (fila ∈ filas)) as [Hrest|Hrest]; [by apply IH|].
    apply elem_of_cons in Hin as [->|?]; [|done].
    rewrite !write_formulas_other_row by done. split.
    + rewrite lookup_insert_ne by (intros [= ]; done).
      by rewrite lookup_insert_eq.
    + by rewrite lookup_insert_eq.
Qed.

Lemma formulas_en_elem sheet k f :
  sheet !! k = Some (WFormula f) → (k, f) ∈ formulas_en sheet.
Proof.
  intros Hk. unfold formulas_en. apply list_elem_of_omap.
  exists (k, WFormula f). split; [|done]. by apply elem_of_map_to_list.
Qed.

(** The formula values are the texts of lines 368 and 369. *)
Lemma formula_text_lines fila :
  formula_text (FMul (coordinate "M" fila) (coordinate "C" fila)) =
    "=M" +:+ pretty fila +:+ "*C" +:+ pretty fila ∧
  formula_text (FAdd (coordinate "O" fila) (coordinate "N" fila)) =
    "=O" +:+ pretty fila +:+ "+N" +:+ pretty fila.
Proof. done. Qed.

Lemma escribir_tabla_ref sheet ref rows :
  (escribir_tabla sheet ref rows).2 =
  mkRange (min_col ref) (min_row ref) (max_col ref) (max_row ref + length rows).
Proof.
  unfold escribir_tabla. simpl. rewrite write_rows_last. f_equal.
  destruct rows; simpl; lia.
Qed.

Lemma escribir_tabla_formulas sheet ref rows i :
  i < length rows →
  let fila := max_row ref + 1 + i in
  (escribir_tabla sheet ref rows).1 !! coordinate "N" fila =
    Some (WFormula (FMul (coordinate "M" fila) (coordinate "C" fila))) ∧
  (escribir_tabla sheet ref rows).1 !! coordinate "P" fila =
    Some (WFormula (FAdd (coordinate "O" fila) (coordinate "N" fila))).
Proof.
  intros Hi fila. unfold escribir_tabla. simpl.
  apply write_formulas_at. rewrite write_rows_last.
  apply elem_of_seq. destruct rows; simpl in *; lia.
Qed.

Lemma escribir_tabla_valor sheet ref rows i vals j v :
  rows !! i = Some vals → vals !! j = Some v → v ≠ CNone →
  min_col ref + j ≠ 14 → min_col ref + j ≠ 16 →
  (escribir_tabla sheet ref rows).1 !! (max_row ref + 1 + i, min_col ref + j) =
  Some (WCell v).
Proof.
  intros Hi Hj Hv H14 H16. unfold escribir_tabla. simpl.
  rewrite write_formulas_other_col by done.
  by eapply write_rows_at.
Qed.

(** C7 (as amended).  The filtered rows are written from the first row
    below the table, the first export column in the table's leftmost
    column; the table's range then ends at the last written row, that is
    [n] rows further down, with the same columns and the same first row;
    and in every new row the cells N and P hold the formulas M*C and O+N
    over cells of that same row.  When the table's left edge is column B,
    M, C and O are that row's unit-price, quantity and freight cells and N
    and P are its Sub Total and Precio Total cells. *)
Theorem export_appends_rows (sheet : gmap (nat * nat) wsvalue)
    (ref : cellrange) (df : DataFrame) :
  columns df = columnas_export →
  let n := length (records df) in
  let out := escribir_tabla sheet ref (dataframe_to_rows df) in
  let fila i := max_row ref + 1 + i in
  out.2 = mkRange (min_col ref) (min_row ref) (max_col ref) (max_row ref + n) ∧
  (∀ i r j label,
     records df !! i = Some r → columnas_export !! j = Some label →
     loc r label ≠ CNone → min_col ref + j ≠ 14 → min_col ref + j ≠ 16 →
     out.1 !! (fila i, min_col ref + j) = Some (WCell (loc r label))) ∧
  (∀ i, i < n →
     out.1 !! coordinate "N" (fila i) =
       Some (WFormula (FMul (coordinate "M" (fila i)) (coordinate "C" (fila i)))) ∧
     out.1 !! coordinate "P" (fila i) =
       Some (WFormula (FAdd (coordinate "O" (fila i)) (coordinate "N" (fila i))))) ∧
  (min_col ref = 2 →
     columna_hoja ref "Cant" = Some 3 ∧
     columna_hoja ref "Precio Unitario" = Some 13 ∧
     columna_hoja ref "Sub Total" = Some 14 ∧
     columna_hoja ref "Flete" = Some 15 ∧
     columna_hoja ref "Precio Total" = Some 16 ∧
     ∀ i, i < n → formulas_de_fila out.1 ref (fila i)).
Proof.
  intros Hcols n out fila.
  assert (length (dataframe_to_rows df) = n) as Hlen.
  { unfold dataframe_to_rows. by rewrite length_fmap. }
  split_and!.
  - unfold out. by rewrite escribir_tabla_ref, Hlen.
  - intros i r j label Hr Hj Hv H14 H16. unfold out, fila.
    eapply escribir_tabla_valor; [| |done..].
    + unfold dataframe_to_rows. by rewrite list_lookup_fmap, Hr.
    + by rewrite Hcols, list_lookup_fmap, Hj.
  - intros i Hi. apply escribir_tabla_formulas. by rewrite Hlen.
  - intros Hmin.
    split_and!; try (unfold columna_hoja; rewrite Hmin; by vm_compute).
    intros i Hi.
    destruct (escribir_tabla_formulas sheet ref (dataframe_to_rows df) i)
      as [HN HP]; [by rewrite Hlen|].
    revert HN HP. norm_coord. intros HN HP.
    exists 3, 13, 15, 14, 16. do 2 eexists.
    split_and!; try (unfold columna_hoja; rewrite Hmin; by vm_compute);
      [exact HN|by left|exact HP|by left].
Qed.

End Exportacion.

(** ** The filter and the summary, for any library *)

Section FiltroYResumen.
Context `{L : Lib}.

(** After [astype(str)] every element is a text, so the [na] argument of
    [str.contains] decides nothing: a missing value is matched as the text
    nan. *)
Lemma str_contains_astype (p : regex) (na : bool) (c : cell) :
  str_contains p na (astype_str c) = re_search p (py_str c).
Proof. done. Qed.

Lemma str_contains_astype_nulo (p : regex) (na : bool) :
  str_contains p na (astype_str CNaN) = re_search p "nan".
Proof. done. Qed.

Lemma campo_nulo cols (fila : row) label :
  label ∈ cols → isna (loc fila label) = true →
  campo cols fila label = Ok (CStr "") ∧
  campo_str cols fila label = Ok (CStr "").
Proof.
  intros Hin Hna. unfold campo, campo_str, fila_get, notna.
  rewrite decide_True by done. simpl. by rewrite Hna.
Qed.

Lemma extraer_info_fecha cols (fila : row) i :
  extraer_info cols fila = Ok i →
  info_FECHA_FACTURA i =
  if notna (loc fila "FECHA FACTURA")
  then CStr (py_str (loc fila "FECHA FACTURA")) else CStr "".
Proof.
  unfold extraer_info. intros H. inv_bind H. inv_bind H.
  unfold campo_str, fila_get in Ha0. case_decide; [|done].
  simpl in Ha0. injection Ha0 as <-.
  do 7 inv_bind H. by injection H as <-.
Qed.

(** On the read path the summary is taken after FECHA FACTURA has been
    turned into texts: the date field of the summary is the text of the
    first row's value, also when that value is missing. *)
Lemma responder_datos_fecha df (r : row) rest body :
  records df = r :: rest →
  "FECHA FACTURA" ∈ columns df →
  responder_datos df = Ok body →
  info_FECHA_FACTURA <$> info body =
  Some (CStr (py_str (replace_nonfinite (loc r "FECHA FACTURA")))).
Proof.
  intros Hrec Hff. unfold responder_datos, astype_str_col. simpl.
  rewrite decide_True by done. rewrite df_set_col_eq.
  unfold iloc0. simpl. rewrite Hrec. simpl.
  intros H. inv_bind H. apply extraer_info_fecha in Ha.
  injection H as <-. simpl. f_equal. rewrite Ha.
  rewrite loc_insert_eq. simpl. by rewrite row_of_loc.
Qed.

End FiltroYResumen.

(** * The handlers on the sample files *)

Module Casos.
Import Instancia Ejemplo.
#[local] Existing Instance lib.

(** A closed decidable statement, settled by evaluating its decision. *)
Ltac calc := apply (bool_decide_unpack _); vm_compute; exact I.

(** The spec's examples of coercion, in this implementation. *)
Example coercion_examples :
  fillna (CNum num_zero) (to_numeric (CStr "abc")) = CNum (Fin 0) ∧
  fillna (CNum num_zero) (to_numeric CNone) = CNum (Fin 0) ∧
  fillna (CNum num_zero) (to_numeric CNaN) = CNum (Fin 0) ∧
  fillna (CNum num_zero) (to_numeric (CStr "")) = CNum (Fin 0) ∧
  fillna (CNum num_zero) (to_numeric (CStr "12.5")) = CNum (Fin (25 # 2)).
Proof. repeat split; calc. Qed.

(** The spec's example of the filter: ab matches XABY. *)
Example str_contains_example :
  (λ p, str_contains p false (astype_str (CStr "XABY"))) <$> re_compile "ab"
  = Some true.
Proof. calc. Qed.

(** The spec's scenario: of two rows M1/C1 and M1/C2 the first survives. *)
Example dedup_scenario :
  (λ r, (loc r "Modelo", loc r "Codigo")) <$> records referencia =
  [ (CStr "M1", CStr "C1"); (CStr "M2", CStr "C9") ].
Proof. calc. Qed.

(** C1.  POST /export?type=embarque&value=ZZZ on the sample files: the
    filter step succeeds and retains no row, and the answer is HTTP 500,
    not 404; GET /data with the same query answers 200. *)
Theorem export_sin_filas_responde_500 :
  (preparar_export srv ≫= filtrar embarque "ZZZ") =
    Ok (filtrado (preparar_export srv) embarque "ZZZ") ∧
  records (filtrado (preparar_export srv) embarque "ZZZ") = [] ∧
  exportar_datos srv embarque "ZZZ" = HTTPError 500 ∧
  exportar_datos_try srv embarque "ZZZ" = Raise IndexError ∧
  status (obtener_datos srv embarque "ZZZ") = 200.
Proof. repeat split; calc. Qed.

(** C2.  GET /data?type=embarque&value=nan on the sample files: the
    second purchase row has no shipment number, and it is the row the
    filter retains.  With value [.] the filter on Air Waybill retains
    both rows, though neither waybill number contains a dot. *)
Theorem filtro_retiene_valor_nulo :
  loc compra2 "GrupoImportacion" = CNaN ∧
  (λ r, loc r "Nº EMBARQUE") <$>
    records (filtrado (preparar_lectura srv) embarque "nan") = [CNaN] ∧
  (λ r, loc r "Air Waybill") <$>
    records (filtrado (preparar_lectura srv) waybill ".") =
    [CStr "AWB-77"; CStr "AWB-78"].
Proof. repeat split; calc. Qed.

(** C8.  GET /data?type=waybill&value=AWB-78 on the sample files: the
    first (and only) retained row has no invoice date and no shipment
    number; the summary has the empty text for the shipment number and
    the text None for the invoice date.  POST /export extracts the empty
    text for both from the same row. *)
Theorem resumen_lectura_fecha_nula :
  loc compra2 "Fecha_Invoice" = CNaN ∧
  loc compra2 "GrupoImportacion" = CNaN ∧
  info_N_EMBARQUE <$> info (cuerpo (obtener_datos srv waybill "AWB-78")) =
    Some (CStr "") ∧
  info_FECHA_FACTURA <$> info (cuerpo (obtener_datos srv waybill "AWB-78")) =
    Some (CStr "None") ∧
  (let df := filtrado (preparar_export srv) waybill "AWB-78" in
   iloc0 df ≫= extraer_info (columns df)) =
    Ok (mkInfo (CStr "UPS") (CStr "") (CStr "") (CStr "AWB-78") (CStr "")
          (CStr "Proveedor SA") (CStr "CIF") (CStr "Contado") (CStr "Cerrada")).
Proof. repeat split; calc. Qed.

(** C10.  GET /data?type=waybill&value=AWB-78 on the sample files: the
    filter retains the one purchase row, which has no invoice date.  On
    pandas 1.x / 2.x its record holds the text None under FECHA FACTURA.
    On pandas 3 it holds NaN: line 247 gives a column in which the
    missing date is missing again, after line 245 has replaced it.  On
    these files no [astype(str)] before line 247 meets a missing value
    (no reference row lacks its [Modelo] or [Codigo], no joined row its
    Air Waybill), so the table that reaches line 245 is the same on
    both. *)
Theorem datos_con_nan_en_pandas3 :
  (preparar_lectura srv ≫= filtrar waybill "AWB-78") =
    Ok (filtrado (preparar_lectura srv) waybill "AWB-78") ∧
  length (records (filtrado (preparar_lectura srv) waybill "AWB-78")) = 1 ∧
  Forall (λ r, notna (loc r "Modelo") = true ∧ notna (loc r "Codigo") = true)
    (records hoja_datos) ∧
  Forall (λ r, notna (loc r "Air Waybill") = true) (records lectura) ∧
  (λ r, loc r "FECHA FACTURA")
    <$> records (filtrado (preparar_lectura srv) waybill "AWB-78") = [CNaN] ∧
  (λ rec, (list_to_map rec : gmap string cell) !! "FECHA FACTURA")
    <$> data (cuerpo (obtener_datos srv waybill "AWB-78")) =
    [Some (CStr "None")] ∧
  astype_str_pandas3 CNone = CNaN ∧ astype_str_pandas3 CNaN = CNaN ∧
  fecha_factura_pandas3 (filtrado (preparar_lectura srv) waybill "AWB-78") =
    [CNaN] ∧
  ¬ sin_nan_inf CNaN.
Proof. split_and!; calc. Qed.


Lemma dedup_unique_keys_witness :
  deduplicar hoja_datos = Ok referencia ∧
  NoDup ((λ r, loc r "Modelo") <$> records referencia) ∧
  NoDup ((λ r, loc r "Codigo_Comercial") <$> records referencia) ∧
  NoDup ((λ r, loc r "ID") <$> records referencia).
Proof.
  assert (deduplicar hoja_datos = Ok referencia) as H by calc.
  split; [exact H|].
  exact (dedup_unique_keys hoja_datos referencia H).
Defined.

Lemma merge_left_one_row_per_purchase_witness :
  deduplicar hoja_datos = Ok referencia ∧
  merge_left compras referencia "Codigo_Comercial" = Ok union ∧
  length (records union) = length (records compras).
Proof.
  assert (deduplicar hoja_datos = Ok referencia) as Hb by calc.
  assert (merge_left compras referencia "Codigo_Comercial" = Ok union)
    as Hdf by calc.
  split; [exact Hb|]. split; [exact Hdf|].
  exact (proj1 (merge_left_one_row_per_purchase
                  hoja_datos referencia compras union Hb Hdf)).
Defined.

Lemma totales_from_coerced_values_witness :
  calcular_totales union = Ok con_totales ∧
  length (records con_totales) = length (records union) ∧
  valor (CStr "abc") = num_zero ∧
  valor (CStr "12.5") = Fin (25 # 2).
Proof.
  assert (calcular_totales union = Ok con_totales) as H by calc.
  destruct (totales_from_coerced_values union con_totales H)
    as ((_ & _ & _ & Hnone & Hsome) & Hlen & _).
  split; [exact H|]. split; [exact Hlen|]. split.
  - apply Hnone. calc.
  - apply Hsome; calc.
Defined.

Lemma export_appends_rows_witness :
  columns para_exportar = columnas_export ∧
  (escribir_tabla ∅ tabla24 (dataframe_to_rows para_exportar)).2 =
    mkRange 2 8 16 10 ∧
  formulas_de_fila
    (escribir_tabla ∅ tabla24 (dataframe_to_rows para_exportar)).1 tabla24 10.
Proof.
  assert (columns para_exportar = columnas_export) as H by calc.
  destruct (export_appends_rows ∅ tabla24 para_exportar H)
    as (Href & _ & _ & Hform).
  split; [exact H|]. split; [exact Href|].
  destruct (Hform eq_refl) as (_ & _ & _ & _ & _ & Hfila).
  apply (Hfila 0). vm_compute. lia.
Defined.

Lemma obtener_datos_sin_resultados_witness :
  (archivos_inicializados srv = true ∧
   preparar_lectura srv = Ok lectura ∧
   filtrar embarque "ZZZ" lectura =
     Ok (filtrado (preparar_lectura srv) embarque "ZZZ") ∧
   records (filtrado (preparar_lectura srv) embarque "ZZZ") = []) ∧
  status (obtener_datos srv embarque "ZZZ") = 200.
Proof.
  assert (archivos_inicializados srv = true) as H1 by calc.
  assert (preparar_lectura srv = Ok lectura) as H2 by calc.
  assert (filtrar embarque "ZZZ" lectura =
          Ok (filtrado (preparar_lectura srv) embarque "ZZZ")) as H3 by calc.
  assert (records (filtrado (preparar_lectura srv) embarque "ZZZ") = [])
    as H4 by calc.
  split; [exact (conj H1 (conj H2 (conj H3 H4)))|].
  exact (proj2 (obtener_datos_sin_resultados srv embarque "ZZZ" lectura
                  (filtrado (preparar_lectura srv) embarque "ZZZ")
                  H1 H2 H3 H4)).
Defined.

Lemma datos_sin_nan_ni_infinito_witness :
  obtener_datos srv waybill "AWB" =
    JSONResponse (cuerpo (obtener_datos srv waybill "AWB")) ∧
  length (data (cuerpo (obtener_datos srv waybill "AWB"))) = 2 ∧
  ∀ rec, rec ∈ data (cuerpo (obtener_datos srv waybill "AWB")) →
    (∀ k v, (k, v) ∈ rec → sin_nan_inf v) ∧
    (∃ s, ("FECHA FACTURA", CStr s) ∈ rec) ∧
    (∀ v, ("FECHA FACTURA", v) ∈ rec → ∃ s, v = CStr s).
Proof.
  assert (obtener_datos srv waybill "AWB" =
          JSONResponse (cuerpo (obtener_datos srv waybill "AWB"))) as H
    by calc.
  assert (length (data (cuerpo (obtener_datos srv waybill "AWB"))) = 2)
    as Hlen by calc.
  assert (data (cuerpo (obtener_datos srv waybill "AWB")) ≠ []) as Hne.
  { intros Hnil. rewrite Hnil in Hlen. discriminate Hlen. }
  split; [exact H|]. split; [exact Hlen|].
  exact (datos_sin_nan_ni_infinito srv waybill "AWB" _ H Hne).
Defined.

(** C7, the claim as stated.  POST /export?type=embarque&value=emb with a
    template whose table spans A8:O9: the export succeeds, the table is
    extended to row 10, and the formula in N10 multiplies M10 and C10,
    while row 10 has its quantity in B, its unit price in L and its
    freight in N: no cell of row 10 holds the product of the quantity and
    unit-price cells. *)
Lemma formulas_fuera_de_columna_B :
  exportar_datos srv_A embarque "emb" =
    FileResponse (libro (exportar_datos srv_A embarque "emb")) ∧
  tables (libro (exportar_datos srv_A embarque "emb")) !! "Tabla24" =
    Some (mkRange 1 8 15 10) ∧
  ws (libro (exportar_datos srv_A embarque "emb")) !! coordinate "N" 10 =
    Some (WFormula (FMul (coordinate "M" 10) (coordinate "C" 10))) ∧
  columna_hoja tabla_en_A "Cant" = Some (column_index_from_string "B") ∧
  columna_hoja tabla_en_A "Precio Unitario" =
    Some (column_index_from_string "L") ∧
  columna_hoja tabla_en_A "Flete" = Some (column_index_from_string "N") ∧
  ¬ formulas_de_fila (ws (libro (exportar_datos srv_A embarque "emb")))
      tabla_en_A 10.
Proof.
  split_and!; try calc.
  intros (cant & precio & flete & cp & ct & fp & ft &
          Hcant & Hprecio & _ & Hcp & Hprod & _ & _).
  vm_compute in Hcant. vm_compute in Hprecio.
  injection Hcant as <-. injection Hprecio as <-.
  apply formulas_en_elem in Hcp. vm_compute in Hcp.
  repeat (apply elem_of_cons in Hcp as [Hcp|Hcp];
          [injection Hcp as _ ->; by destruct Hprod|]).
  by apply elem_of_nil in Hcp.
Qed.

End Casos.

(** * Further properties of the two handlers *)

Section Respuestas.
Context `{L : Lib}.

(** X1.  Each handler answers 503 exactly when the files are not
    initialised: no failure inside the [try] block is reported as 503. *)
Theorem status_503_iff_no_inicializado srv type value :
  (status (obtener_datos srv type value) = 503 ↔
   archivos_inicializados srv = false) ∧
  (status (exportar_datos srv type value) = 503 ↔
   archivos_inicializados srv = false).
Proof.
  unfold obtener_datos, exportar_datos.
  destruct (archivos_inicializados srv); simpl.
  - split.
    + destruct (obtener_datos_try srv type value) as [b|[]]; simpl;
        split; intros; discriminate.
    + destruct (exportar_datos_try srv type value) as [b|[]]; simpl;
        split; intros; discriminate.
  - done.
Qed.

Lemma unir_tablas_sin_traduccion srv :
  traduccion_equipos srv = None → unir_tablas srv = Raise FileNotFoundError.
Proof. intros H. unfold unir_tablas. by rewrite H. Qed.

Lemma unir_tablas_sin_compras srv a :
  traduccion_equipos srv = Some a →
  "Modelo" ∈ columns (iloc_drop_first a) →
  "Codigo" ∈ columns (iloc_drop_first a) →
  compras_oci srv = None →
  unir_tablas srv = Raise FileNotFoundError.
Proof.
  intros Ha Hm Hc Hcompras. unfold unir_tablas. rewrite Ha. simpl.
  rewrite deduplicar_eq by done. simpl. by rewrite Hcompras.
Qed.

Lemma handlers_por_error_de_union srv type value e :
  archivos_inicializados srv = true →
  unir_tablas srv = Raise e →
  obtener_datos_try srv type value = Raise e ∧
  exportar_datos_try srv type value = Raise e.
Proof.
  intros _ H. unfold obtener_datos_try, preparar_lectura,
    exportar_datos_try, preparar_export. by rewrite H.
Qed.

(** X2.  A source file that is absent is answered with 404 by both handlers:
    the reference file, or the purchase file once the reference sheet has
    been read and deduplicated. *)
Theorem archivo_fuente_ausente_404 srv type value :
  archivos_inicializados srv = true →
  traduccion_equipos srv = None ∨
  (∃ a, traduccion_equipos srv = Some a ∧
        "Modelo" ∈ columns (iloc_drop_first a) ∧
        "Codigo" ∈ columns (iloc_drop_first a) ∧
        compras_oci srv = None) →
  obtener_datos srv type value = HTTPError 404 ∧
  exportar_datos srv type value = HTTPError 404.
Proof.
  intros Hinit Hcase.
  assert (unir_tablas srv = Raise FileNotFoundError) as Hu.
  { destruct Hcase as [H|(a & Ha & Hm & Hc & Hcompras)].
    - by apply unir_tablas_sin_traduccion.
    - by eapply unir_tablas_sin_compras. }
  destruct (handlers_por_error_de_union srv type value _ Hinit Hu) as [H1 H2].
  unfold obtener_datos, exportar_datos. by rewrite Hinit, H1, H2.
Qed.

Lemma deduplicar_sin_columna (a : DataFrame) :
  "Modelo" ∉ columns a ∨ "Codigo" ∉ columns a →
  ∃ label, deduplicar a = Raise (KeyError label).
Proof.
  intros Hcase. unfold deduplicar, df_col.
  destruct (decide ("Modelo" ∈ columns a)) as [Hm|Hm]; simpl; [|by eexists].
  destruct (decide ("Codigo" ∈ columns a)) as [Hc|Hc]; simpl; [|by eexists].
  by destruct Hcase.
Qed.

(** X3.  A reference sheet without its [Modelo] or [Codigo] column is
    answered with 400 by GET /data and with 500 by POST /export, whatever
    the purchase file is, present or not: the sheet is read and deduplicated
    before the purchase file is opened, and only the read handler has an
    [except KeyError]. *)
Theorem columna_de_referencia_ausente srv type value a :
  archivos_inicializados srv = true →
  traduccion_equipos srv = Some a →
  "Modelo" ∉ columns (iloc_drop_first a) ∨
  "Codigo" ∉ columns (iloc_drop_first a) →
  obtener_datos srv type value = HTTPError 400 ∧
  exportar_datos srv type value = HTTPError 500.
Proof.
  intros Hinit Ha Hcase.
  destruct (deduplicar_sin_columna _ Hcase) as [label Hd].
  assert (unir_tablas srv = Raise (KeyError label)) as Hu.
  { unfold unir_tablas. rewrite Ha. simpl. by rewrite Hd. }
  destruct (handlers_por_error_de_union srv type value _ Hinit Hu) as [H1 H2].
  unfold obtener_datos, exportar_datos. by rewrite Hinit, H1, H2.
Qed.

(** X4.  A value that is not a regular expression ([re.error]) is answered
    with 500 by both handlers once their table has been built. *)
Theorem valor_no_es_regex_500 srv type value :
  archivos_inicializados srv = true →
  re_compile value = None →
  (∀ df, preparar_lectura srv = Ok df →
         obtener_datos srv type value = HTTPError 500) ∧
  (∀ df, preparar_export srv = Ok df →
         exportar_datos srv type value = HTTPError 500).
Proof.
  intros Hinit Hre. split; intros df Hdf.
  - assert (columna_filtro type ∈ columns df) as Hcol.
    { apply preparar_lectura_columns in Hdf. rewrite Hdf.
      destruct type; apply (bool_decide_unpack _); by vm_compute. }
    unfold obtener_datos, obtener_datos_try. rewrite Hinit, Hdf. simpl.
    unfold filtrar. rewrite df_col_in by done. simpl.
    unfold compile. by rewrite Hre.
  - unfold exportar_datos, exportar_datos_try. rewrite Hinit, Hdf. simpl.
    unfold filtrar, df_col. case_decide; simpl; [|done].
    unfold compile. by rewrite Hre.
Qed.

(** X5.  The filter keeps the columns and the order of the rows, and
    filtering its result again with the same query changes nothing. *)
Theorem filtrar_sublista_idempotente type value df df' :
  filtrar type value df = Ok df' →
  columns df' = columns df ∧
  records df' `sublist_of` records df ∧
  filtrar type value df' = Ok df'.
Proof.
  intros H. pose proof (filtrar_Ok _ _ _ _ H) as (Hcols & p & Hp & Hrec).
  split; [done|]. split.
  - rewrite Hrec. apply sublist_filter.
  - unfold filtrar in H |- *. inv_bind H. apply df_col_Ok in Ha as [Hin _].
    rewrite df_col_in by (by rewrite Hcols). simpl.
    unfold compile. rewrite Hp. simpl. f_equal.
    destruct df' as [cols' recs']. simpl in *. unfold df_mask. simpl.
    f_equal. rewrite <- list_fmap_compose.
    etrans; [exact (boolean_index_fmap_pred
      (λ r, re_search p (py_str (loc r (columna_filtro type)))) recs')|].
    rewrite Hrec. by rewrite list_filter_filter_l.
Qed.

End Respuestas.

(** ** The shape of the answer of GET /data *)

Section FormaRespuesta.
Context `{L : Lib}.

Lemma astype_str_col_columns df label :
  columns (astype_str_col df label) = columns df.
Proof.
  unfold astype_str_col. case_decide as Hin; [|done]. simpl.
  unfold set_label. by rewrite decide_True.
Qed.

Lemma astype_str_col_length df label :
  length (records (astype_str_col df label)) = length (records df).
Proof.
  unfold astype_str_col. case_decide as Hin; [|done].
  rewrite df_set_col_eq. simpl. by rewrite length_fmap.
Qed.

(** What a JSON answer of the read handler comes from. *)
Lemma obtener_datos_JSON srv type value body :
  obtener_datos srv type value = JSONResponse body →
  ∃ df df', preparar_lectura srv = Ok df ∧ filtrar type value df = Ok df' ∧
    ((df_empty df' = true ∧ data body = [] ∧ info body = None) ∨
     (df_empty df' = false ∧ responder_datos df' = Ok body)).
Proof.
  unfold obtener_datos. destruct (negb _); [done|].
  destruct (obtener_datos_try srv type value) as [body'|e] eqn:Htry;
    [|by destruct e].
  intros [= ->]. unfold obtener_datos_try in Htry. do 2 inv_bind Htry.
  exists a, a0. split; [done|]. split; [done|].
  destruct (df_empty a0); [left|right; done].
  injection Htry as <-. done.
Qed.

(** X6.  Every record of an answer of GET /data has the same 24 keys, in the
    order of the column list of lines 209-215 with the display names of
    lines 216-231. *)
Theorem datos_columnas_fijas srv type value body :
  obtener_datos srv type value = JSONResponse body →
  ∀ rec, rec ∈ data body →
    rec.*1 =
    [ "Item"; "Cant"; "Nº O.COMPRA"; "FACTURA"; "Codigo"; "Modelo";
      "Descripcion"; "Material"; "Uso"; "País De Origen"; "Moneda";
      "Precio Unitario"; "Sub Total"; "Flete"; "Precio Total";
      "TRANSPORTISTA"; "FECHA FACTURA"; "Nº EMBARQUE"; "Air Waybill";
      "PROVEEDOR"; "INCOTERM"; "FORMA DE PAGO"; "ESTADO"; "Marca" ].
Proof.
  intros H rec Hrec.
  apply obtener_datos_JSON in H
    as (df & df' & Hdf & Hdf' & [(_ & Hd & _)|(_ & Hresp)]).
  { rewrite Hd in Hrec. by apply elem_of_nil in Hrec. }
  apply preparar_lectura_columns in Hdf.
  apply filtrar_Ok in Hdf' as [Hcols _].
  apply responder_datos_Ok in Hresp. rewrite Hresp in Hrec.
  unfold to_dict_records in Hrec.
  apply list_elem_of_fmap in Hrec as (r & -> & _).
  rewrite <- list_fmap_compose. simpl.
  rewrite astype_str_col_columns. simpl. rewrite Hcols, Hdf.
  etrans; [apply list_fmap_id|].
  apply (bool_decide_unpack _). by vm_compute.
Qed.

Lemma unir_tablas_length srv df c :
  unir_tablas srv = Ok df → compras_oci srv = Some c →
  length (records df) = length (records c).
Proof.
  unfold unir_tablas. intros H Hc. do 3 inv_bind H.
  rewrite Hc in Ha1. injection Ha1 as <-.
  apply deduplicar_NoDup in Ha0 as (_ & Hkeys & _).
  rewrite (merge_left_unique _ _ _ _ H Hkeys). by rewrite length_fmap.
Qed.

Lemma calcular_totales_length df df' :
  calcular_totales df = Ok df' →
  length (records df') = length (records df).
Proof.
  intros H. destruct (calcular_totales_columns _ _ H) as (Hp & Hc & Hf).
  destruct (calcular_totales_eq df Hp Hc Hf) as [cols Heq].
  rewrite Heq in H. injection H as <-. simpl. by rewrite length_fmap.
Qed.

Lemma preparar_lectura_length srv df c :
  preparar_lectura srv = Ok df → compras_oci srv = Some c →
  length (records df) = length (records c).
Proof.
  unfold preparar_lectura. intros H Hc. do 3 inv_bind H.
  injection H as <-. simpl. rewrite length_fmap.
  apply df_select_Ok in Ha1 as [_ ->]. rewrite length_fmap.
  rewrite (calcular_totales_length _ _ Ha0).
  by eapply unir_tablas_length.
Qed.

(** X7.  GET /data never returns more records than the purchase sheet has
    rows: the join adds none and the filter only drops rows. *)
Theorem datos_no_mas_que_compras srv type value body c :
  obtener_datos srv type value = JSONResponse body →
  compras_oci srv = Some c →
  length (data body) ≤ length (records c).
Proof.
  intros H Hc.
  apply obtener_datos_JSON in H
    as (df & df' & Hdf & Hdf' & [(_ & Hd & _)|(_ & Hresp)]).
  { rewrite Hd. simpl. lia. }
  apply responder_datos_Ok in Hresp. rewrite Hresp.
  unfold to_dict_records. rewrite length_fmap, astype_str_col_length.
  simpl. rewrite length_fmap.
  rewrite <- (preparar_lectura_length _ _ _ Hdf Hc).
  apply filtrar_Ok in Hdf' as (_ & p & _ & ->).
  apply length_filter.
Qed.

Lemma campo_notna cols (fila : row) label c :
  campo cols fila label = Ok c → notna c = true.
Proof.
  unfold campo. intros H. inv_bind H. injection H as <-.
  by destruct (notna a) eqn:Hn.
Qed.

Lemma campo_str_notna cols (fila : row) label c :
  campo_str cols fila label = Ok c → notna c = true.
Proof.
  unfold campo_str. intros H. inv_bind H. injection H as <-.
  by destruct (notna a).
Qed.

Lemma extraer_info_no_nulos cols (fila : row) i :
  extraer_info cols fila = Ok i → campos_no_nulos i.
Proof.
  unfold extraer_info. intros H. do 9 inv_bind H. injection H as <-.
  unfold campos_no_nulos. simpl.
  repeat split; first [by eapply campo_notna | by eapply campo_str_notna].
Qed.

(** X8.  The summary of an answer of GET /data is null exactly when [data]
    is empty, and otherwise none of its nine fields is null: a missing value
    has been replaced by a text. *)
Theorem info_nulo_o_completo srv type value body :
  obtener_datos srv type value = JSONResponse body →
  (info body = None ↔ data body = []) ∧
  ∀ i, info body = Some i → campos_no_nulos i.
Proof.
  intros H.
  apply obtener_datos_JSON in H
    as (df & df' & Hdf & Hdf' & [(_ & Hd & Hi)|(Hne & Hresp)]).
  { rewrite Hd, Hi. split; [done|]. intros i [=]. }
  pose proof (responder_datos_Ok _ _ Hresp) as Hdata.
  unfold responder_datos in Hresp. do 2 inv_bind Hresp.
  injection Hresp as <-. simpl in *.
  assert (to_dict_records
            (astype_str_col (df_map replace_nonfinite df') "FECHA FACTURA")
          ≠ []) as Hnonempty.
  { unfold iloc0 in Ha.
    destruct (records (astype_str_col _ _)) as [|r rs] eqn:Hr; [done|].
    unfold to_dict_records. rewrite Hr. done. }
  split.
  - split; [done|]. intros Hnil. by destruct Hnonempty.
  - intros i [= <-]. by eapply extraer_info_no_nulos.
Qed.

End FormaRespuesta.

(** ** Missing columns on the read path *)

Section ColumnasAusentes.
Context `{L : Lib}.

Lemma df_col_Raise df label e :
  df_col df label = Raise e → e = KeyError label ∧ label ∉ columns df.
Proof. unfold df_col. case_decide; [done|]. by intros [= <-]. Qed.

Lemma coerce_col_Raise df label e :
  coerce_col df label = Raise e → e = KeyError label ∧ label ∉ columns df.
Proof.
  unfold coerce_col. destruct (df_col df label) as [col|e'] eqn:Hcol; [done|].
  simpl. intros [= <-]. by apply df_col_Raise.
Qed.

Lemma coerce_col_columns df label df' :
  coerce_col df label = Ok df' → columns df' = columns df.
Proof.
  intros H. pose proof (coerce_col_Ok _ _ _ H) as Hin.
  unfold coerce_col in H. inv_bind H. injection H as <-. simpl.
  unfold set_label. by rewrite decide_True.
Qed.

Lemma calcular_totales_result_columns df df' :
  calcular_totales df = Ok df' →
  columns df' = set_label (set_label (columns df) "Sub Total") "Precio Total".
Proof.
  unfold calcular_totales. intros H.
  inv_bind H. apply coerce_col_columns in Ha.
  inv_bind H. apply coerce_col_columns in Ha0.
  inv_bind H. apply coerce_col_columns in Ha1.
  do 4 inv_bind H. injection H as <-. simpl. by rewrite Ha1, Ha0, Ha.
Qed.

Lemma set_label_elem cols label c :
  c ∈ set_label cols label ↔ c ∈ cols ∨ c = label.
Proof.
  unfold set_label. case_decide.
  - split; [by left|]. intros [?| ->]; done.
  - by rewrite elem_of_app, list_elem_of_singleton.
Qed.

Lemma calcular_totales_Raise df e :
  calcular_totales df = Raise e →
  ∃ label, e = KeyError label ∧
    label ∈ ["PCU1"; "Cantidad"; "Flete_US$"] ∧ label ∉ columns df.
Proof.
  intros H0. pose proof H0 as H. unfold calcular_totales in H.
  destruct (coerce_col df "PCU1") as [df1|e1] eqn:H1; simpl in H.
  2:{ injection H as <-. apply coerce_col_Raise in H1 as [-> ?].
      eexists. split; [done|]. split; [|done]. set_solver. }
  pose proof (coerce_col_columns _ _ _ H1) as Hc1.
  destruct (coerce_col df1 "Cantidad") as [df2|e2] eqn:H2; simpl in H.
  2:{ injection H as <-. apply coerce_col_Raise in H2 as [-> ?].
      eexists. split; [done|]. split; [set_solver|]. by rewrite <- Hc1. }
  pose proof (coerce_col_columns _ _ _ H2) as Hc2.
  destruct (coerce_col df2 "Flete_US$") as [df3|e3] eqn:H3; simpl in H.
  2:{ injection H as <-. apply coerce_col_Raise in H3 as [-> ?].
      eexists. split; [done|]. split; [set_solver|].
      by rewrite <- Hc1, <- Hc2. }
  pose proof (coerce_col_columns _ _ _ H3) as Hc3.
  pose proof (coerce_col_Ok _ _ _ H1) as Hp.
  pose proof (coerce_col_Ok _ _ _ H2) as Hq.
  pose proof (coerce_col_Ok _ _ _ H3) as Hf.
  rewrite Hc1 in Hq. rewrite Hc2, Hc1 in Hf.
  destruct (calcular_totales_eq df Hp Hq Hf) as [cols Heq].
  rewrite Heq in H0. discriminate H0.
Qed.

Lemma df_select_Raise df labels label :
  label ∈ labels → label ∉ columns df →
  ∃ c, df_select df labels = Raise (KeyError c).
Proof.
  intros Hin Hout. unfold df_select.
  destruct (filter (λ c, c ∉ columns df) labels) as [|c rest] eqn:Hf;
    [|by eexists].
  assert (label ∈ filter (λ c, c ∉ columns df) labels) as Hl
    by (by apply list_elem_of_filter).
  rewrite Hf in Hl. by apply elem_of_nil in Hl.
Qed.

(** X9.  GET /data answers 400 when the joined table lacks one of the
    columns it selects (Sub Total and Precio Total apart, which it
    computes). *)
Theorem columna_seleccionada_ausente_400 srv type value df label :
  archivos_inicializados srv = true →
  unir_tablas srv = Ok df →
  label ∈ columnas_lectura →
  label ≠ "Sub Total" → label ≠ "Precio Total" →
  label ∉ columns df →
  obtener_datos srv type value = HTTPError 400.
Proof.
  intros Hinit Hu Hin Hs Hp Hout.
  assert (∃ c, preparar_lectura srv = Raise (KeyError c)) as [c Hprep].
  { unfold preparar_lectura. rewrite Hu. simpl.
    destruct (calcular_totales df) as [df2|e] eqn:Hcalc; simpl.
    - destruct (df_select_Raise df2 columnas_lectura label Hin) as [c Hc].
      { rewrite (calcular_totales_result_columns _ _ Hcalc).
        rewrite !set_label_elem. naive_solver. }
      exists c. by rewrite Hc.
    - apply calcular_totales_Raise in Hcalc as (l & -> & _). by exists l. }
  unfold obtener_datos, obtener_datos_try. by rewrite Hinit, Hprep.
Qed.

End ColumnasAusentes.

(** ** The export handler past the filter *)

Section PlantillaExport.
Context `{L : Lib}.
Implicit Types (sheet : gmap (nat * nat) wsvalue) (vals : list cell)
  (rows : list (list cell)).

Lemma write_cells_other_row sheet r c vals r' c' :
  r' ≠ r → write_cells sheet r c vals !! (r', c') = sheet !! (r', c').
Proof. intros Hr. apply write_cells_other. by left. Qed.

Lemma write_rows_beyond sheet ri last c rows r' c' :
  ri + length rows ≤ r' →
  (write_rows sheet ri last c rows).1 !! (r', c') = sheet !! (r', c').
Proof.
  revert sheet ri last. induction rows as [|vals rows IH];
    intros sheet ri last Hr; [done|].
  simpl in *. rewrite IH by lia. apply write_cells_other_row. lia.
Qed.

(** Lines 353-369 change no cell above the first free row and none below
    the last written row. *)
Lemma escribir_tabla_fuera sheet ref rows r c :
  r ≤ max_row ref ∨ max_row ref + length rows < r →
  (escribir_tabla sheet ref rows).1 !! (r, c) = sheet !! (r, c).
Proof.
  intros Hr. unfold escribir_tabla. simpl.
  rewrite write_formulas_other_row.
  - destruct Hr as [Hr|Hr].
    + apply write_rows_other. lia.
    + apply write_rows_beyond. lia.
  - rewrite write_rows_last, elem_of_seq. destruct rows; simpl in *; lia.
Qed.

Lemma extraer_info_Raise cols (fila : row) e :
  extraer_info cols fila = Raise e → ∃ label, e = KeyError label.
Proof.
  assert (∀ label, (∃ c, campo cols fila label = Ok c) ∨
                   campo cols fila label = Raise (KeyError label)) as Hcampo.
  { intros label. unfold campo, fila_get. case_decide; simpl; eauto. }
  assert (∀ label, (∃ c, campo_str cols fila label = Ok c) ∨
                   campo_str cols fila label = Raise (KeyError label))
    as Hcampo_str.
  { intros label. unfold campo_str, fila_get. case_decide; simpl; eauto. }
  unfold extraer_info. intros H.
  destruct (Hcampo "TRANSPORTISTA") as [[c1 Hc]|Hc]; rewrite Hc in H;
    simpl in H; [clear Hc|injection H as <-; by eexists].
  destruct (Hcampo_str "FECHA FACTURA") as [[c2 Hc]|Hc]; rewrite Hc in H;
    simpl in H; [clear Hc|injection H as <-; by eexists].
  destruct (Hcampo "Nº EMBARQUE") as [[c3 Hc]|Hc]; rewrite Hc in H;
    simpl in H; [clear Hc|injection H as <-; by eexists].
  destruct (Hcampo "Air Waybill") as [[c4 Hc]|Hc]; rewrite Hc in H;
    simpl in H; [clear Hc|injection H as <-; by eexists].
  destruct (Hcampo "Marca") as [[c5 Hc]|Hc]; rewrite Hc in H;
    simpl in H; [clear Hc|injection H as <-; by eexists].
  destruct (Hcampo "PROVEEDOR") as [[c6 Hc]|Hc]; rewrite Hc in H;
    simpl in H; [clear Hc|injection H as <-; by eexists].
  destruct (Hcampo "INCOTERM") as [[c7 Hc]|Hc]; rewrite Hc in H;
    simpl in H; [clear Hc|injection H as <-; by eexists].
  destruct (Hcampo "FORMA DE PAGO") as [[c8 Hc]|Hc]; rewrite Hc in H;
    simpl in H; [clear Hc|injection H as <-; by eexists].
  destruct (Hcampo "ESTADO") as [[c9 Hc]|Hc]; rewrite Hc in H;
    simpl in H; [clear Hc|injection H as <-; by eexists].
  done.
Qed.

Lemma extraer_info_columna_fecha cols (fila : row) i :
  extraer_info cols fila = Ok i → "FECHA FACTURA" ∈ cols.
Proof.
  unfold extraer_info. intros H. do 2 inv_bind H.
  unfold campo_str, fila_get in Ha0. by case_decide.
Qed.

Lemma df_select_Raise_inv df labels e :
  df_select df labels = Raise e → ∃ c, e = KeyError c.
Proof.
  unfold df_select. destruct (filter _ labels); [done|].
  intros [= <-]. by eexists.
Qed.

Lemma df_select_no_vacio df dfx r :
  iloc0 df = Ok r → df_select df columnas_export = Ok dfx →
  df_empty dfx = false ∧ length (records dfx) = length (records df).
Proof.
  intros Hr Hsel. apply df_select_Ok in Hsel as [Hcols Hrec].
  split; [|by rewrite Hrec, length_fmap].
  unfold df_empty. apply bool_decide_eq_false. rewrite Hcols, Hrec.
  unfold iloc0 in Hr. destruct (records df); [done|].
  intros [?|?]; done.
Qed.

(** X10.  With matching rows and the template in place, an export whose
    first matching row has no invoice date is answered with 500: the date is
    formatted with [strftime], which NaT does not support. *)
Theorem export_fecha_ausente_500 srv type value df df' (r : row) rest wb :
  archivos_inicializados srv = true →
  preparar_export srv = Ok df →
  filtrar type value df = Ok df' →
  records df' = r :: rest →
  isna (loc r "FECHA FACTURA") = true →
  plantilla srv = Some wb →
  exportar_datos srv type value = HTTPError 500.
Proof.
  intros Hinit Hdf Hdf' Hrec Hna Hwb.
  assert (∃ e, exportar_datos_try srv type value = Raise e ∧
               e ≠ FileNotFoundError) as (e & Htry & Hne).
  { unfold exportar_datos_try. rewrite Hdf. simpl. rewrite Hdf'. simpl.
    unfold iloc0 at 1. rewrite Hrec. simpl.
    destruct (extraer_info (columns df') r) as [i|e] eqn:Hi; simpl.
    2:{ apply extraer_info_Raise in Hi as [l ->]. by eexists. }
    apply extraer_info_columna_fecha in Hi.
    destruct (df_select df' columnas_export) as [dfx|e] eqn:Hsel; simpl.
    2:{ apply df_select_Raise_inv in Hsel as [c ->]. by eexists. }
    destruct (df_empty dfx); [by eexists|].
    unfold llenar_plantilla. rewrite Hwb. simpl.
    destruct (tables wb !! "Tabla24"); simpl; [|by eexists].
    unfold fila_get. rewrite decide_True by done. simpl.
    assert (to_datetime (loc r "FECHA FACTURA") = Ok None) as ->.
    { destruct (loc r "FECHA FACTURA"); simpl in *; try done.
      by rewrite Hna. }
    simpl. by eexists. }
  unfold exportar_datos. rewrite Hinit, Htry. simpl. by destruct e.
Qed.

(** X11.  With matching rows, a missing template is answered with 404 and a
    template without the table Tabla24 with 500. *)
Theorem export_plantilla_ausente srv type value df df' (r : row) i dfx :
  archivos_inicializados srv = true →
  preparar_export srv = Ok df →
  filtrar type value df = Ok df' →
  iloc0 df' = Ok r →
  extraer_info (columns df') r = Ok i →
  df_select df' columnas_export = Ok dfx →
  (plantilla srv = None → exportar_datos srv type value = HTTPError 404) ∧
  (∀ wb, plantilla srv = Some wb → tables wb !! "Tabla24" = None →
         exportar_datos srv type value = HTTPError 500).
Proof.
  intros Hinit Hdf Hdf' Hr Hi Hsel.
  destruct (df_select_no_vacio _ _ _ Hr Hsel) as [Hne _].
  assert (exportar_datos_try srv type value =
          llenar_plantilla srv (columns df') r i dfx) as Htry.
  { unfold exportar_datos_try. rewrite Hdf. simpl. rewrite Hdf'. simpl.
    rewrite Hr. simpl. rewrite Hi. simpl. rewrite Hsel. simpl.
    by rewrite Hne. }
  unfold exportar_datos. rewrite Hinit, Htry. simpl.
  unfold llenar_plantilla. split.
  - intros ->. done.
  - intros wb -> Ht. simpl. by rewrite Ht.
Qed.

End PlantillaExport.

(** ** A successful export *)

Section ExportLogrado.
Context `{L : Lib}.

Lemma celdas_resumen_eq :
  celdas_resumen =
  [ (2, 4); (4, 4); (5, 4); (2, 11); (3, 11); (4, 11); (5, 11); (6, 11) ].
Proof. done. Qed.

Ltac busca_celda :=
  repeat (rewrite lookup_insert_ne by (intros [= ]; done));
  try rewrite lookup_insert_eq.

Lemma llenar_plantilla_Ok srv cols (r : row) i dfx wb' :
  llenar_plantilla srv cols r i dfx = Ok wb' →
  ∃ wb ref, plantilla srv = Some wb ∧ tables wb !! "Tabla24" = Some ref ∧
    let out := escribir_tabla (ws wb) ref (dataframe_to_rows dfx) in
    tables wb' = <["Tabla24" := out.2]> (tables wb) ∧
    (∀ k, k ∉ celdas_resumen → ws wb' !! k = out.1 !! k) ∧
    ws wb' !! coordinate "D" 2 = Some (WCell (info_TRANSPORTISTA i)) ∧
    ws wb' !! coordinate "D" 4 = Some (WCell (info_N_EMBARQUE i)) ∧
    ws wb' !! coordinate "D" 5 = Some (WCell (info_Air_Waybill i)) ∧
    ws wb' !! coordinate "K" 2 = Some (WCell (info_PROVEEDOR i)) ∧
    ws wb' !! coordinate "K" 3 = Some (WCell (info_INCOTERM i)) ∧
    ws wb' !! coordinate "K" 4 = Some (WCell (info_FORMA_DE_PAGO i)) ∧
    ws wb' !! coordinate "K" 5 = Some (WCell (info_ESTADO i)) ∧
    ws wb' !! coordinate "K" 6 = Some (WCell (info_MARCA i)).
Proof.
  unfold llenar_plantilla. destruct (plantilla srv) as [wb|]; [|done]. simpl.
  destruct (tables wb !! "Tabla24") as [ref|] eqn:Href; [|done]. simpl.
  intros H. do 3 inv_bind H. injection H as <-.
  exists wb, ref. split; [done|]. split; [done|].
  change (coordinate "D" 2) with (2, 4). change (coordinate "D" 4) with (4, 4).
  change (coordinate "D" 5) with (5, 4). change (coordinate "K" 2) with (2, 11).
  change (coordinate "K" 3) with (3, 11). change (coordinate "K" 4) with (4, 11).
  change (coordinate "K" 5) with (5, 11). change (coordinate "K" 6) with (6, 11).
  cbn [ws tables]. split; [done|]. split.
  { intros k Hk. rewrite celdas_resumen_eq in Hk.
    rewrite !not_elem_of_cons in Hk.
    destruct Hk as (?&?&?&?&?&?&?&?&_).
    by rewrite !lookup_insert_ne by done. }
  split_and!; by busca_celda.
Qed.

(** What a file answer of the export handler comes from. *)
Lemma exportar_datos_File srv type value wb' :
  exportar_datos srv type value = FileResponse wb' →
  ∃ df df' r i dfx,
    preparar_export srv = Ok df ∧ filtrar type value df = Ok df' ∧
    iloc0 df' = Ok r ∧ extraer_info (columns df') r = Ok i ∧
    df_select df' columnas_export = Ok dfx ∧
    llenar_plantilla srv (columns df') r i dfx = Ok wb'.
Proof.
  unfold exportar_datos. destruct (negb _); [done|].
  destruct (exportar_datos_try srv type value) as [wb|e] eqn:Htry;
    [|by destruct e].
  intros [= ->]. unfold exportar_datos_try in Htry. do 5 inv_bind Htry.
  destruct (df_empty a3); [done|]. by exists a, a0, a1, a2, a3.
Qed.

(** X12.  A successful export extends the table Tabla24 by as many rows as
    the filter retained (at least one) and leaves its other boundaries and
    the other tables as they were; of the cells of the template above the
    first free row and below the last written row it changes only the eight
    summary cells. *)
Theorem export_conserva_plantilla srv type value wb' wb ref :
  exportar_datos srv type value = FileResponse wb' →
  plantilla srv = Some wb →
  tables wb !! "Tabla24" = Some ref →
  ∃ df', preparar_export srv ≫= filtrar type value = Ok df' ∧
    let n := length (records df') in
    1 ≤ n ∧
    tables wb' =
      <["Tabla24" := mkRange (min_col ref) (min_row ref) (max_col ref)
                       (max_row ref + n)]> (tables wb) ∧
    ∀ r c, r ≤ max_row ref ∨ max_row ref + n < r →
           (r, c) ∉ celdas_resumen →
           ws wb' !! (r, c) = ws wb !! (r, c).
Proof.
  intros H Hwb Href.
  apply exportar_datos_File in H
    as (df & df' & r & i & dfx & Hdf & Hdf' & Hr & Hi & Hsel & Hfill).
  exists df'. split; [by rewrite Hdf|].
  destruct (df_select_no_vacio _ _ _ Hr Hsel) as [_ Hlen].
  apply llenar_plantilla_Ok in Hfill
    as (wb0 & ref0 & Hwb0 & Href0 & Htab & Hcells & _).
  rewrite Hwb in Hwb0. injection Hwb0 as <-.
  rewrite Href in Href0. injection Href0 as <-.
  assert (length (dataframe_to_rows dfx) = length (records df')) as Hrows.
  { unfold dataframe_to_rows. by rewrite length_fmap. }
  split_and!.
  - unfold iloc0 in Hr. destruct (records df'); [done|]. simpl. lia.
  - rewrite Htab. by rewrite escribir_tabla_ref, Hrows.
  - intros r' c' Hr' Hk. rewrite Hcells by done.
    apply escribir_tabla_fuera. by rewrite Hrows.
Qed.

(** X13.  A successful export writes the summary of the first retained row
    to D2, D4, D5 and K2 to K6; the invoice date it formats is written to no
    cell, and D3 keeps the content of the template when the table ends at
    row 3 or below. *)
Theorem export_estampa_resumen srv type value wb' wb ref :
  exportar_datos srv type value = FileResponse wb' →
  plantilla srv = Some wb →
  tables wb !! "Tabla24" = Some ref →
  ∃ df' r rest i,
    preparar_export srv ≫= filtrar type value = Ok df' ∧
    records df' = r :: rest ∧
    extraer_info (columns df') r = Ok i ∧
    ws wb' !! coordinate "D" 2 = Some (WCell (info_TRANSPORTISTA i)) ∧
    ws wb' !! coordinate "D" 4 = Some (WCell (info_N_EMBARQUE i)) ∧
    ws wb' !! coordinate "D" 5 = Some (WCell (info_Air_Waybill i)) ∧
    ws wb' !! coordinate "K" 2 = Some (WCell (info_PROVEEDOR i)) ∧
    ws wb' !! coordinate "K" 3 = Some (WCell (info_INCOTERM i)) ∧
    ws wb' !! coordinate "K" 4 = Some (WCell (info_FORMA_DE_PAGO i)) ∧
    ws wb' !! coordinate "K" 5 = Some (WCell (info_ESTADO i)) ∧
    ws wb' !! coordinate "K" 6 = Some (WCell (info_MARCA i)) ∧
    (3 ≤ max_row ref →
     ws wb' !! coordinate "D" 3 = ws wb !! coordinate "D" 3).
Proof.
  intros H Hwb Href.
  apply exportar_datos_File in H
    as (df & df' & r & i & dfx & Hdf & Hdf' & Hr & Hi & Hsel & Hfill).
  unfold iloc0 in Hr. destruct (records df') as [|r0 rest] eqn:Hrec; [done|].
  injection Hr as ->.
  exists df', r, rest, i. split; [by rewrite Hdf|]. split; [done|].
  split; [done|].
  apply llenar_plantilla_Ok in Hfill
    as (wb0 & ref0 & Hwb0 & Href0 & _ & Hcells & H1 & H2 & H3 & H4 & H5
        & H6 & H7 & H8).
  rewrite Hwb in Hwb0. injection Hwb0 as <-.
  rewrite Href in Href0. injection Href0 as <-.
  split_and!; try done.
  intros Hmax. rewrite Hcells.
  - apply escribir_tabla_fuera. left. simpl. lia.
  - rewrite celdas_resumen_eq. change (coordinate "D" 3) with (3, 4).
    rewrite !not_elem_of_cons. split_and!; try done. apply not_elem_of_nil.
Qed.

End ExportLogrado.

(** * The synchronisation with SharePoint *)

Section Sincronizacion.
Implicit Types (e : entorno) (c : config).
#[local] Arguments recoger : simpl never.

Local Abbreviation ruta_de c := (os_path_join download_dir (nombre c)).

Lemma buscar_documentos_halla pre d post n :
  (∀ d', d' ∈ pre →
         ∃ n', d_name d' = Some n' ∧ contiene "Documentos" n' = false) →
  d_name d = Some n → contiene "Documentos" n = true →
  buscar_documentos (pre ++ d :: post) = Hecho (Some d).
Proof.
  intros Hpre Hn Hc. induction pre as [|d' pre IH]; simpl.
  - by rewrite Hn; simpl; rewrite Hc.
  - destruct (Hpre d') as (n' & -> & Hc'); [by left|]. simpl. rewrite Hc'.
    apply IH. intros d'' Hd''. apply Hpre. by right.
Qed.

Lemma buscar_documentos_ninguno ds :
  (∀ d', d' ∈ ds →
         ∃ n', d_name d' = Some n' ∧ contiene "Documentos" n' = false) →
  buscar_documentos ds = Hecho None.
Proof.
  intros Hds. induction ds as [|d' ds IH]; simpl; [done|].
  destruct (Hds d') as (n' & -> & Hc'); [by left|]. simpl. rewrite Hc'.
  apply IH. intros d'' Hd''. apply Hds. by right.
Qed.

(** X14.  The drive [obtener_drive_id] chooses.  Once the site is answered
    with status 200 and an id, and the list of its drives is answered (with
    whatever status), the result is the id of the first drive whose name
    contains Documentos; when no name does, that of the first drive of the
    list, and an error on an empty list. *)
Theorem obtener_drive_id_elige e token r1 site sid r2 body ds :
  requests_get e site_url (Some ("Bearer " +:+ token)) = Hecho r1 →
  status_code r1 = 200 →
  json r1 = Hecho site → c_id site = Some sid →
  requests_get e ("https://graph.microsoft.com/v1.0/sites/" +:+ sid +:+ "/drives")
    (Some ("Bearer " +:+ token)) = Hecho r2 →
  json r2 = Hecho body → c_value body = Some ds →
  (∀ pre d post n,
     ds = pre ++ d :: post →
     (∀ d', d' ∈ pre →
            ∃ n', d_name d' = Some n' ∧ contiene "Documentos" n' = false) →
     d_name d = Some n → contiene "Documentos" n = true →
     obtener_drive_id e token = subscript "id" (d_id d)) ∧
  ((∀ d', d' ∈ ds →
          ∃ n', d_name d' = Some n' ∧ contiene "Documentos" n' = false) →
   obtener_drive_id e token =
     match ds with
     | d :: _ => subscript "id" (d_id d)
     | [] => Falla "list index out of range"
     end).
Proof.
  intros Hr1 Hst Hsite Hsid Hr2 Hbody Hds.
  assert (∀ od,
    buscar_documentos ds = Hecho od →
    obtener_drive_id e token =
      (document_drive ← match od with
                        | Some d => Hecho d
                        | None =>
                            match ds with
                            | d :: _ => Hecho d
                            | [] => Falla "list index out of range"
                            end
                        end;
       subscript "id" (d_id document_drive))) as Hgen.
  { intros od Hod. unfold obtener_drive_id. cbv zeta. rewrite Hr1. simpl.
    rewrite Hst. simpl. rewrite Hsite. simpl. rewrite Hsid. simpl.
    rewrite Hr2. simpl. rewrite Hbody. simpl. rewrite Hds. simpl.
    by rewrite Hod. }
  split.
  - intros pre d post n -> Hpre Hn Hc.
    by rewrite (Hgen (Some d)) by eauto using buscar_documentos_halla.
  - intros Hnone. rewrite (Hgen None) by by apply buscar_documentos_ninguno.
    by destruct ds.
Qed.

(** X15.  Without access nothing is downloaded.  When MSAL answers without
    an access token, or the site is answered with a status other than 200,
    the report is unsuccessful, counts no download and two files, carries
    that one error, and the disk is left as it was. *)
Theorem sincronizar_sin_acceso e d :
  (msal e = Hecho None →
   sincronizar_archivos e d = (mkReporte false 0 2 ["'access_token'"], d)) ∧
  (∀ t r, msal e = Hecho (Some t) →
     requests_get e site_url (Some ("Bearer " +:+ t)) = Hecho r →
     status_code r ≠ 200 →
     sincronizar_archivos e d =
       (mkReporte false 0 2
          ["Error al obtener sitio: " +:+ pretty (status_code r)], d)).
Proof.
  split.
  - intros Hm. unfold sincronizar_archivos, obtener_token. by rewrite Hm.
  - intros t r Hm Hr Hst.
    unfold sincronizar_archivos, obtener_token, obtener_drive_id.
    rewrite Hm. simpl. rewrite Hr. simpl.
    by rewrite bool_decide_eq_true_2.
Qed.

Lemma descargar_archivo_forma e c dr h dir :
  let ruta := os_path_join dir (nombre c) in
  (∃ s, s ≠ EmptyString ∧
        ∀ d, descargar_archivo e c dr h dir d = (None, Some s, d)) ∨
  (∃ url resp,
     requests_get e url None = Hecho resp ∧ status_code resp = 200 ∧
     ∀ d, descargar_archivo e c dr h dir d =
          (Some ruta, None, <[ruta := content resp]> d)).
Proof.
  unfold descargar_archivo, descargar_archivo_try. cbv zeta.
  destruct (requests_get e _ h) as [fr|s]; simpl;
    [|left; eexists; split; [|done]; done].
  case_bool_decide as Hfr; [left; eexists; split; [|done]; done|].
  destruct (json fr) as [fd|s]; simpl;
    [|left; eexists; split; [|done]; done].
  destruct (c_downloadUrl fd) as [[|a u]|];
    [left; eexists; split; [|done]; done| |left; eexists; split; [|done]; done].
  destruct (requests_get e (String a u) None) as [fc|s] eqn:Hfc; simpl;
    [|left; eexists; split; [|done]; done].
  case_bool_decide as Hst; [left; eexists; split; [|done]; done|].
  right. exists (String a u), fc. split; [done|]. split; [|done].
  by destruct (decide (status_code fc = 200)).
Qed.

(** X16.  A download ends with a path or with an error, never with both.
    Which of the two, and the message, do not depend on the disk.  An error
    is a non-empty text and leaves the disk as it was; a success returns the
    path of the file in the directory and stores under it the body of an
    answer with status 200. *)
Theorem descargar_archivo_ruta_o_error e c dr h dir :
  let ruta := os_path_join dir (nombre c) in
  (∃ s, s ≠ EmptyString ∧
        ∀ d, descargar_archivo e c dr h dir d = (None, Some s, d)) ∨
  (∃ url resp,
     requests_get e url None = Hecho resp ∧ status_code resp = 200 ∧
     ∀ d, descargar_archivo e c dr h dir d =
          (Some ruta, None, <[ruta := content resp]> d)).
Proof. apply descargar_archivo_forma. Qed.

Lemma recoger_forma e dr h c :
  (∃ s, s ≠ EmptyString ∧
        ∀ desc errs d,
          recoger e dr h (desc, errs, d) c = (desc, errs ++ [s], d)) ∨
  (∃ v, ∀ desc errs d,
          recoger e dr h (desc, errs, d) c =
          (desc ++ [Some (ruta_de c)], errs, <[ruta_de c := v]> d)).
Proof.
  destruct (descargar_archivo_forma e c dr h download_dir)
    as [(s & Hs & Heq)|(url & resp & _ & _ & Heq)].
  - left. exists s. split; [done|]. intros desc errs d. unfold recoger.
    rewrite Heq. by destruct s.
  - right. exists (content resp). intros desc errs d. unfold recoger.
    by rewrite Heq.
Qed.

Lemma foldl_recoger_inv e dr h l desc errs d :
  let r := foldl (recoger e dr h) (desc, errs, d) l in
  length r.1.1 + length r.1.2 = length desc + length errs + length l ∧
  (∀ p, p ∉ ((λ c, ruta_de c) <$> l) → r.2 !! p = d !! p) ∧
  (∀ p, is_Some (d !! p) → is_Some (r.2 !! p)) ∧
  (r.1.2 = [] →
   errs = [] ∧ ∀ c, c ∈ l → is_Some (r.2 !! ruta_de c)).
Proof.
  cbv zeta. revert desc errs d.
  induction l as [|c l IH]; intros desc errs d; simpl.
  - split_and!; [lia|done|done|]. intros ->. split; [done|].
    intros c Hc. by apply elem_of_nil in Hc.
  - destruct (recoger_forma e dr h c) as [(s & Hs & Heq)|(v & Heq)];
      rewrite Heq.
    + destruct (IH desc (errs ++ [s]) d) as (H1 & H2 & H3 & H4).
      split_and!.
      * rewrite H1, length_app. simpl. lia.
      * intros p Hp. apply H2. rewrite not_elem_of_cons in Hp. by destruct Hp.
      * done.
      * intros Hnil. destruct (H4 Hnil) as [Habs _]. by destruct errs.
    + destruct (IH (desc ++ [Some (ruta_de c)]) errs (<[ruta_de c := v]> d))
        as (H1 & H2 & H3 & H4).
      split_and!.
      * rewrite H1, length_app. simpl. lia.
      * intros p Hp. rewrite not_elem_of_cons in Hp. destruct Hp as [Hne Hp].
        rewrite H2 by done. by rewrite lookup_insert_ne.
      * intros p Hp. apply H3.
        destruct (decide (ruta_de c = p)) as [<-|Hne].
        -- rewrite lookup_insert_eq. by eexists.
        -- by rewrite lookup_insert_ne.
      * intros Hnil. destruct (H4 Hnil) as [Herrs Hl]. split; [done|].
        intros c' Hc'. apply elem_of_cons in Hc' as [->|Hc']; [|by apply Hl].
        apply H3. rewrite lookup_insert_eq. by eexists.
Qed.

Lemma sincronizar_archivos_casos e d :
  (∃ s, sincronizar_archivos e d =
        (mkReporte false 0 (length archivos_config) [s], d)) ∨
  (∃ t dr,
     obtener_token e = Hecho t ∧ obtener_drive_id e t = Hecho dr ∧
     sincronizar_archivos e d =
       let r := foldl (recoger e dr (Some ("Bearer " +:+ t))) ([], [], d)
                  (orden e) in
       (mkReporte (bool_decide (length r.1.2 = 0)) (length r.1.1)
                  (length archivos_config) r.1.2, r.2)).
Proof.
  unfold sincronizar_archivos.
  destruct (obtener_token e) as [t|s] eqn:Ht; simpl; [|by left; eexists].
  destruct (obtener_drive_id e t) as [dr|s] eqn:Hdr; simpl;
    [|by left; eexists].
  right. exists t, dr. split; [done|]. split; [done|].
  by destruct (foldl _ _ _) as [[desc errs] d'].
Qed.

Lemma exitoso_sin_errores (errs : list string) :
  bool_decide (length errs = 0) = true ↔ errs = [].
Proof.
  rewrite bool_decide_eq_true. split; [by destruct errs|by intros ->].
Qed.

(** X17.  The counts of a report.  The total is the number of configured
    files, two.  The report is successful exactly when it lists no error,
    and then both files were downloaded.  Once the token and the drive are
    there, every file is counted as downloaded or has one error; otherwise
    the report counts no download and one error for two files, and the disk
    is as it was. *)
Theorem sincronizar_archivos_cuentas e d r d' :
  orden e ≡ₚ archivos_config →
  sincronizar_archivos e d = (r, d') →
  total_archivos r = 2 ∧
  (exitoso r = true ↔ errores r = []) ∧
  (exitoso r = true → archivos_descargados r = 2) ∧
  (archivos_descargados r + length (errores r) = 2 ∨
   (archivos_descargados r = 0 ∧ length (errores r) = 1 ∧ d' = d)).
Proof.
  intros Hperm Hsync. apply Permutation_length in Hperm. simpl in Hperm.
  destruct (sincronizar_archivos_casos e d) as [(s & Heq)|(t & dr & _ & _ & Heq)];
    rewrite Heq in Hsync; cbv zeta in Hsync; injection Hsync as <- <-; simpl.
  - split_and!; [done|done|done|]. by right.
  - destruct (foldl_recoger_inv e dr (Some ("Bearer " +:+ t)) (orden e) [] [] d)
      as (Hlen & _). cbv zeta in Hlen. simpl in Hlen. rewrite Hperm in Hlen.
    split_and!; [done|apply exitoso_sin_errores| |by left].
    intros Hex. apply exitoso_sin_errores in Hex. rewrite Hex in Hlen.
    simpl in Hlen. lia.
Qed.

Lemma sincronizar_archivos_disco_aux e d r d' :
  orden e ≡ₚ archivos_config →
  sincronizar_archivos e d = (r, d') →
  (∀ p, p ∉ rutas_config → d' !! p = d !! p) ∧
  (∀ p, is_Some (d !! p) → is_Some (d' !! p)) ∧
  (exitoso r = true → ∀ p, p ∈ rutas_config → is_Some (d' !! p)).
Proof.
  intros Hperm Hsync.
  destruct (sincronizar_archivos_casos e d) as [(s & Heq)|(t & dr & _ & _ & Heq)];
    rewrite Heq in Hsync; cbv zeta in Hsync; injection Hsync as <- <-; simpl.
  - done.
  - destruct (foldl_recoger_inv e dr (Some ("Bearer " +:+ t)) (orden e) [] [] d)
      as (_ & Hout & Hkeep & Hall). cbv zeta in Hout, Hkeep, Hall.
    split_and!; [|done|].
    + intros p Hp. apply Hout. unfold rutas_config in Hp. by rewrite Hperm.
    + intros Hex p Hp. apply exitoso_sin_errores in Hex.
      destruct (Hall Hex) as [_ Hin]. unfold rutas_config in Hp.
      apply list_elem_of_fmap in Hp as (c & -> & Hc). apply Hin.
      by rewrite Hperm.
Qed.

(** X18.  The disk after a synchronisation.  Only the two configured paths
    of the directory can change, no file disappears, and after a successful
    report both configured files are there. *)
Theorem sincronizar_archivos_disco e d r d' :
  orden e ≡ₚ archivos_config →
  sincronizar_archivos e d = (r, d') →
  (∀ p, p ∉ rutas_config → d' !! p = d !! p) ∧
  (∀ p, is_Some (d !! p) → is_Some (d' !! p)) ∧
  (exitoso r = true → ∀ p, p ∈ rutas_config → is_Some (d' !! p)).
Proof. apply sincronizar_archivos_disco_aux. Qed.

Lemma foldl_recoger_rel e dr h l desc1 desc2 errs1 errs2 d :
  desc1 ≡ₚ desc2 → errs1 ≡ₚ errs2 →
  let r1 := foldl (recoger e dr h) (desc1, errs1, d) l in
  let r2 := foldl (recoger e dr h) (desc2, errs2, d) l in
  r1.2 = r2.2 ∧ r1.1.1 ≡ₚ r2.1.1 ∧ r1.1.2 ≡ₚ r2.1.2.
Proof.
  cbv zeta. revert desc1 desc2 errs1 errs2 d.
  induction l as [|c l IH]; intros desc1 desc2 errs1 errs2 d Hd He; simpl.
  - done.
  - destruct (recoger_forma e dr h c) as [(s & Hs & Heq)|(v & Heq)];
      rewrite !Heq; apply IH; try done.
    + by rewrite He.
    + by rewrite Hd.
Qed.

Lemma foldl_recoger_perm e dr h l1 l2 :
  l1 ≡ₚ l2 → NoDup ((λ c, ruta_de c) <$> l1) →
  ∀ desc1 desc2 errs1 errs2 d,
    desc1 ≡ₚ desc2 → errs1 ≡ₚ errs2 →
    let r1 := foldl (recoger e dr h) (desc1, errs1, d) l1 in
    let r2 := foldl (recoger e dr h) (desc2, errs2, d) l2 in
    r1.2 = r2.2 ∧ r1.1.1 ≡ₚ r2.1.1 ∧ r1.1.2 ≡ₚ r2.1.2.
Proof.
  cbv zeta. induction 1 as [|x l1 l2 Hperm IH|x y l|l1 l2 l3 H12 IH12 H23 IH23];
    intros Hnd desc1 desc2 errs1 errs2 d Hd He.
  - done.
  - simpl. apply NoDup_cons in Hnd as [_ Hnd].
    destruct (recoger_forma e dr h x) as [(s & _ & Heq)|(v & Heq)];
      rewrite !Heq; apply IH; try done.
    + by rewrite He.
    + by rewrite Hd.
  - simpl. apply NoDup_cons in Hnd as [Hxy _].
    rewrite not_elem_of_cons in Hxy. destruct Hxy as [Hxy _].
    destruct (recoger_forma e dr h x) as [(sx & _ & Hx)|(vx & Hx)];
      destruct (recoger_forma e dr h y) as [(sy & _ & Hy)|(vy & Hy)];
      rewrite ?Hx, ?Hy, ?Hx.
    + apply foldl_recoger_rel; [done|].
      rewrite He, <- !(assoc_L (++)). f_equiv. simpl. apply perm_swap.
    + apply foldl_recoger_rel; [by rewrite Hd|by rewrite He].
    + apply foldl_recoger_rel; [by rewrite Hd|by rewrite He].
    + rewrite (insert_insert_ne d (ruta_de y) (ruta_de x)) by done.
      apply foldl_recoger_rel; [|done].
      rewrite Hd, <- !(assoc_L (++)). f_equiv. simpl. apply perm_swap.
  - destruct (IH12 Hnd desc1 desc2 errs1 errs2 d Hd He) as (Ha & Hb & Hc).
    assert (NoDup ((λ c, ruta_de c) <$> l2)) as Hnd2 by by rewrite <- H12.
    destruct (IH23 Hnd2 desc2 desc2 errs2 errs2 d) as (Ha' & Hb' & Hc');
      [done|done|].
    split_and!; [congruence|by etrans|by etrans].
Qed.

Lemma rutas_config_NoDup : NoDup rutas_config.
Proof. apply (bool_decide_unpack _). vm_compute. exact I. Qed.

(** X19.  The completion order of the downloads does not matter.  Two
    synchronisations of the same disk against the same network, with the
    downloads completing in any two orders, leave the same disk and report
    the same outcome and counts; their errors are the same texts, in the
    order of completion. *)
Theorem sincronizar_archivos_orden e1 e2 d r1 d1 r2 d2 :
  msal e1 = msal e2 → requests_get e1 = requests_get e2 →
  orden e1 ≡ₚ archivos_config → orden e2 ≡ₚ archivos_config →
  sincronizar_archivos e1 d = (r1, d1) →
  sincronizar_archivos e2 d = (r2, d2) →
  d1 = d2 ∧ exitoso r1 = exitoso r2 ∧
  archivos_descargados r1 = archivos_descargados r2 ∧
  total_archivos r1 = total_archivos r2 ∧
  errores r1 ≡ₚ errores r2.
Proof.
  destruct e1 as [m g o1], e2 as [m' g' o2]. simpl.
  intros <- <- Ho1 Ho2 H1 H2.
  unfold sincronizar_archivos in H1, H2.
  change (obtener_token (mkEntorno m g o2))
    with (obtener_token (mkEntorno m g o1)) in H2.
  destruct (obtener_token (mkEntorno m g o1)) as [t|s]; simpl in H1, H2;
    [|injection H1 as <- <-; by injection H2 as <- <-].
  change (obtener_drive_id (mkEntorno m g o2) t)
    with (obtener_drive_id (mkEntorno m g o1) t) in H2.
  destruct (obtener_drive_id (mkEntorno m g o1) t) as [dr|s];
    simpl in H1, H2; [|injection H1 as <- <-; by injection H2 as <- <-].
  change (recoger (mkEntorno m g o2)) with (recoger (mkEntorno m g o1)) in H2.
  assert (o1 ≡ₚ o2) as Hperm by by rewrite Ho1, Ho2.
  assert (NoDup ((λ c, ruta_de c) <$> o1)) as Hnd.
  { rewrite Ho1. apply rutas_config_NoDup. }
  destruct (foldl_recoger_perm (mkEntorno m g o1) dr (Some ("Bearer " +:+ t))
              o1 o2 Hperm Hnd [] [] [] [] d) as (Hd & Hdesc & Herr);
    [done|done|].
  destruct (foldl _ _ o1) as [[desc1 errs1] dd1].
  destruct (foldl _ _ o2) as [[desc2 errs2] dd2].
  simpl in Hd, Hdesc, Herr.
  injection H1 as <- <-. injection H2 as <- <-. simpl.
  split_and!; [done| |by rewrite Hdesc|done|done].
  apply Permutation_length in Herr. by rewrite Herr.
Qed.

End Sincronizacion.

(** ** The synchronisation and the two handlers *)

Section Enlace.
Context `{L : Lib}.
Context (leer_datos leer_compras : string → DataFrame).
Context (abrir : string → workbook).

Local Abbreviation servidor := (servidor leer_datos leer_compras abrir).

Lemma sincronizar_startup e st :
  startup_event e st = (sincronizar e st).2.
Proof.
  unfold startup_event, sincronizar.
  destruct (sincronizar_archivos e (descargas st)) as [r d].
  by destruct (exitoso r).
Qed.

Lemma sincronizar_estado e st :
  (sincronizar e st).1 = (sincronizar_archivos e (descargas st)).1 ∧
  descargas (sincronizar e st).2 = (sincronizar_archivos e (descargas st)).2 ∧
  inicializados (sincronizar e st).2 =
    exitoso (sincronizar_archivos e (descargas st)).1 || inicializados st.
Proof.
  unfold sincronizar.
  destruct (sincronizar_archivos e (descargas st)) as [r d]. simpl.
  by destruct (exitoso r).
Qed.

(** X20.  The flag is raised by a successful synchronisation and never
    lowered.  The start-up and POST /sync leave the same state; after
    either, GET / shows the flag on which the handlers decide, and GET
    /data answers 503 exactly when the flag was down and the report is
    unsuccessful. *)
Theorem sincronizar_bandera e st type value :
  let st' := (sincronizar e st).2 in
  startup_event e st = st' ∧
  (read_root st').2 = archivos_inicializados (servidor st') ∧
  ((read_root st').2 = false ↔
   (read_root st).2 = false ∧ exitoso (sincronizar e st).1 = false) ∧
  (status (obtener_datos (servidor st') type value) = 503 ↔
   inicializados st = false ∧ exitoso (sincronizar e st).1 = false).
Proof.
  cbv zeta. destruct (sincronizar_estado e st) as (Hr & _ & Hflag).
  split; [apply sincronizar_startup|]. split; [done|].
  assert (inicializados (sincronizar e st).2 = false ↔
          inicializados st = false ∧ exitoso (sincronizar e st).1 = false)
    as Hiff.
  { rewrite Hflag, Hr. rewrite orb_false_iff. tauto. }
  split; [exact Hiff|]. rewrite <- Hiff.
  unfold obtener_datos. simpl.
  destruct (inicializados (sincronizar e st).2); simpl; [|done].
  split; [|done].
  destruct (obtener_datos_try _ _ _) as [?|[]]; simpl; done.
Qed.

(** X21.  A start-up that raises the flag leaves both source files in the
    directory: the handlers then find the two files they read, and the
    template is the one the directory had before, if any. *)
Theorem inicio_deja_fuentes e st :
  orden e ≡ₚ archivos_config →
  inicializados st = false →
  inicializados (startup_event e st) = true →
  let srv := servidor (startup_event e st) in
  archivos_inicializados srv = true ∧
  is_Some (traduccion_equipos srv) ∧ is_Some (compras_oci srv) ∧
  plantilla srv = plantilla (servidor st).
Proof.
  intros Hperm Hst Hst'. cbv zeta. rewrite sincronizar_startup in *.
  destruct (sincronizar_estado e st) as (_ & Hd & Hflag).
  rewrite Hst, orb_false_r in Hflag. rewrite Hflag in Hst'.
  destruct (sincronizar_archivos e (descargas st)) as [r d] eqn:Hsync.
  simpl in Hd, Hst'.
  destruct (sincronizar_archivos_disco_aux e (descargas st) r d Hperm Hsync)
    as (Hout & _ & Hall).
  unfold servidor; simpl. rewrite Hd.
  split; [by rewrite Hflag|]. split_and!.
  - apply fmap_is_Some, Hall; [done|].
    apply (bool_decide_unpack _). vm_compute. exact I.
  - apply fmap_is_Some, Hall; [done|].
    apply (bool_decide_unpack _). vm_compute. exact I.
  - f_equal. apply Hout. apply (bool_decide_unpack _). vm_compute. exact I.
Qed.

(** X22.  The synchronisation never provides the template.  On a directory
    without Plantilla.xlsx no export answers with a file after a
    synchronisation, whatever the network answers. *)
Theorem export_sin_plantilla_tras_sincronizar e st type value wb :
  orden e ≡ₚ archivos_config →
  descargas st !! os_path_join download_dir "Plantilla.xlsx" = None →
  exportar_datos (servidor (sincronizar e st).2) type value ≠ FileResponse wb.
Proof.
  intros Hperm Hnone Hfile.
  apply exportar_datos_File in Hfile
    as (df & df' & r & i & dfx & _ & _ & _ & _ & _ & Hfill).
  apply llenar_plantilla_Ok in Hfill as (wb0 & ref & Hwb & _).
  destruct (sincronizar_estado e st) as (_ & Hd & _).
  destruct (sincronizar_archivos e (descargas st)) as [rep d] eqn:Hsync.
  destruct (sincronizar_archivos_disco_aux e (descargas st) rep d Hperm Hsync)
    as (Hout & _).
  unfold servidor in Hwb; simpl in Hwb. rewrite Hd in Hwb. simpl in Hwb.
  rewrite Hout, Hnone in Hwb; [done|].
  apply (bool_decide_unpack _). vm_compute. exact I.
Qed.

End Enlace.

(** * The further properties on the sample files and the sample network *)

Module CasosExtra.
Import Instancia Ejemplo Variantes EjemploRed.
#[local] Existing Instance lib.

(** A closed decidable statement, settled by evaluating its decision. *)
Ltac calc := apply (bool_decide_unpack _); vm_compute; exact I.

Lemma archivo_fuente_ausente_404_witness :
  (archivos_inicializados srv_sin_traduccion = true ∧
   traduccion_equipos srv_sin_traduccion = None) ∧
  obtener_datos srv_sin_traduccion embarque "EMB" = HTTPError 404 ∧
  exportar_datos srv_sin_traduccion embarque "EMB" = HTTPError 404.
Proof.
  assert (archivos_inicializados srv_sin_traduccion = true) as H1 by calc.
  assert (traduccion_equipos srv_sin_traduccion = None) as H2 by calc.
  split; [exact (conj H1 H2)|].
  exact (archivo_fuente_ausente_404 srv_sin_traduccion embarque "EMB" H1
           (or_introl H2)).
Defined.

Lemma columna_de_referencia_ausente_witness :
  (archivos_inicializados srv_sin_modelo = true ∧
   traduccion_equipos srv_sin_modelo =
     Some (mkDF [ "Unnamed: 0"; "Codigo" ] []) ∧
   "Modelo" ∉ columns (iloc_drop_first (mkDF [ "Unnamed: 0"; "Codigo" ] []))) ∧
  obtener_datos srv_sin_modelo waybill "AWB" = HTTPError 400 ∧
  exportar_datos srv_sin_modelo waybill "AWB" = HTTPError 500.
Proof.
  assert (archivos_inicializados srv_sin_modelo = true) as H1 by calc.
  assert (traduccion_equipos srv_sin_modelo =
          Some (mkDF [ "Unnamed: 0"; "Codigo" ] [])) as H2 by calc.
  assert ("Modelo" ∉
          columns (iloc_drop_first (mkDF [ "Unnamed: 0"; "Codigo" ] [])))
    as H3 by calc.
  split; [exact (conj H1 (conj H2 H3))|].
  exact (columna_de_referencia_ausente srv_sin_modelo waybill "AWB" _ H1 H2
           (or_introl H3)).
Defined.

Lemma valor_no_es_regex_500_witness :
  (archivos_inicializados srv = true ∧ re_compile "(" = None ∧
   preparar_lectura srv = Ok lectura) ∧
  obtener_datos srv embarque "(" = HTTPError 500.
Proof.
  assert (archivos_inicializados srv = true) as H1 by calc.
  assert (re_compile "(" = None) as H2 by reflexivity.
  assert (preparar_lectura srv = Ok lectura) as H3 by calc.
  split; [exact (conj H1 (conj H2 H3))|].
  exact (proj1 (valor_no_es_regex_500 srv embarque "(" H1 H2) lectura H3).
Defined.

Lemma filtrar_sublista_idempotente_witness :
  filtrar embarque "emb" lectura = Ok (tabla (filtrar embarque "emb" lectura)) ∧
  length (records (tabla (filtrar embarque "emb" lectura))) = 1 ∧
  columns (tabla (filtrar embarque "emb" lectura)) = columns lectura ∧
  records (tabla (filtrar embarque "emb" lectura)) `sublist_of` records lectura ∧
  filtrar embarque "emb" (tabla (filtrar embarque "emb" lectura)) =
    Ok (tabla (filtrar embarque "emb" lectura)).
Proof.
  assert (filtrar embarque "emb" lectura =
          Ok (tabla (filtrar embarque "emb" lectura))) as H by calc.
  assert (length (records (tabla (filtrar embarque "emb" lectura))) = 1)
    as Hlen by calc.
  split; [exact H|]. split; [exact Hlen|].
  exact (filtrar_sublista_idempotente embarque "emb" lectura _ H).
Defined.

Lemma datos_columnas_fijas_witness :
  obtener_datos srv waybill "AWB" =
    JSONResponse (cuerpo (obtener_datos srv waybill "AWB")) ∧
  length (data (cuerpo (obtener_datos srv waybill "AWB"))) = 2 ∧
  ∀ rec, rec ∈ data (cuerpo (obtener_datos srv waybill "AWB")) →
    rec.*1 =
    [ "Item"; "Cant"; "Nº O.COMPRA"; "FACTURA"; "Codigo"; "Modelo";
      "Descripcion"; "Material"; "Uso"; "País De Origen"; "Moneda";
      "Precio Unitario"; "Sub Total"; "Flete"; "Precio Total";
      "TRANSPORTISTA"; "FECHA FACTURA"; "Nº EMBARQUE"; "Air Waybill";
      "PROVEEDOR"; "INCOTERM"; "FORMA DE PAGO"; "ESTADO"; "Marca" ].
Proof.
  assert (obtener_datos srv waybill "AWB" =
          JSONResponse (cuerpo (obtener_datos srv waybill "AWB"))) as H
    by calc.
  assert (length (data (cuerpo (obtener_datos srv waybill "AWB"))) = 2)
    as Hlen by calc.
  split; [exact H|]. split; [exact Hlen|].
  exact (datos_columnas_fijas srv waybill "AWB" _ H).
Defined.

Lemma datos_no_mas_que_compras_witness :
  (obtener_datos srv embarque "emb" =
     JSONResponse (cuerpo (obtener_datos srv embarque "emb")) ∧
   compras_oci srv = Some compras) ∧
  length (data (cuerpo (obtener_datos srv embarque "emb"))) ≤
    length (records compras).
Proof.
  assert (obtener_datos srv embarque "emb" =
          JSONResponse (cuerpo (obtener_datos srv embarque "emb"))) as H
    by calc.
  assert (compras_oci srv = Some compras) as Hc by calc.
  split; [exact (conj H Hc)|].
  exact (datos_no_mas_que_compras srv embarque "emb" _ compras H Hc).
Defined.

Lemma info_nulo_o_completo_witness :
  obtener_datos srv embarque "emb" =
    JSONResponse (cuerpo (obtener_datos srv embarque "emb")) ∧
  (info (cuerpo (obtener_datos srv embarque "emb")) = None ↔
   data (cuerpo (obtener_datos srv embarque "emb")) = []) ∧
  ∀ i, info (cuerpo (obtener_datos srv embarque "emb")) = Some i →
       campos_no_nulos i.
Proof.
  assert (obtener_datos srv embarque "emb" =
          JSONResponse (cuerpo (obtener_datos srv embarque "emb"))) as H
    by calc.
  split; [exact H|].
  exact (info_nulo_o_completo srv embarque "emb" _ H).
Defined.

Lemma columna_seleccionada_ausente_400_witness :
  (archivos_inicializados srv_sin_num_oc = true ∧
   unir_tablas srv_sin_num_oc = Ok (tabla (unir_tablas srv_sin_num_oc)) ∧
   "Num_OC" ∈ columnas_lectura ∧
   "Num_OC" ∉ columns (tabla (unir_tablas srv_sin_num_oc))) ∧
  obtener_datos srv_sin_num_oc embarque "emb" = HTTPError 400.
Proof.
  assert (archivos_inicializados srv_sin_num_oc = true) as H1 by calc.
  assert (unir_tablas srv_sin_num_oc = Ok (tabla (unir_tablas srv_sin_num_oc)))
    as H2 by calc.
  assert ("Num_OC" ∈ columnas_lectura) as H3 by calc.
  assert ("Num_OC" ≠ "Sub Total") as H4 by calc.
  assert ("Num_OC" ≠ "Precio Total") as H5 by calc.
  assert ("Num_OC" ∉ columns (tabla (unir_tablas srv_sin_num_oc))) as H6
    by calc.
  split; [exact (conj H1 (conj H2 (conj H3 H6)))|].
  exact (columna_seleccionada_ausente_400 srv_sin_num_oc embarque "emb" _
           "Num_OC" H1 H2 H3 H4 H5 H6).
Defined.

Lemma export_fecha_ausente_500_witness :
  (archivos_inicializados srv = true ∧
   preparar_export srv = Ok (tabla (preparar_export srv)) ∧
   filtrar waybill "AWB-78" (tabla (preparar_export srv)) =
     Ok (filtrado (preparar_export srv) waybill "AWB-78") ∧
   records (filtrado (preparar_export srv) waybill "AWB-78") =
     [primera (filtrado (preparar_export srv) waybill "AWB-78")] ∧
   isna (loc (primera (filtrado (preparar_export srv) waybill "AWB-78"))
             "FECHA FACTURA") = true ∧
   plantilla srv = Some plantilla_xlsx) ∧
  exportar_datos srv waybill "AWB-78" = HTTPError 500.
Proof.
  assert (archivos_inicializados srv = true) as H1 by calc.
  assert (preparar_export srv = Ok (tabla (preparar_export srv))) as H2
    by calc.
  assert (filtrar waybill "AWB-78" (tabla (preparar_export srv)) =
          Ok (filtrado (preparar_export srv) waybill "AWB-78")) as H3 by calc.
  assert (records (filtrado (preparar_export srv) waybill "AWB-78") =
          [primera (filtrado (preparar_export srv) waybill "AWB-78")])
    as H4 by calc.
  assert (isna (loc (primera (filtrado (preparar_export srv) waybill "AWB-78"))
                    "FECHA FACTURA") = true) as H5 by calc.
  assert (plantilla srv = Some plantilla_xlsx) as H6 by calc.
  split; [exact (conj H1 (conj H2 (conj H3 (conj H4 (conj H5 H6)))))|].
  exact (export_fecha_ausente_500 srv waybill "AWB-78" _ _ _ [] _
           H1 H2 H3 H4 H5 H6).
Defined.

Lemma export_plantilla_ausente_witness :
  (archivos_inicializados srv_sin_plantilla = true ∧
   preparar_export srv_sin_plantilla =
     Ok (tabla (preparar_export srv_sin_plantilla)) ∧
   filtrar embarque "emb" (tabla (preparar_export srv_sin_plantilla)) =
     Ok (filtrado (preparar_export srv_sin_plantilla) embarque "emb") ∧
   iloc0 (filtrado (preparar_export srv_sin_plantilla) embarque "emb") =
     Ok (primera (filtrado (preparar_export srv_sin_plantilla) embarque "emb")) ∧
   plantilla srv_sin_plantilla = None) ∧
  exportar_datos srv_sin_plantilla embarque "emb" = HTTPError 404.
Proof.
  assert (archivos_inicializados srv_sin_plantilla = true) as H1 by calc.
  assert (preparar_export srv_sin_plantilla =
          Ok (tabla (preparar_export srv_sin_plantilla))) as H2 by calc.
  assert (filtrar embarque "emb" (tabla (preparar_export srv_sin_plantilla)) =
          Ok (filtrado (preparar_export srv_sin_plantilla) embarque "emb"))
    as H3 by calc.
  assert (iloc0 (filtrado (preparar_export srv_sin_plantilla) embarque "emb") =
          Ok (primera
                (filtrado (preparar_export srv_sin_plantilla) embarque "emb")))
    as H4 by calc.
  assert (extraer_info
            (columns (filtrado (preparar_export srv_sin_plantilla) embarque "emb"))
            (primera (filtrado (preparar_export srv_sin_plantilla) embarque "emb")) =
          Ok (resumen (filtrado (preparar_export srv_sin_plantilla) embarque "emb")))
    as H5 by calc.
  assert (df_select (filtrado (preparar_export srv_sin_plantilla) embarque "emb")
            columnas_export =
          Ok (tabla (df_select
                       (filtrado (preparar_export srv_sin_plantilla) embarque "emb")
                       columnas_export))) as H6 by calc.
  assert (plantilla srv_sin_plantilla = None) as H7 by calc.
  split; [exact (conj H1 (conj H2 (conj H3 (conj H4 H7))))|].
  exact (proj1 (export_plantilla_ausente srv_sin_plantilla embarque "emb"
                  _ _ _ _ _ H1 H2 H3 H4 H5 H6) H7).
Defined.

Lemma export_conserva_plantilla_witness :
  (exportar_datos srv embarque "emb" =
     FileResponse (libro (exportar_datos srv embarque "emb")) ∧
   plantilla srv = Some plantilla_xlsx ∧
   tables plantilla_xlsx !! "Tabla24" = Some tabla24) ∧
  tables (libro (exportar_datos srv embarque "emb")) =
    {[ "Tabla24" := mkRange 2 8 16 10 ]} ∧
  ∃ df', preparar_export srv ≫= filtrar embarque "emb" = Ok df' ∧
    let n := length (records df') in
    1 ≤ n ∧
    tables (libro (exportar_datos srv embarque "emb")) =
      <["Tabla24" := mkRange (min_col tabla24) (min_row tabla24)
                       (max_col tabla24) (max_row tabla24 + n)]>
        (tables plantilla_xlsx) ∧
    ∀ r c, r ≤ max_row tabla24 ∨ max_row tabla24 + n < r →
           (r, c) ∉ celdas_resumen →
           ws (libro (exportar_datos srv embarque "emb")) !! (r, c) =
           ws plantilla_xlsx !! (r, c).
Proof.
  assert (exportar_datos srv embarque "emb" =
          FileResponse (libro (exportar_datos srv embarque "emb"))) as H1
    by calc.
  assert (plantilla srv = Some plantilla_xlsx) as H2 by calc.
  assert (tables plantilla_xlsx !! "Tabla24" = Some tabla24) as H3 by calc.
  assert (tables (libro (exportar_datos srv embarque "emb")) =
          {[ "Tabla24" := mkRange 2 8 16 10 ]}) as H4 by calc.
  split; [exact (conj H1 (conj H2 H3))|]. split; [exact H4|].
  exact (export_conserva_plantilla srv embarque "emb" _ _ _ H1 H2 H3).
Defined.

Lemma export_estampa_resumen_witness :
  (exportar_datos srv embarque "emb" =
     FileResponse (libro (exportar_datos srv embarque "emb")) ∧
   plantilla srv = Some plantilla_xlsx ∧
   tables plantilla_xlsx !! "Tabla24" = Some tabla24) ∧
  ws (libro (exportar_datos srv embarque "emb")) !! coordinate "D" 2 =
    Some (WCell (CStr "DHL")) ∧
  ws (libro (exportar_datos srv embarque "emb")) !! coordinate "D" 3 = None ∧
  ∃ df' r rest i,
    preparar_export srv ≫= filtrar embarque "emb" = Ok df' ∧
    records df' = r :: rest ∧
    extraer_info (columns df') r = Ok i ∧
    ws (libro (exportar_datos srv embarque "emb")) !! coordinate "D" 2 =
      Some (WCell (info_TRANSPORTISTA i)).
Proof.
  assert (exportar_datos srv embarque "emb" =
          FileResponse (libro (exportar_datos srv embarque "emb"))) as H1
    by calc.
  assert (plantilla srv = Some plantilla_xlsx) as H2 by calc.
  assert (tables plantilla_xlsx !! "Tabla24" = Some tabla24) as H3 by calc.
  assert (ws (libro (exportar_datos srv embarque "emb")) !! coordinate "D" 2 =
          Some (WCell (CStr "DHL"))) as H4 by calc.
  assert (ws (libro (exportar_datos srv embarque "emb")) !! coordinate "D" 3 =
          None) as H5 by calc.
  split; [exact (conj H1 (conj H2 H3))|]. split; [exact H4|].
  split; [exact H5|].
  destruct (export_estampa_resumen srv embarque "emb" _ _ _ H1 H2 H3)
    as (df' & r & rest & i & Hdf' & Hrec & Hi & HD2 & _).
  exists df', r, rest, i. exact (conj Hdf' (conj Hrec (conj Hi HD2))).
Defined.

Lemma obtener_drive_id_elige_witness :
  (requests_get (red 200 (Some "tok") archivos_config) site_url
     (Some ("Bearer " +:+ "tok")) =
     Hecho (mkResponse 200 (Hecho (mkCuerpo (Some "sitio") None None)) "") ∧
   requests_get (red 200 (Some "tok") archivos_config)
     ("https://graph.microsoft.com/v1.0/sites/" +:+ "sitio" +:+ "/drives")
     (Some ("Bearer " +:+ "tok")) =
     Hecho (mkResponse 200 (Hecho (mkCuerpo None (Some drives) None)) "") ∧
   contiene "Documentos" "Paginas" = false ∧
   contiene "Documentos" "Documentos compartidos" = true) ∧
  obtener_drive_id (red 200 (Some "tok") archivos_config) "tok" =
    Hecho "drive-2".
Proof.
  assert (requests_get (red 200 (Some "tok") archivos_config) site_url
            (Some ("Bearer " +:+ "tok")) =
          Hecho (mkResponse 200 (Hecho (mkCuerpo (Some "sitio") None None)) ""))
    as H1 by reflexivity.
  assert (requests_get (red 200 (Some "tok") archivos_config)
            ("https://graph.microsoft.com/v1.0/sites/" +:+ "sitio" +:+ "/drives")
            (Some ("Bearer " +:+ "tok")) =
          Hecho (mkResponse 200 (Hecho (mkCuerpo None (Some drives) None)) ""))
    as H2 by reflexivity.
  assert (contiene "Documentos" "Paginas" = false) as H3 by calc.
  assert (contiene "Documentos" "Documentos compartidos" = true) as H4 by calc.
  split; [exact (conj H1 (conj H2 (conj H3 H4)))|].
  refine (proj1 (obtener_drive_id_elige (red 200 (Some "tok") archivos_config)
                   "tok" _ (mkCuerpo (Some "sitio") None None) "sitio" _
                   (mkCuerpo None (Some drives) None) drives
                   H1 eq_refl eq_refl eq_refl H2 eq_refl eq_refl)
            [mkDrive (Some "Paginas") (Some "drive-1")]
            (mkDrive (Some "Documentos compartidos") (Some "drive-2")) []
            "Documentos compartidos" eq_refl _ eq_refl H4).
  intros d' Hd'. apply list_elem_of_singleton in Hd'. rewrite Hd'.
  exists "Paginas". exact (conj eq_refl H3).
Defined.

Lemma sincronizar_sin_acceso_witness :
  (msal (red 200 None archivos_config) = Hecho None ∧
   requests_get (red 200 (Some "otro") archivos_config) site_url
     (Some ("Bearer " +:+ "otro")) =
     Hecho (mkResponse 401 (Hecho sin_cuerpo) "")) ∧
  sincronizar_archivos (red 200 None archivos_config) disco_inicial =
    (mkReporte false 0 2 ["'access_token'"], disco_inicial) ∧
  sincronizar_archivos (red 200 (Some "otro") archivos_config) disco_inicial =
    (mkReporte false 0 2 ["Error al obtener sitio: 401"], disco_inicial).
Proof.
  assert (msal (red 200 None archivos_config) = Hecho None) as H1
    by reflexivity.
  assert (requests_get (red 200 (Some "otro") archivos_config) site_url
            (Some ("Bearer " +:+ "otro")) =
          Hecho (mkResponse 401 (Hecho sin_cuerpo) "")) as H2 by reflexivity.
  assert (status_code (mkResponse 401 (Hecho sin_cuerpo) "") ≠ 200) as H3
    by calc.
  split; [exact (conj H1 H2)|]. split.
  - exact (proj1 (sincronizar_sin_acceso (red 200 None archivos_config)
                    disco_inicial) H1).
  - exact (proj2 (sincronizar_sin_acceso (red 200 (Some "otro") archivos_config)
                    disco_inicial) "otro" _ eq_refl H2 H3).
Defined.

Lemma sincronizar_archivos_cuentas_witness :
  (orden (red 404 (Some "tok") archivos_config) ≡ₚ archivos_config ∧
   sincronizar_archivos (red 404 (Some "tok") archivos_config) disco_inicial =
     (mkReporte false 1 2
        ["Error al obtener info del archivo Traduccion-Equipos.xlsx: 404"],
      <["./descargas/002_Compras_OCI.xlsx" := "bytes de compras"]>
        disco_inicial)) ∧
  total_archivos
    (mkReporte false 1 2
       ["Error al obtener info del archivo Traduccion-Equipos.xlsx: 404"]) = 2.
Proof.
  assert (orden (red 404 (Some "tok") archivos_config) ≡ₚ archivos_config)
    as H1 by reflexivity.
  assert (sincronizar_archivos (red 404 (Some "tok") archivos_config)
            disco_inicial =
          (mkReporte false 1 2
             ["Error al obtener info del archivo Traduccion-Equipos.xlsx: 404"],
           <["./descargas/002_Compras_OCI.xlsx" := "bytes de compras"]>
             disco_inicial)) as H2 by calc.
  split; [exact (conj H1 H2)|].
  exact (proj1 (sincronizar_archivos_cuentas _ _ _ _ H1 H2)).
Defined.

Lemma sincronizar_archivos_disco_witness :
  (orden (red 200 (Some "tok") archivos_config) ≡ₚ archivos_config ∧
   sincronizar_archivos (red 200 (Some "tok") archivos_config) disco_inicial =
     (mkReporte true 2 2 [],
      <["./descargas/Traduccion-Equipos.xlsx" := "bytes de traduccion"]>
        (<["./descargas/002_Compras_OCI.xlsx" := "bytes de compras"]>
           disco_inicial))) ∧
  (∀ p, p ∉ rutas_config →
        <["./descargas/Traduccion-Equipos.xlsx" := "bytes de traduccion"]>
          (<["./descargas/002_Compras_OCI.xlsx" := "bytes de compras"]>
             disco_inicial) !! p = disco_inicial !! p).
Proof.
  assert (orden (red 200 (Some "tok") archivos_config) ≡ₚ archivos_config)
    as H1 by reflexivity.
  assert (sincronizar_archivos (red 200 (Some "tok") archivos_config)
            disco_inicial =
          (mkReporte true 2 2 [],
           <["./descargas/Traduccion-Equipos.xlsx" := "bytes de traduccion"]>
             (<["./descargas/002_Compras_OCI.xlsx" := "bytes de compras"]>
                disco_inicial))) as H2 by calc.
  split; [exact (conj H1 H2)|].
  exact (proj1 (sincronizar_archivos_disco _ _ _ _ H1 H2)).
Defined.

Lemma sincronizar_archivos_orden_witness :
  (orden (red 404 (Some "tok") archivos_config) ≡ₚ archivos_config ∧
   orden (red 404 (Some "tok") (reverse archivos_config)) ≡ₚ archivos_config) ∧
  (sincronizar_archivos (red 404 (Some "tok") archivos_config)
     disco_inicial).2 =
  (sincronizar_archivos (red 404 (Some "tok") (reverse archivos_config))
     disco_inicial).2.
Proof.
  assert (orden (red 404 (Some "tok") archivos_config) ≡ₚ archivos_config)
    as H1 by reflexivity.
  assert (orden (red 404 (Some "tok") (reverse archivos_config))
            ≡ₚ archivos_config) as H2 by apply reverse_Permutation.
  split; [exact (conj H1 H2)|].
  exact (proj1 (sincronizar_archivos_orden
                  (red 404 (Some "tok") archivos_config)
                  (red 404 (Some "tok") (reverse archivos_config))
                  disco_inicial _ _ _ _ eq_refl eq_refl H1 H2
                  (surjective_pairing _) (surjective_pairing _))).
Defined.

Lemma inicio_deja_fuentes_witness :
  (orden (red 200 (Some "tok") archivos_config) ≡ₚ archivos_config ∧
   inicializados (mkEstado disco_inicial false) = false ∧
   inicializados
     (startup_event (red 200 (Some "tok") archivos_config)
        (mkEstado disco_inicial false)) = true) ∧
  is_Some (traduccion_equipos
             (servidor (λ _, traduccion) (λ _, compras) (λ _, plantilla_xlsx)
                (startup_event (red 200 (Some "tok") archivos_config)
                   (mkEstado disco_inicial false)))).
Proof.
  assert (orden (red 200 (Some "tok") archivos_config) ≡ₚ archivos_config)
    as H1 by reflexivity.
  assert (inicializados (mkEstado disco_inicial false) = false) as H2
    by reflexivity.
  assert (inicializados
            (startup_event (red 200 (Some "tok") archivos_config)
               (mkEstado disco_inicial false)) = true) as H3 by calc.
  split; [exact (conj H1 (conj H2 H3))|].
  exact (proj1 (proj2 (inicio_deja_fuentes
                         (λ _, traduccion) (λ _, compras) (λ _, plantilla_xlsx)
                         _ _ H1 H2 H3))).
Defined.

Lemma export_sin_plantilla_tras_sincronizar_witness :
  (orden (red 200 (Some "tok") archivos_config) ≡ₚ archivos_config ∧
   descargas (mkEstado ∅ false) !! os_path_join download_dir "Plantilla.xlsx" =
     None) ∧
  exportar_datos
    (servidor (λ _, traduccion) (λ _, compras) (λ _, plantilla_xlsx)
       (sincronizar (red 200 (Some "tok") archivos_config)
          (mkEstado ∅ false)).2) embarque "emb" = HTTPError 404 ∧
  exportar_datos
    (servidor (λ _, traduccion) (λ _, compras) (λ _, plantilla_xlsx)
       (sincronizar (red 200 (Some "tok") archivos_config)
          (mkEstado ∅ false)).2) embarque "emb" ≠ FileResponse plantilla_xlsx.
Proof.
  assert (orden (red 200 (Some "tok") archivos_config) ≡ₚ archivos_config)
    as H1 by reflexivity.
  assert (descargas (mkEstado ∅ false)
            !! os_path_join download_dir "Plantilla.xlsx" = None) as H2
    by calc.
  assert (exportar_datos
            (servidor (λ _, traduccion) (λ _, compras) (λ _, plantilla_xlsx)
               (sincronizar (red 200 (Some "tok") archivos_config)
                  (mkEstado ∅ false)).2) embarque "emb" = HTTPError 404)
    as H3 by calc.
  split; [exact (conj H1 H2)|]. split; [exact H3|].
  exact (export_sin_plantilla_tras_sincronizar
           (λ _, traduccion) (λ _, compras) (λ _, plantilla_xlsx)
           _ _ embarque "emb" plantilla_xlsx H1 H2).
Defined.

End CasosExtra.
